(** * Session authentication for the todo application

    A shallow embedding of the Express / Passport.js authentication layer
    (controllers/auth.js, config/passport.js, models/User.js,
    middleware/auth.js, routes/main.js, routes/todos.js and the middleware
    stack of server.js), with the properties of its specification proved
    about it.

    Callbacks are modelled by explicit state passing: a handler maps the
    request and the world (users collection, session store, console) to
    an outcome, the request as the handler left it and the new world.

    The packages behind the calls of the application are followed where
    the application depends on what they do: Express 4 for the routing,
    express-session with the store of connect-mongo for the sessions,
    express-flash for [req.flash] and [res.render], and Passport 0.6, the
    release whose [req.logout] takes the callback that the controller
    passes, for [req.logIn], [req.logout] and [passport.session()]. *)

From Stdlib Require Import Ascii String List Bool Arith Lia.
From stdpp Require Import base strings gmap list option.

Open Scope string_scope.
Open Scope nat_scope.
Open Scope list_scope.

(** * JavaScript strings

    A string is a sequence of UTF-16 code units; the model covers the code
    units below 256, which a Rocq [ascii] holds. *)
Module Js.

Definition code (c : ascii) : nat := nat_of_ascii c.

Definition between (lo hi : nat) (c : ascii) : bool :=
  (lo <=? code c) && (code c <=? hi).

Definition is_upper (c : ascii) : bool :=
  between 65 90 c || (between 192 222 c && negb (code c =? 215)).

Definition is_lower_az (c : ascii) : bool := between 97 122 c.
Definition is_upper_az (c : ascii) : bool := between 65 90 c.
Definition is_digit (c : ascii) : bool := between 48 57 c.

(** [/[a-z]/i] *)
Definition is_alpha (c : ascii) : bool := is_lower_az c || is_upper_az c.

(** The code units from 161 up. *)
Definition is_high (c : ascii) : bool := 161 <=? code c.

(** [\s] *)
Definition is_space (c : ascii) : bool :=
  between 9 13 c || (code c =? 32) || (code c =? 160).

Definition one_of (set : string) (c : ascii) : bool :=
  existsb (Ascii.eqb c) (list_ascii_of_string set).

Definition toLowerChar (c : ascii) : ascii :=
  if is_upper c then ascii_of_nat (code c + 32) else c.

Fixpoint toLowerCase (s : string) : string :=
  match s with
  | EmptyString => EmptyString
  | String c r => String (toLowerChar c) (toLowerCase r)
  end.

(** [s.split(sep)] for a one-character separator: never the empty array. *)
Fixpoint split (sep : ascii) (s : string) : list string :=
  match s with
  | EmptyString => [EmptyString]
  | String c r =>
      if Ascii.eqb c sep then EmptyString :: split sep r
      else match split sep r with
           | h :: t => String c h :: t
           | [] => [String c EmptyString]
           end
  end.

Definition join (sep : string) (l : list string) : string := String.concat sep l.

(** [a.pop()] as the pair of the shortened array and the popped element. *)
Definition pop (l : list string) : list string * string :=
  (removelast l, List.last l EmptyString).

Fixpoint every (p : ascii -> bool) (s : string) : bool :=
  match s with
  | EmptyString => true
  | String c r => p c && every p r
  end.

Fixpoint some (p : ascii -> bool) (s : string) : bool :=
  match s with
  | EmptyString => false
  | String c r => p c || some p r
  end.

(** [/^[class]+$/] *)
Definition plus (p : ascii -> bool) (s : string) : bool :=
  (0 <? String.length s) && every p s.

(** [/^[class]{2,}$/] *)
Definition two_or_more (p : ascii -> bool) (s : string) : bool :=
  (2 <=? String.length s) && every p s.

Definition first (s : string) : option ascii :=
  match s with EmptyString => None | String c _ => Some c end.

Fixpoint last_char (s : string) : option ascii :=
  match s with
  | EmptyString => None
  | String c EmptyString => Some c
  | String _ r => last_char r
  end.

Definition starts_with (c : ascii) (s : string) : bool :=
  match first s with Some d => Ascii.eqb c d | None => false end.

Definition ends_with (c : ascii) (s : string) : bool :=
  match last_char s with Some d => Ascii.eqb c d | None => false end.

(** Number of bytes of the UTF-8 encoding. *)
Fixpoint byteLength (s : string) : nat :=
  match s with
  | EmptyString => 0
  | String c r => (if code c <? 128 then 1 else 2) + byteLength r
  end.

End Js.

(** * The [validator] package

    The controllers call [validator.isEmail], [validator.isEmpty],
    [validator.isLength] and [validator.normalizeEmail].  The package is a
    dependency of the application.  [isEmpty] and [isLength] are fixed here;
    [isEmail] and [normalizeEmail] are an interface, so that what is proved
    of the controllers holds for every release of the package, and
    [Validator13] below is the instance that follows release 13 with its
    default options. *)

(** [validator.isEmpty(str)] with the default [ignore_whitespace: false]. *)
Definition isEmpty (str : string) : bool := String.length str =? 0.

(** [validator.isLength(str, { min })]. *)
Definition isLength (str : string) (min : nat) : bool := min <=? String.length str.

Class Validator := {
  (** [validator.isEmail(str)] *)
  isEmail : string -> bool;
  (** [validator.normalizeEmail(email, { gmail_remove_dots })]; [None] is
      the [false] the function returns for an address it cannot normalize. *)
  normalizeEmail : string -> bool -> option string
}.

Module Validator13.
Import Js.

(** The unquoted local part, between two dots: one or more letters, digits,
    the listed punctuation marks or code units from 161 up, case ignored. *)
Definition emailUserUtf8Part (s : string) : bool :=
  plus (fun c => is_alpha c || is_digit c || one_of "!#$%&'*+-/=?^_`{|}~" c || is_high c) s.

(** The quoted local part: a sequence of plain characters and of
    backslash escapes. *)
Definition quoted_plain (c : ascii) : bool :=
  is_space c || between 1 8 c || (code c =? 11) || (code c =? 12) || between 14 31 c
  || (code c =? 127) || (code c =? 33) || between 35 91 c || between 93 126 c || is_high c.

Definition quoted_escaped (c : ascii) : bool :=
  between 1 9 c || (code c =? 11) || (code c =? 12) || between 13 127 c || is_high c.

Fixpoint quotedEmailUserUtf8 (s : string) : bool :=
  match s with
  | EmptyString => true
  | String c r =>
      if quoted_plain c then quotedEmailUserUtf8 r
      else if code c =? 92 then
        match r with
        | String d r' => quoted_escaped d && quotedEmailUserUtf8 r'
        | EmptyString => false
        end
      else false
  end.

(** The top-level domain: two or more letters or code units 161-168 and
    from 170 up, or xn followed by two or more letters, digits or dashes. *)
Definition tld_ok (tld : string) : bool :=
  two_or_more (fun c => is_alpha c || between 161 168 c || (170 <=? code c)) tld
  || match tld with
     | String x (String n r) =>
         one_of "xX" x && one_of "nN" n
         && two_or_more (fun c => is_alpha c || is_digit c || (code c =? 45)) r
     | _ => false
     end.

Definition fqdn_part (part : string) : bool :=
  (String.length part <=? 63)
  && plus (fun c => is_alpha c || (code c =? 95) || is_high c || is_digit c || (code c =? 45)) part
  && negb (starts_with "-" part || ends_with "-" part)
  && negb (some (fun c => code c =? 95) part).

(** [isFQDN(str, { require_tld: true })] *)
Definition isFQDN (str : string) : bool :=
  let parts := split "." str in
  let tld := List.last parts EmptyString in
  (2 <=? length parts)
  && tld_ok tld
  && negb (some is_space tld)
  && negb (plus is_digit tld)
  && forallb fqdn_part parts.

Definition quote : ascii := ascii_of_nat 34.

Definition isEmail (str : string) : bool :=
  if 254 <? String.length str then false else
  let '(parts, domain) := pop (split "@" str) in
  let user := join "@" parts in
  if negb ((byteLength user <=? 64) && (byteLength domain <=? 254)) then false else
  if negb (isFQDN domain) then false else
  if starts_with quote user && ends_with quote user then
    quotedEmailUserUtf8 (String.substring 1 (String.length user - 2) user)
  else forallb emailUserUtf8Part (split "." user).

Definition icloud_domains : list string := ["icloud.com"; "me.com"].

Definition outlookdotcom_domains : list string :=
  ["hotmail.at"; "hotmail.be"; "hotmail.ca"; "hotmail.cl"; "hotmail.co.il";
   "hotmail.co.nz"; "hotmail.co.th"; "hotmail.co.uk"; "hotmail.com";
   "hotmail.com.ar"; "hotmail.com.au"; "hotmail.com.br"; "hotmail.com.gr";
   "hotmail.com.mx"; "hotmail.com.pe"; "hotmail.com.tr"; "hotmail.com.vn";
   "hotmail.cz"; "hotmail.de"; "hotmail.dk"; "hotmail.es"; "hotmail.fr";
   "hotmail.hu"; "hotmail.id"; "hotmail.ie"; "hotmail.in"; "hotmail.it";
   "hotmail.jp"; "hotmail.kr"; "hotmail.lv"; "hotmail.my"; "hotmail.ph";
   "hotmail.pt"; "hotmail.sa"; "hotmail.sg"; "hotmail.sk"; "live.be";
   "live.co.uk"; "live.com"; "live.com.ar"; "live.com.mx"; "live.de";
   "live.es"; "live.eu"; "live.fr"; "live.it"; "live.nl"; "msn.com";
   "outlook.at"; "outlook.be"; "outlook.cl"; "outlook.co.il"; "outlook.co.nz";
   "outlook.co.th"; "outlook.com"; "outlook.com.ar"; "outlook.com.au";
   "outlook.com.br"; "outlook.com.gr"; "outlook.com.pe"; "outlook.com.tr";
   "outlook.com.vn"; "outlook.cz"; "outlook.de"; "outlook.dk"; "outlook.es";
   "outlook.fr"; "outlook.hu"; "outlook.id"; "outlook.ie"; "outlook.in";
   "outlook.it"; "outlook.jp"; "outlook.kr"; "outlook.lv"; "outlook.my";
   "outlook.ph"; "outlook.pt"; "outlook.sa"; "outlook.sg"; "outlook.sk";
   "passport.com"].

Definition yahoo_domains : list string :=
  ["rocketmail.com"; "yahoo.ca"; "yahoo.co.uk"; "yahoo.com"; "yahoo.de";
   "yahoo.fr"; "yahoo.in"; "yahoo.it"; "ymail.com"].

Definition yandex_domains : list string :=
  ["yandex.ru"; "yandex.ua"; "yandex.kz"; "yandex.com"; "yandex.by"; "ya.ru"].

Definition includes (l : list string) (s : string) : bool := existsb (String.eqb s) l.

(** [user.split('+')[0]] *)
Definition before_plus (user : string) : string := List.hd EmptyString (split "+" user).

(** [user.replace(/\.+/g, dotsReplacer)]: a single dot is dropped, a run of
    dots is kept. *)
Fixpoint remove_dots (prev_dot : bool) (s : string) : string :=
  match s with
  | EmptyString => EmptyString
  | String c r =>
      if code c =? 46 then
        if prev_dot || starts_with "." r then String c (remove_dots true r)
        else remove_dots false r
      else String c (remove_dots false r)
  end.

(** The Yahoo rule: drop the last dash-separated component when there is
    more than one. *)
Definition yahoo_user (user : string) : string :=
  let components := split "-" user in
  if 1 <? length components then join "-" (removelast components)
  else List.hd EmptyString components.

Definition nonempty_lower (user domain : string) : option string :=
  if String.length user =? 0 then None
  else Some (toLowerCase user +:+ "@" +:+ domain).

Definition normalizeEmail (email : string) (gmail_remove_dots : bool) : option string :=
  let '(raw_parts, raw_domain) := pop (split "@" email) in
  let user := join "@" raw_parts in
  let domain := toLowerCase raw_domain in
  if String.eqb domain "gmail.com" || String.eqb domain "googlemail.com" then
    let user := before_plus user in
    let user := if gmail_remove_dots then remove_dots false user else user in
    nonempty_lower user "gmail.com"
  else if includes icloud_domains domain then nonempty_lower (before_plus user) domain
  else if includes outlookdotcom_domains domain then nonempty_lower (before_plus user) domain
  else if includes yahoo_domains domain then nonempty_lower (yahoo_user user) domain
  else if includes yandex_domains domain then Some (toLowerCase user +:+ "@" +:+ "yandex.ru")
  else Some (toLowerCase user +:+ "@" +:+ domain).

End Validator13.

Definition validator13 : Validator :=
  {| isEmail := Validator13.isEmail; normalizeEmail := Validator13.normalizeEmail |}.

(** * The [bcrypt] package

    [bcrypt.genSalt], [bcrypt.hash] and [bcrypt.compare] are taken as an
    interface.  The salt is a function of the rounds and of the entropy the
    generator has consumed so far, which the world counts. *)
Class Bcrypt := {
  bcrypt_genSalt : nat -> nat -> string;
  bcrypt_hash : string -> string -> string;
  bcrypt_compare : string -> string -> bool
}.

(** * Data model *)

(** Ids are opaque: an [ObjectId] names a document, a [SessionID] is the
    token of the session cookie. *)
Abbreviation ObjectId := nat (only parsing).
Abbreviation SessionID := nat (only parsing).
Abbreviation Error := string (only parsing).

(** A document of the users collection (models/User.js): the three paths of
    [UserSchema] may each be absent. *)
Record User := mkUser {
  _id : ObjectId;
  userName : option string;
  email : option string;
  password : option string
}.

#[export] Instance User_eq_dec : EqDecision User.
Proof. solve_decision. Defined.

Inductive Path := path_userName | path_email | path_password.

#[export] Instance Path_eq_dec : EqDecision Path.
Proof. solve_decision. Defined.

(** A Mongoose document in memory: its values, whether it was ever saved,
    and the paths set since it was loaded or created. *)
Record Document := mkDocument {
  fields : User;
  isNew : bool;
  modifiedPaths : list Path
}.

Definition isModified (d : Document) (p : Path) : bool :=
  bool_decide (p ∈ modifiedPaths d).

(** The objects handed to [req.flash]: the controllers and the strategy use
    the key [msg], passport-local itself uses [message]. *)
Inductive FlashMsg := Msg (msg : string) | Message (message : string).

#[export] Instance FlashMsg_eq_dec : EqDecision FlashMsg.
Proof. solve_decision. Defined.

(** The session object: the login reference Passport keeps under
    [session.passport.user], [returnTo], and the flash entries in the
    order they were pushed, each under its type. *)
Record Session := mkSession {
  passport_user : option ObjectId;
  returnTo : option string;
  flash : list (string * FlashMsg)
}.

#[export] Instance Session_eq_dec : EqDecision Session.
Proof. solve_decision. Defined.

Definition empty_session : Session :=
  {| passport_user := None; returnTo := None; flash := [] |}.

(** The world outside a request.  [faults] is what the infrastructure will
    do to the coming asynchronous calls (database, session store, bcrypt),
    one entry a call: [Some e] makes the call fail with [e] and without
    effect, [None] lets it go through, and so does the empty list. *)
Record World := mkWorld {
  users : list User;
  sessions : gmap SessionID Session;
  objectIds : nat;
  entropy : nat;
  console : list string;
  faults : list (option Error)
}.

Definition with_users (us : list User) (w : World) : World :=
  mkWorld us (sessions w) (objectIds w) (entropy w) (console w) (faults w).
Definition with_sessions (ss : gmap SessionID Session) (w : World) : World :=
  mkWorld (users w) ss (objectIds w) (entropy w) (console w) (faults w).
Definition with_objectIds (n : nat) (w : World) : World :=
  mkWorld (users w) (sessions w) n (entropy w) (console w) (faults w).
Definition with_entropy (n : nat) (w : World) : World :=
  mkWorld (users w) (sessions w) (objectIds w) n (console w) (faults w).
Definition with_faults (fs : list (option Error)) (w : World) : World :=
  mkWorld (users w) (sessions w) (objectIds w) (entropy w) (console w) fs.

(** [console.log] *)
Definition console_log (line : string) (w : World) : World :=
  mkWorld (users w) (sessions w) (objectIds w) (entropy w) (console w ++ [line]) (faults w).

(** The form fields of [req.body].  [userName] may be missing from the
    form; the fields handed to [validator] are strings (it throws on
    anything else). *)
Record Body := mkBody {
  body_userName : option string;
  body_email : string;
  body_password : string;
  body_confirmPassword : string
}.

(** What a handler sees of the request: the body as the form was
    submitted, the id and the session the session middleware attached
    ([None] once the session is destroyed) and [req.user]. *)
Record Request := mkRequest {
  body : Body;
  sessionID : SessionID;
  session : option Session;
  user : option User
}.

Definition with_session (s : option Session) (req : Request) : Request :=
  mkRequest (body req) (sessionID req) s (user req).
Definition with_user (u : option User) (req : Request) : Request :=
  mkRequest (body req) (sessionID req) (session req) u.

Inductive Reply :=
| Redirect (url : string)
| Render (view title : string).

(** How a handler ends: it answers, it calls [next()], it calls
    [next(err)], or it throws. *)
Inductive Outcome :=
| Sent (r : Reply)
| Next
| NextErr (e : Error)
| Threw (e : Error).

Definition Handler := Request -> World -> Outcome * Request * World.

Inductive Result (A : Type) :=
| Err (e : Error)
| Ok (a : A).
Arguments Err {A} e.
Arguments Ok {A} a.

(** The fate of the next asynchronous call. *)
Definition fault (w : World) : option Error * World :=
  match faults w with
  | [] => (None, w)
  | f :: fs => (f, with_faults fs w)
  end.

(** [store.set(sid, session, cb)] and [store.destroy(sid, cb)] of the
    session store: the callback gets the error of the store, if any. *)
Definition store_set (sid : SessionID) (s : Session) (w : World) : option Error * World :=
  match fault w with
  | (Some e, w1) => (Some e, w1)
  | (None, w1) => (None, with_sessions (<[sid := s]> (sessions w1)) w1)
  end.

Definition store_destroy (sid : SessionID) (w : World) : option Error * World :=
  match fault w with
  | (Some e, w1) => (Some e, w1)
  | (None, w1) => (None, with_sessions (delete sid (sessions w1)) w1)
  end.

(** [req.session.regenerate(cb)] of express-session: the store is asked to
    destroy the record of the session and, whatever it answers, the request
    gets a new and empty session under a new id, one that is neither the
    old id nor in use; the callback gets the error of the store, if any. *)
Definition session_regenerate (req : Request) (w : World) : option Error * Request * World :=
  let '(err, w1) := store_destroy (sessionID req) w in
  (err,
   {| body := body req;
      sessionID := fresh (({[sessionID req]} : gset nat) ∪ dom (sessions w));
      session := Some empty_session;
      user := user req |},
   w1).

(** JavaScript truthiness of an optional string: absent and empty are
    falsy. *)
Definition truthy (v : option string) : bool :=
  match v with
  | Some s => negb (String.length s =? 0)
  | None => false
  end.

(** * models/User.js and the Mongoose model *)

(** One clause of a query filter; a filter is the [$or] of its clauses.
    An absent value is sent as null and matches an absent path. *)
Inductive Clause :=
| email_is (v : option string)
| userName_is (v : option string).

Definition clause_matches (u : User) (c : Clause) : bool :=
  match c with
  | email_is v => bool_decide (email u = v)
  | userName_is v => bool_decide (userName u = v)
  end.

Definition matches (filter : list Clause) (u : User) : bool :=
  existsb (clause_matches u) filter.

(** [User.findOne(filter, cb)]: the first match in the collection. *)
Definition findOne (filter : list Clause) (w : World) : Result (option User) * World :=
  match fault w with
  | (Some e, w1) => (Err e, w1)
  | (None, w1) => (Ok (List.find (matches filter) (users w1)), w1)
  end.

(** [User.findById(id, cb)] *)
Definition findById (id : ObjectId) (w : World) : Result (option User) * World :=
  match fault w with
  | (Some e, w1) => (Err e, w1)
  | (None, w1) => (Ok (List.find (fun u => _id u =? id) (users w1)), w1)
  end.

(** [new User({ userName, email, password })]: a fresh [_id]; the paths that
    were given a value are the modified ones. *)
Definition new_User (name : option string) (mail pass : string) (w : World)
  : Document * World :=
  ({| fields := {| _id := objectIds w; userName := name;
                   email := Some mail; password := Some pass |};
      isNew := true;
      modifiedPaths :=
        (if name is Some _ then [path_userName] else []) ++ [path_email; path_password] |},
   with_objectIds (S (objectIds w)) w).

Definition set_password (h : option string) (u : User) : User :=
  {| _id := _id u; userName := userName u; email := email u; password := h |}.

Section Application.

Context `{V : Validator} `{B : Bcrypt}.

(** [UserSchema.pre('save', ...)]: the password is replaced by its bcrypt
    hash, under a salt generated for this call, when it was modified. *)
Definition pre_save (d : Document) (w : World) : Result Document * World :=
  if negb (isModified d path_password) then (Ok d, w)
  else
    match fault w with
    | (Some e, w1) => (Err e, w1)
    | (None, w1) =>
        let salt := bcrypt_genSalt 10 (entropy w1) in
        let w2 := with_entropy (S (entropy w1)) w1 in
        match password (fields d) with
        | None => (Err "data and salt arguments required", w2)
        | Some plain =>
            match fault w2 with
            | (Some e, w3) => (Err e, w3)
            | (None, w3) =>
                (Ok {| fields := set_password (Some (bcrypt_hash plain salt)) (fields d);
                       isNew := isNew d;
                       modifiedPaths := modifiedPaths d |}, w3)
            end
        end
    end.

(** The unique indexes of [UserSchema] ([unique: true] on [userName] and on
    [email]) and the one on [_id]: an absent path is indexed as null. *)
Definition duplicate_key (u : User) (us : list User) : bool :=
  existsb (fun v => (_id v =? _id u)
                    || bool_decide (userName v = userName u)
                    || bool_decide (email v = email u)) us.

Definition E11000 : Error := "E11000 duplicate key error".

Definition insertOne (u : User) (w : World) : Result unit * World :=
  match fault w with
  | (Some e, w1) => (Err e, w1)
  | (None, w1) =>
      if duplicate_key u (users w1) then (Err E11000, w1)
      else (Ok (), with_users (users w1 ++ [u]) w1)
  end.

(** The stored document after an update of the modified paths. *)
Definition merge_paths (paths : list Path) (new old : User) : User :=
  {| _id := _id old;
     userName := if bool_decide (path_userName ∈ paths) then userName new else userName old;
     email := if bool_decide (path_email ∈ paths) then email new else email old;
     password := if bool_decide (path_password ∈ paths) then password new else password old |}.

Definition update_conflict (paths : list Path) (u : User) (us : list User) : bool :=
  existsb (fun v => negb (_id v =? _id u)
                    && ((bool_decide (path_userName ∈ paths) && bool_decide (userName v = userName u))
                        || (bool_decide (path_email ∈ paths) && bool_decide (email v = email u)))) us.

Definition updateOne (paths : list Path) (u : User) (w : World) : Result unit * World :=
  match paths with
  | [] => (Ok (), w)
  | _ :: _ =>
      match fault w with
      | (Some e, w1) => (Err e, w1)
      | (None, w1) =>
          if update_conflict paths u (users w1) then (Err E11000, w1)
          else (Ok (), with_users
                         (map (fun v => if _id v =? _id u then merge_paths paths u v else v)
                              (users w1)) w1)
      end
  end.

(** [user.save(cb)]: the pre-save hook, then the insert of a new document
    or the update of a stored one. *)
Definition save (d : Document) (w : World) : Result Document * World :=
  match pre_save d w with
  | (Err e, w1) => (Err e, w1)
  | (Ok d1, w1) =>
      match (if isNew d1 then insertOne (fields d1) w1
             else updateOne (modifiedPaths d1) (fields d1) w1) with
      | (Err e, w2) => (Err e, w2)
      | (Ok _, w2) => (Ok {| fields := fields d1; isNew := false; modifiedPaths := [] |}, w2)
      end
  end.

(** [UserSchema.methods.comparePassword] *)
Definition comparePassword (u : User) (candidatePassword : string) (w : World)
  : Result bool * World :=
  match fault w with
  | (Some e, w1) => (Err e, w1)
  | (None, w1) =>
      match password u with
      | Some h => (Ok (bcrypt_compare candidatePassword h), w1)
      | None => (Err "data and hash arguments required", w1)
      end
  end.

(** * config/passport.js *)

(** What [done] is called with when there is no error. *)
Inductive Verdict :=
| Authenticated (u : User)
| Rejected (info : FlashMsg).

Definition not_found (mail : string) : FlashMsg :=
  Msg ("Email " +:+ mail +:+ " not found.").

Definition provider_account : FlashMsg :=
  Msg "Your account was registered using a sign-in provider. To enable password login, sign in using a provider, and then set a password under your user profile.".

Definition invalid_credentials : FlashMsg := Msg "Invalid email or password.".

(** The verify callback of the [LocalStrategy]. *)
Definition verify (mail pass : string) (w : World) : Result Verdict * World :=
  match findOne [email_is (Some (Js.toLowerCase mail))] w with
  | (Err e, w1) => (Err e, w1)
  | (Ok None, w1) => (Ok (Rejected (not_found mail)), w1)
  | (Ok (Some u), w1) =>
      if negb (truthy (password u)) then (Ok (Rejected provider_account), w1)
      else
        match comparePassword u pass w1 with
        | (Err e, w2) => (Err e, w2)
        | (Ok true, w2) => (Ok (Authenticated u), w2)
        | (Ok false, w2) => (Ok (Rejected invalid_credentials), w2)
        end
  end.

(** [passport.authenticate('local', callback)] up to the callback: the
    strategy of passport-local reads the two fields of the body (the query
    string of a form post is empty) and fails with "Missing credentials"
    when one is falsy, else calls [verify]. *)
Definition authenticate_local (username : option string) (pass : string) (w : World)
  : Result Verdict * World :=
  match username with
  | Some name =>
      if truthy (Some name) && truthy (Some pass) then verify name pass w
      else (Ok (Rejected (Message "Missing credentials")), w)
  | None => (Ok (Rejected (Message "Missing credentials")), w)
  end.

(** [passport.serializeUser]: only the id goes to the session. *)
Definition serializeUser (u : User) : ObjectId := _id u.

(** [passport.deserializeUser] *)
Definition deserializeUser (id : ObjectId) (w : World) : Result (option User) * World :=
  findById id w.

(** [req.logIn(user, cb)] of passport 0.6: the user is attached to the
    request, the session is regenerated, the serialized user is put in the
    new session and the session is saved.  What the old session held is not
    carried over ([keepSessionInfo] is not set).  An error of the store, at
    the regeneration or at the save, takes the user off the request again
    and goes to the callback. *)
Definition logIn (u : User) (req : Request) (w : World) : option Error * Request * World :=
  match session req with
  | None =>
      (Some "Login sessions require session support. Did you forget to use `express-session` middleware?",
       with_user None req, w)
  | Some _ =>
      match session_regenerate (with_user (Some u) req) w with
      | (Some e, req1, w1) => (Some e, with_user None req1, w1)
      | (None, req1, w1) =>
          let s := {| passport_user := Some (serializeUser u); returnTo := None; flash := [] |} in
          let req2 := with_session (Some s) req1 in
          match store_set (sessionID req2) s w1 with
          | (Some e, w2) => (Some e, with_user None req2, w2)
          | (None, w2) => (None, req2, w2)
          end
      end
  end.

(** [req.logout(cb)] of passport 0.6, up to the call of [cb]: [req.user]
    and the login reference of the session are removed and the session is
    saved.  [cb] runs when the store has answered, whatever it answered: the
    regeneration that passport starts after the save finds no session on the
    request, which the handler has destroyed by then, and that error ends in
    [cb] as the error of the save does. *)
Definition passport_logout (req : Request) (w : World) : Request * World :=
  match session req with
  | None => (with_user None req, w)
  | Some s =>
      let s1 := {| passport_user := None; returnTo := returnTo s; flash := flash s |} in
      (with_user None (with_session (Some s1) req), snd (store_set (sessionID req) s1 w))
  end.

(** [req.isAuthenticated()] *)
Definition isAuthenticated (req : Request) : bool :=
  match user req with Some _ => true | None => false end.

(** [passport.session()]: the middleware that resolves the login reference
    of the session on every request.  A reference that resolves to nothing
    is dropped from the session and the request goes on without a user; an
    error of the lookup fails the request, and so does a request that has
    no session. *)
Definition passport_session : Handler := fun req w =>
  match session req with
  | None =>
      (NextErr "Login sessions require session support. Did you forget to use `express-session` middleware?",
       req, w)
  | Some s =>
      match passport_user s with
      | None => (Next, req, w)
      | Some id =>
          match deserializeUser id w with
          | (Err e, w1) => (NextErr e, req, w1)
          | (Ok None, w1) =>
              (Next,
               with_session (Some {| passport_user := None; returnTo := returnTo s;
                                     flash := flash s |}) req,
               w1)
          | (Ok (Some u), w1) => (Next, with_user (Some u) req, w1)
          end
      end
  end.

(** [req.flash(type, msgs)] of express-flash: every message is pushed on
    the session; without a session it throws. *)
Definition req_flash (type : string) (msgs : list FlashMsg) (req : Request) : Result Request :=
  match session req with
  | None => Err "req.flash() requires sessions"
  | Some s =>
      Ok (with_session
            (Some {| passport_user := passport_user s; returnTo := returnTo s;
                     flash := flash s ++ map (fun m => (type, m)) msgs |}) req)
  end.

(** * middleware/auth.js *)

Definition ensureAuth : Handler := fun req w =>
  if isAuthenticated req then (Next, req, w)
  else (Sent (Redirect "/"), req, w).

Definition ensureGuest : Handler := fun req w =>
  if negb (isAuthenticated req) then (Next, req, w)
  else (Sent (Redirect "/todos"), req, w).

(** * controllers/auth.js *)

(** [res.render(view, { title })] as [app.use(flash())] of express-flash
    wraps it: the flash of the session is handed to the view and emptied
    ([req.flash()], which throws without a session).  A [Session] holds
    the entries of the flash: a session that never had a flash and one
    whose flash was emptied are the same [Session]. *)
Definition res_render (view title : string) (req : Request) (w : World)
  : Outcome * Request * World :=
  match session req with
  | None => (Threw "req.flash() requires sessions", req, w)
  | Some s =>
      (Sent (Render view title),
       with_session (Some {| passport_user := passport_user s; returnTo := returnTo s;
                             flash := [] |}) req,
       w)
  end.

Definition getLogin : Handler := fun req w =>
  if isAuthenticated req then (Sent (Redirect "/todos"), req, w)
  else res_render "login" "Login" req w.

(** [req.flash(type, msgs)] followed by [res.redirect(url)]. *)
Definition flash_redirect (type : string) (msgs : list FlashMsg) (url : string)
  (req : Request) (w : World) : Outcome * Request * World :=
  match req_flash type msgs req with
  | Err e => (Threw e, req, w)
  | Ok req1 => (Sent (Redirect url), req1, w)
  end.

(** [a || b] on strings *)
Definition or_else (a : option string) (b : string) : string :=
  match a with
  | Some s => if truthy a then s else b
  | None => b
  end.

Definition login_errors (b : Body) : list FlashMsg :=
  (if negb (isEmail (body_email b)) then [Msg "Please enter a valid email address."] else [])
  ++ (if isEmpty (body_password b) then [Msg "Password cannot be blank."] else []).

(** The assignment to [req.body.email] is the local [mail], which the rest
    of the handler reads where the source reads [req.body.email]. *)
Definition postLogin : Handler := fun req w =>
  let validationErrors := login_errors (body req) in
  if 0 <? length validationErrors then
    flash_redirect "errors" validationErrors "/login" req w
  else
    let mail := normalizeEmail (body_email (body req)) false in
    match authenticate_local mail (body_password (body req)) w with
    | (Err err, w1) => (NextErr err, req, w1)
    | (Ok (Rejected info), w1) => flash_redirect "errors" [info] "/login" req w1
    | (Ok (Authenticated u), w1) =>
        match logIn u req w1 with
        | (Some err, req1, w2) => (NextErr err, req1, w2)
        | (None, req1, w2) =>
            match req_flash "success" [Msg "Success! You are logged in."] req1 with
            | Err e => (Threw e, req1, w2)
            | Ok req2 =>
                (Sent (Redirect (or_else (session req2 ≫= returnTo) "/todos")), req2, w2)
            end
        end
    end.

(** [req.session.destroy(cb)] of express-session: the store is asked to
    destroy the record and the session leaves the request at once; the
    callback gets the error of the store, if any. *)
Definition session_destroy (req : Request) (w : World) : option Error * Request * World :=
  match fault w with
  | (Some e, w1) => (Some e, with_session None req, w1)
  | (None, w1) =>
      (None, with_session None req, with_sessions (delete (sessionID req) (sessions w1)) w1)
  end.

(** [req.logout] asks the store to save the session and the handler goes on
    at once to [req.session.destroy]: the store gets the save and then the
    destruction, and answers them in that order. *)
Definition logout : Handler := fun req w =>
  let '(req1, w0) := passport_logout req w in
  let w1 := console_log "User has logged out." w0 in
  match session req1 with
  | None => (Threw "Cannot read properties of undefined (reading 'destroy')", req1, w1)
  | Some _ =>
      let '(err, req2, w2) := session_destroy req1 w1 in
      let w3 :=
        match err with
        | Some e => console_log ("Error : Failed to destroy the session during logout. " +:+ e) w2
        | None => w2
        end in
      (Sent (Redirect "/"), with_user None req2, w3)
  end.

Definition getSignup : Handler := fun req w =>
  if isAuthenticated req then (Sent (Redirect "/todos"), req, w)
  else res_render "signup" "Create Account" req w.

Definition signup_errors (b : Body) : list FlashMsg :=
  (if negb (isEmail (body_email b)) then [Msg "Please enter a valid email address."] else [])
  ++ (if negb (isLength (body_password b) 8)
      then [Msg "Password must be at least 8 characters long"] else [])
  ++ (if negb (String.eqb (body_password b) (body_confirmPassword b))
      then [Msg "Passwords do not match"] else []).

(** The cast of Mongoose to the String type of the schema: the [false] of a
    failed normalization becomes the string "false". *)
Definition cast_string (v : option string) : string := default "false" v.

Definition account_exists : FlashMsg :=
  Msg "Account with that email address or username already exists.".

Definition postSignup : Handler := fun req w =>
  let validationErrors := signup_errors (body req) in
  if 0 <? length validationErrors then
    flash_redirect "errors" validationErrors "../signup" req w
  else
    let mail := cast_string (normalizeEmail (body_email (body req)) false) in
    let '(doc, w0) := new_User (body_userName (body req)) mail (body_password (body req)) w in
    match findOne [email_is (Some mail); userName_is (body_userName (body req))] w0 with
    | (Err err, w1) => (NextErr err, req, w1)
    | (Ok (Some existingUser), w1) =>
        flash_redirect "errors" [account_exists] "../signup" req w1
    | (Ok None, w1) =>
        match save doc w1 with
        | (Err err, w2) => (NextErr err, req, w2)
        | (Ok saved, w2) =>
            match logIn (fields saved) req w2 with
            | (Some err, req1, w3) => (NextErr err, req1, w3)
            | (None, req1, w3) => (Sent (Redirect "/todos"), req1, w3)
            end
        end
    end.

(** ** Signups in flight

    [postSignup] waits twice on the database, for [User.findOne] and for
    [user.save], and other requests are served while it waits.  A signup in
    flight is at one of three points: it arrived, it passed the existence
    check and is about to save, or it answered.  [signup_check] is the
    handler up to the callback of [findOne], [signup_create] the rest.  The
    hashing that [save] waits for before its insert reads and writes
    nothing of the collection, and neither do the calls to the session
    store that [req.logIn] waits for after it, so [signup_create] is one
    step. *)
Inductive Signup :=
| Arrived (req : Request)
| Saving (doc : Document) (req : Request)
| Answered (o : Outcome) (req : Request).

Definition signup_check (req : Request) (w : World) : Signup * World :=
  let validationErrors := signup_errors (body req) in
  if 0 <? length validationErrors then
    let '(o, req1, w1) := flash_redirect "errors" validationErrors "../signup" req w in
    (Answered o req1, w1)
  else
    let mail := cast_string (normalizeEmail (body_email (body req)) false) in
    let '(doc, w0) := new_User (body_userName (body req)) mail (body_password (body req)) w in
    match findOne [email_is (Some mail); userName_is (body_userName (body req))] w0 with
    | (Err err, w1) => (Answered (NextErr err) req, w1)
    | (Ok (Some existingUser), w1) =>
        let '(o, req1, w2) := flash_redirect "errors" [account_exists] "../signup" req w1 in
        (Answered o req1, w2)
    | (Ok None, w1) => (Saving doc req, w1)
    end.

Definition signup_create (doc : Document) (req : Request) (w : World)
  : Outcome * Request * World :=
  match save doc w with
  | (Err err, w2) => (NextErr err, req, w2)
  | (Ok saved, w2) =>
      match logIn (fields saved) req w2 with
      | (Some err, req1, w3) => (NextErr err, req1, w3)
      | (None, req1, w3) => (Sent (Redirect "/todos"), req1, w3)
      end
  end.

(** One turn of the event loop for a signup in flight. *)
Definition signup_step (t : Signup) (w : World) : Signup * World :=
  match t with
  | Arrived req => signup_check req w
  | Saving doc req =>
      let '(o, req1, w1) := signup_create doc req w in (Answered o req1, w1)
  | Answered _ _ => (t, w)
  end.

(** Two signups in flight under a schedule: [true] gives the turn to the
    first, [false] to the second. *)
Fixpoint race (schedule : list bool) (t1 t2 : Signup) (w : World)
  : Signup * Signup * World :=
  match schedule with
  | [] => (t1, t2, w)
  | true :: rest => let '(t, w1) := signup_step t1 w in race rest t t2 w1
  | false :: rest => let '(t, w1) := signup_step t2 w in race rest t1 t w1
  end.

(** * Routing *)

Inductive Method := GET | HEAD | POST | PUT | DELETE.

Definition method_eqb (a b : Method) : bool :=
  match a, b with
  | GET, GET | HEAD, HEAD | POST, POST | PUT, PUT | DELETE, DELETE => true
  | _, _ => false
  end.

(** A route declared for one method handles that method, and HEAD when it
    was declared for GET. *)
Definition handles_method (declared m : Method) : bool :=
  match m, declared with
  | HEAD, GET => true
  | _, _ => method_eqb declared m
  end.

(** How Express matches the literal path of a route (the routers are made
    without options): letters match in either case and one slash at the end
    is optional. *)
Definition path_matches (pattern path : string) : bool :=
  let pat := Js.toLowerCase pattern in
  let p := Js.toLowerCase path in
  String.eqb p pat
  || (if Js.ends_with "/" pat then String.eqb (p +:+ "/") pat
      else String.eqb p (pat +:+ "/")).

(** One function of a route's stack, under the name it has in the source. *)
Record Layer := mkLayer {
  layer_name : string;
  handle : Handler
}.

Record Route := mkRoute {
  route_method : Method;
  route_path : string;
  stack : list Layer
}.

(** The functions of a stack run in order, each one only if the one before
    called [next()].  The names of those that ran are returned first. *)
Fixpoint run_stack (layers : list Layer) (req : Request) (w : World)
  : list string * Outcome * Request * World :=
  match layers with
  | [] => ([], Next, req, w)
  | l :: rest =>
      match handle l req w with
      | (Next, req1, w1) =>
          let '(ran, o, req2, w2) := run_stack rest req1 w1 in
          (layer_name l :: ran, o, req2, w2)
      | (o, req1, w1) => ([layer_name l], o, req1, w1)
      end
  end.

(** A router: the routes are tried in the order they were declared. *)
Fixpoint router (routes : list Route) (m : Method) (path : string)
  (req : Request) (w : World) : list string * Outcome * Request * World :=
  match routes with
  | [] => ([], Next, req, w)
  | r :: rest =>
      if handles_method (route_method r) m && path_matches (route_path r) path then
        match run_stack (stack r) req w with
        | (ran, Next, req1, w1) =>
            let '(ran', o, req2, w2) := router rest m path req1 w1 in
            (ran ++ ran', o, req2, w2)
        | done => done
        end
      else router rest m path req w
  end.

(** controllers/todos.js and controllers/home.js are not among the sources
    at hand: their handlers are parameters of the routing tables. *)
Record TodosController := {
  getTodos : Handler;
  createTodo : Handler;
  markComplete : Handler;
  markIncomplete : Handler;
  deleteTodo : Handler
}.

Record HomeController := { getIndex : Handler }.

Context (todosController : TodosController) (homeController : HomeController).

(** routes/todos.js *)
Definition todoRoutes : list Route :=
  [ mkRoute GET "/" [mkLayer "ensureAuth" ensureAuth;
                     mkLayer "todosController.getTodos" (getTodos todosController)];
    mkRoute POST "/createTodo"
            [mkLayer "todosController.createTodo" (createTodo todosController)];
    mkRoute PUT "/markComplete"
            [mkLayer "todosController.markComplete" (markComplete todosController)];
    mkRoute PUT "/markIncomplete"
            [mkLayer "todosController.markIncomplete" (markIncomplete todosController)];
    mkRoute DELETE "/deleteTodo"
            [mkLayer "todosController.deleteTodo" (deleteTodo todosController)] ].

(** routes/main.js *)
Definition mainRoutes : list Route :=
  [ mkRoute GET "/" [mkLayer "homeController.getIndex" (getIndex homeController)];
    mkRoute GET "/login" [mkLayer "authController.getLogin" getLogin];
    mkRoute POST "/login" [mkLayer "authController.postLogin" postLogin];
    mkRoute GET "/logout" [mkLayer "authController.logout" logout];
    mkRoute GET "/signup" [mkLayer "authController.getSignup" getSignup];
    mkRoute POST "/signup" [mkLayer "authController.postSignup" postSignup] ].

(** * server.js *)

(** The path a router mounted at [prefix] sees, if the request is for it:
    the path starts with the prefix, letters in either case, and goes on
    with a slash or not at all; the router sees what follows the prefix,
    less one slash when another slash or nothing comes after it. *)
Definition mounted (prefix path : string) : option string :=
  if String.eqb prefix "/" then Some path
  else if String.prefix (Js.toLowerCase prefix) (Js.toLowerCase path) then
    let rest := String.substring (String.length prefix)
                                 (String.length path - String.length prefix) path in
    match rest with
    | EmptyString => Some "/"
    | String "/" EmptyString => Some "/"
    | String "/" (String "/" after) => Some (String "/" after)
    | String "/" _ => Some rest
    | String _ _ => None
    end
  else None.

(** [app.use('/', mainRoutes)] then [app.use('/todos', todoRoutes)]. *)
Definition routes (m : Method) (path : string) (req : Request) (w : World)
  : list string * Outcome * Request * World :=
  match router mainRoutes m path req w with
  | (ran, Next, req1, w1) =>
      match mounted "/todos" path with
      | Some sub =>
          let '(ran', o, req2, w2) := router todoRoutes m sub req1 w1 in
          (ran ++ ran', o, req2, w2)
      | None => (ran, Next, req1, w1)
      end
  | done => done
  end.

(** The session middleware on the way in: the record the cookie names is
    loaded from the store; without a cookie, or without a record for it, a
    new session under an unused id is generated. *)
Definition generate (b : Body) (w : World) : Request :=
  {| body := b; sessionID := fresh (dom (sessions w));
     session := Some empty_session; user := None |}.

Definition session_load (cookie : option SessionID) (b : Body) (w : World)
  : Result Request * World :=
  match cookie with
  | None => (Ok (generate b w), w)
  | Some sid =>
      match fault w with
      | (Some e, w1) => (Err e, w1)
      | (None, w1) =>
          match sessions w1 !! sid with
          | Some s => (Ok {| body := b; sessionID := sid; session := Some s; user := None |}, w1)
          | None => (Ok (generate b w1), w1)
          end
      end
  end.

(** The session middleware on the way out ([resave: false],
    [saveUninitialized: false]): a session that is still on the request and
    is not the one the middleware attached, by its id or by what it holds,
    is written to the store. *)
Definition session_end (loaded : Request) (req : Request) (w : World) : World :=
  match session req with
  | None => w
  | Some s =>
      if bool_decide (sessionID req = sessionID loaded)
         && bool_decide (Some s = session loaded) then w
      else
        match fault w with
        | (Some e, w1) => console_log e w1
        | (None, w1) => with_sessions (<[sessionID req := s]> (sessions w1)) w1
        end
  end.

(** One request through the middleware of server.js: session,
    [passport.session()], the two routers, and the session again when the
    response ends.  The result names the handlers that ran, the outcome
    and the session id of the request. *)
Definition server (m : Method) (path : string) (cookie : option SessionID) (b : Body)
  (w : World) : list string * Outcome * SessionID * World :=
  match session_load cookie b w with
  | (Err e, w1) => ([], NextErr e, default 0 cookie, w1)
  | (Ok req, w1) =>
      match passport_session req w1 with
      | (Next, req1, w2) =>
          let '(ran, o, req2, w3) := routes m path req1 w2 in
          (ran, o, sessionID req2, session_end req req2 w3)
      | (o, req1, w2) => ([], o, sessionID req1, session_end req req1 w2)
      end
  end.

(** ** Vocabulary of the statements *)

(** What a router returns when [h], declared as [name], is the only
    function that ran. *)
Definition ran_only (name : string) (h : Handler) (req : Request) (w : World)
  : list string * Outcome * Request * World :=
  let '(o, req1, w1) := h req w in ([name], o, req1, w1).

(** What the server returns for a request without a cookie when [h] is the
    only function of the routers that ran. *)
Definition ran_anonymously (name : string) (h : Handler) (b : Body) (w : World)
  : list string * Outcome * SessionID * World :=
  let '(o, req1, w1) := h (generate b w) w in
  ([name], o, sessionID req1, session_end (generate b w) req1 w1).

(** The user a signup stores: the id of the new document, the name and the
    normalized address of the form, and the digest of the password under
    the salt drawn for this save. *)
Definition signed_up (b : Body) (w : World) : User :=
  {| _id := objectIds w;
     userName := body_userName b;
     email := Some (cast_string (normalizeEmail (body_email b) false));
     password := Some (bcrypt_hash (body_password b) (bcrypt_genSalt 10 (entropy w))) |}.

(** No stored user stands in the way of [u]: neither of the two clauses of
    the signup's query matches, and the id is unused. *)
Definition unused (u : User) (us : list User) : Prop :=
  forall v, In v us -> _id v <> _id u /\ email v <> email u /\ userName v <> userName u.

(** What the client can observe of a handler's run: the outcome and the
    flash entries its session holds for the next page. *)
Definition observable (run : Outcome * Request * World) : Outcome * list (string * FlashMsg) :=
  (fst (fst run), from_option flash [] (session (snd (fst run)))).

(** [h] is what [bcrypt.hash] returned for some data under some salt. *)
Definition digest (h : string) : Prop :=
  exists data salt, h = bcrypt_hash data salt.

(** Every password of the collection is a digest. *)
Definition never_plaintext (us : list User) : Prop :=
  forall u h, In u us -> password u = Some h -> digest h.

Definition logged_out : string := "User has logged out.".

Definition destroy_failed (e : Error) : string :=
  "Error : Failed to destroy the session during logout. " +:+ e.

(** The session [s] without its login reference, as [req.logout] saves
    it. *)
Definition signed_off (s : Session) : Session :=
  {| passport_user := None; returnTo := returnTo s; flash := flash s |}.

(** The fates of the next call to the infrastructure and of the one after
    it. *)
Definition first_fate (w : World) : option Error := fst (fault w).
Definition second_fate (w : World) : option Error := fst (fault (snd (fault w))).

Definition mail_of (b : Body) : string :=
  cast_string (normalizeEmail (body_email b) false).

(** The document [new User] makes of a form under the id [id], and the
    user its save stores when the salt is drawn at entropy [ent]. *)
Definition fresh_doc (b : Body) (id : ObjectId) : Document :=
  {| fields := {| _id := id; userName := body_userName b;
                  email := Some (mail_of b); password := Some (body_password b) |};
     isNew := true;
     modifiedPaths :=
       (if body_userName b is Some _ then [path_userName] else [])
       ++ [path_email; path_password] |}.

Definition made (b : Body) (id : ObjectId) (ent : nat) : User :=
  {| _id := id; userName := body_userName b; email := Some (mail_of b);
     password := Some (bcrypt_hash (body_password b) (bcrypt_genSalt 10 ent)) |}.

(** The query of a signup for the form [b]. *)
Definition taken_by (b : Body) : User -> bool :=
  matches [email_is (Some (mail_of b)); userName_is (body_userName b)].

(** No stored user has the address or the name of the form. *)
Definition free (b : Body) (us : list User) : Prop :=
  forall v, In v us -> email v <> Some (mail_of b) /\ userName v <> body_userName b.

(** The two forms ask for the same address or for the same name. *)
Definition collide (a b : Body) : Prop :=
  mail_of a = mail_of b \/ body_userName a = body_userName b.

(** How a signup is told that the account exists: by the handler, with the
    flashed message and the redirect to the form, or by the unique index of
    the store, whose error goes to [next]. *)
Definition duplicate_answer (o : Outcome) (r : Request) : Prop :=
  (o = Sent (Redirect "../signup")
   /\ In ("errors", account_exists) (from_option flash [] (session r)))
  \/ o = NextErr E11000.

(** Both signups answered, one was created and the other was told that the
    account exists, and the collection grew by one user. *)
Definition one_winner (w : World) (result : Signup * Signup * World) : Prop :=
  let '(t1, t2, w') := result in
  exists o1 r1 o2 r2,
    t1 = Answered o1 r1 /\ t2 = Answered o2 r2
    /\ ((o1 = Sent (Redirect "/todos") /\ duplicate_answer o2 r2)
        \/ (duplicate_answer o1 r1 /\ o2 = Sent (Redirect "/todos")))
    /\ length (users w') = S (length (users w)).

(** The request after [req.flash(type, msgs)] in the session [s]. *)
Definition flashed (type : string) (msgs : list FlashMsg) (s : Session) (req : Request)
  : Request :=
  with_session (Some {| passport_user := passport_user s; returnTo := returnTo s;
                        flash := flash s ++ map (fun m => (type, m)) msgs |}) req.

(** The session a login starts: the id of the user and nothing else. *)
Definition login_session (u : User) : Session :=
  {| passport_user := Some (_id u); returnTo := None; flash := [] |}.

(** The id of the session a login starts for [req] when the store holds
    [ss]: neither the id of the request nor an id in use. *)
Definition renewed_id (req : Request) (ss : gmap SessionID Session) : SessionID :=
  fresh (({[sessionID req]} : gset nat) ∪ dom ss).

(** The request after a [req.logIn(u)] that went through, and the store
    after it: the record of the old session is gone and the new session is
    stored under its id. *)
Definition logged_in (u : User) (req : Request) (ss : gmap SessionID Session) : Request :=
  {| body := body req; sessionID := renewed_id req ss;
     session := Some (login_session u); user := Some u |}.

Definition renewed (u : User) (req : Request) (ss : gmap SessionID Session)
  : gmap SessionID Session :=
  <[renewed_id req ss := login_session u]> (delete (sessionID req) ss).


(** The collection as the unique indexes and the id counter keep it: no id,
    no address and no name twice, and every id below the counter. *)
Definition well_kept (w : World) : Prop :=
  NoDup (map _id (users w))
  /\ NoDup (map email (users w))
  /\ NoDup (map userName (users w))
  /\ forall v, In v (users w) -> _id v < objectIds w.

(** The user a signup stores for the form [b] under the id [id] when the
    salt of its hash is [salt]. *)
Definition made_with (b : Body) (id : ObjectId) (salt : string) : User :=
  {| _id := id; userName := body_userName b;
     email := Some (cast_string (normalizeEmail (body_email b) false));
     password := Some (bcrypt_hash (body_password b) salt) |}.

End Application.

Arguments todoRoutes : clear implicits.
Arguments mainRoutes {_ _} homeController.

(** * A stand-in for bcrypt

    Used where a statement needs some implementation of the [Bcrypt]
    interface to be evaluated on: the digest is the salt (29 characters, as
    bcrypt's) after a marker, followed by the data, and [compare] reads the
    data back.  It keeps bcrypt's contract (a digest verifies against its
    own data and against no other, and differs from the data) without
    being one-way. *)
Module StandIn.

Fixpoint repeat_char (n : nat) (c : ascii) : string :=
  match n with
  | 0 => EmptyString
  | S k => String c (repeat_char k c)
  end.

Definition genSalt (rounds entropy : nat) : string :=
  "$2b$10$" +:+ repeat_char 22 (ascii_of_nat (97 + entropy mod 26)).

Definition hash (data salt : string) : string := String "#" (salt +:+ data).

Fixpoint skip (n : nat) (s : string) : string :=
  match n, s with
  | 0, _ => s
  | S k, String _ r => skip k r
  | S _, EmptyString => EmptyString
  end.

Definition compare (data encrypted : string) : bool :=
  (30 <=? String.length encrypted) && String.eqb (skip 30 encrypted) data.

End StandIn.

Definition standin_bcrypt : Bcrypt :=
  {| bcrypt_genSalt := StandIn.genSalt;
     bcrypt_hash := StandIn.hash;
     bcrypt_compare := StandIn.compare |}.

(** * Concrete requests and worlds *)

Definition alice_signup (mail : string) : Body :=
  {| body_userName := Some "alice"; body_email := mail;
     body_password := "longpass1"; body_confirmPassword := "longpass1" |}.

Definition alice_login : Body :=
  {| body_userName := None; body_email := "alice@example.com";
     body_password := "longpass1"; body_confirmPassword := EmptyString |}.

(** Handlers to run the routing tables on, in the place of the two
    controllers that are not among the sources. *)
Definition sample_todos : TodosController :=
  {| getTodos := fun req w => (Sent (Render "todos.ejs" "todos"), req, w);
     createTodo := fun req w => (Sent (Redirect "/todos"), req, w);
     markComplete := fun req w => (Sent (Render "json" "Marked Complete"), req, w);
     markIncomplete := fun req w => (Sent (Render "json" "Marked Incomplete"), req, w);
     deleteTodo := fun req w => (Sent (Render "json" "Deleted It"), req, w) |}.

Definition sample_home : HomeController :=
  {| getIndex := fun req w => (Sent (Render "index.ejs" "home"), req, w) |}.

Definition no_world : World := mkWorld [] ∅ 0 0 [] [].

Definition arriving (b : Body) : Request :=
  {| body := b; sessionID := 1; session := Some empty_session; user := None |}.

Definition no_form : Body :=
  {| body_userName := None; body_email := EmptyString; body_password := EmptyString;
     body_confirmPassword := EmptyString |}.

Definition arriving_with (s : Session) : Request :=
  {| body := no_form; sessionID := 9; session := Some s; user := None |}.

Definition bob : User :=
  {| _id := 0; userName := Some "bob"; email := Some "bob@example.com";
     password := Some (StandIn.hash "correct horse" (StandIn.genSalt 10 0)) |}.

Definition bob_guess : Body :=
  {| body_userName := None; body_email := "bob@example.com";
     body_password := "wrong guess"; body_confirmPassword := EmptyString |}.

Definition bob_world : World := mkWorld [bob] ∅ 1 1 [] [].

Definition carol : User :=
  {| _id := 1; userName := Some "carol"; email := Some "carol@example.com";
     password := Some (StandIn.hash "longpass2" (StandIn.genSalt 10 0)) |}.

Definition carol_session : Session :=
  {| passport_user := Some 1; returnTo := None; flash := [] |}.

Definition carol_request : Request :=
  {| body := no_form; sessionID := 7; session := Some carol_session; user := Some carol |}.

(** Carol is logged in under the cookie 7; the store is unreachable for the
    two calls of a logout, the save and the destruction. *)
Definition failing_store : World :=
  mkWorld [carol] {[7 := carol_session]} 2 1 []
          [Some "store unreachable"; Some "store unreachable"].

(** The same for a logout that comes through the server: the session is
    loaded and carol is looked up, then the store is unreachable. *)
Definition store_going_down : World :=
  mkWorld [carol] {[7 := carol_session]} 2 1 []
          [None; None; Some "store unreachable"; Some "store unreachable"].

(** The store saves the session and then fails to destroy it. *)
Definition failing_destroy : World :=
  mkWorld [carol] {[7 := carol_session]} 2 1 [] [None; Some "store unreachable"].



Definition nameless_signup : Body :=
  {| body_userName := None; body_email := "dave@example.com";
     body_password := "longpass3"; body_confirmPassword := "longpass3" |}.

Definition bob_login : Body :=
  {| body_userName := None; body_email := "Bob@Example.com";
     body_password := "correct horse"; body_confirmPassword := EmptyString |}.

(** Two forms for the same address under two names. *)
Definition erin_signup (name : string) : Body :=
  {| body_userName := Some name; body_email := "Erin@Example.com";
     body_password := "longpass4"; body_confirmPassword := "longpass4" |}.

(** A form under bob's address, in capitals, and another name. *)
Definition bob_again : Body :=
  {| body_userName := Some "bobby"; body_email := "BOB@Example.com";
     body_password := "longpass5"; body_confirmPassword := "longpass5" |}.

(** The database is down. *)
Definition down_world : World := mkWorld [bob] ∅ 1 1 [] [Some "database unreachable"].

(** An account that was given no password. *)
Definition dora : User :=
  {| _id := 3; userName := Some "dora"; email := Some "dora@example.com";
     password := None |}.

Definition dora_world : World := mkWorld [dora] ∅ 4 0 [] [].

Definition dora_login : Body :=
  {| body_userName := None; body_email := "dora@example.com";
     body_password := "anything"; body_confirmPassword := EmptyString |}.

(** An address that gmail's rule reduces to nothing. *)
Definition plus_login : Body :=
  {| body_userName := None; body_email := "+tag@gmail.com";
     body_password := "whatever1"; body_confirmPassword := EmptyString |}.

Definition carol_world : World := mkWorld [carol] {[7 := carol_session]} 2 1 [] [].

(** A session that holds a message for the next page, and one that holds
    a [returnTo] as well. *)
Definition flashed_session : Session :=
  {| passport_user := None; returnTo := None;
     flash := [("errors", Msg "Password cannot be blank.")] |}.

Definition returning_session : Session :=
  {| passport_user := None; returnTo := Some "/todos/late";
     flash := [("errors", Msg "Password cannot be blank.")] |}.

Definition bob_returning : Request :=
  {| body := bob_login; sessionID := 1; session := Some returning_session; user := None |}.

(** Carol's document, loaded and given another name. *)
Definition carol_renamed : Document :=
  {| fields := {| _id := 1; userName := Some "caroline";
                  email := Some "carol@example.com";
                  password := Some (StandIn.hash "longpass2" (StandIn.genSalt 10 0)) |};
     isNew := false;
     modifiedPaths := [path_userName] |}.

(** * Properties *)

(** Evaluates the matching of literal paths in the goal. *)
Ltac route_paths :=
  repeat match goal with
  | |- context [path_matches ?a ?b] =>
      let v := eval vm_compute in (path_matches a b) in
      change (path_matches a b) with v
  | |- context [mounted ?a ?b] =>
      let v := eval vm_compute in (mounted a b) in
      change (mounted a b) with v
  end.

Ltac dispatch :=
  repeat (progress (cbn -[path_matches mounted]; route_paths)).

Section Properties.

Context `{V : Validator} `{B : Bcrypt}.
Context (todosController : TodosController) (homeController : HomeController).

Lemma fault_none w : faults w = [] -> fault w = (None, w).
Proof. unfold fault. intros ->. reflexivity. Qed.

(** A stack of one function ran that function, whatever it answered. *)
Lemma run_stack_one (l : Layer) req w :
  run_stack [l] req w =
  let '(o, req1, w1) := handle l req w in ([layer_name l], o, req1, w1).
Proof.
  simpl. destruct (handle l req w) as [[o req1] w1]. destruct o; reflexivity.
Qed.

Lemma isAuthenticated_is_Some req : isAuthenticated req = true <-> is_Some (user req).
Proof.
  unfold isAuthenticated. destruct (user req); split; intros Hx; try reflexivity.
  - eauto.
  - discriminate.
  - destruct Hx as [? Hx]. discriminate.
Qed.

(** C7. For every request, [ensureAuth] calls the next handler exactly when
    the request carries a resolved identity; when it carries none, the
    guard answers with a redirect to "/" and the guarded handler does not
    run: behind the guard of GET /todos only [ensureAuth] has run, and the
    request and the world are as they were. *)
Theorem ensureAuth_guards (guarded : Layer) (req : Request) (w : World) :
  (fst (fst (ensureAuth req w)) = Next <-> is_Some (user req))
  /\ run_stack [mkLayer "ensureAuth" ensureAuth; guarded] req w =
     match user req with
     | Some _ =>
         let '(o, req1, w1) := handle guarded req w in
         (["ensureAuth"; layer_name guarded], o, req1, w1)
     | None => (["ensureAuth"], Sent (Redirect "/"), req, w)
     end
  /\ router (todoRoutes todosController) GET "/" req w =
     match user req with
     | Some _ =>
         let '(o, req1, w1) := getTodos todosController req w in
         (["ensureAuth"; "todosController.getTodos"], o, req1, w1)
     | None => (["ensureAuth"], Sent (Redirect "/"), req, w)
     end.
Proof.
  split; [| split].
  - rewrite <- isAuthenticated_is_Some. unfold ensureAuth.
    destruct (isAuthenticated req); simpl; split; congruence.
  - cbn [run_stack handle layer_name]. unfold ensureAuth, isAuthenticated.
    destruct (user req); [| reflexivity].
    destruct (handle guarded req w) as [[o req1] w1]. destruct o; reflexivity.
  - cbn [router todoRoutes route_method route_path stack run_stack handle layer_name].
    unfold ensureAuth, isAuthenticated.
    destruct (user req); [| reflexivity].
    simpl. destruct (getTodos todosController req w) as [[o req1] w1].
    destruct o; reflexivity.
Qed.

Ltac run_handler h :=
  match goal with
  | |- context [h ?req ?w] =>
      let o := fresh "o" in
      let req1 := fresh "req1" in
      let w1 := fresh "w1" in
      destruct (h req w) as [[o req1] w1]; destruct o; reflexivity
  end.

(** C2. The four routes that change todos run their controller handler
    with no guard before it, for every request, authenticated or not: the
    handler is the only function of the route's stack.  Through the server
    a request that carries no cookie, hence no identity, reaches each of
    the four handlers, while GET /todos is stopped by [ensureAuth]. *)
Theorem todo_mutations_unguarded (req : Request) (b : Body) (w : World) :
  router (todoRoutes todosController) POST "/createTodo" req w
  = ran_only "todosController.createTodo" (createTodo todosController) req w
  /\ router (todoRoutes todosController) PUT "/markComplete" req w
     = ran_only "todosController.markComplete" (markComplete todosController) req w
  /\ router (todoRoutes todosController) PUT "/markIncomplete" req w
     = ran_only "todosController.markIncomplete" (markIncomplete todosController) req w
  /\ router (todoRoutes todosController) DELETE "/deleteTodo" req w
     = ran_only "todosController.deleteTodo" (deleteTodo todosController) req w
  /\ user (generate b w) = None
  /\ server todosController homeController POST "/todos/createTodo" None b w
     = ran_anonymously "todosController.createTodo" (createTodo todosController) b w
  /\ server todosController homeController PUT "/todos/markComplete" None b w
     = ran_anonymously "todosController.markComplete" (markComplete todosController) b w
  /\ server todosController homeController PUT "/todos/markIncomplete" None b w
     = ran_anonymously "todosController.markIncomplete" (markIncomplete todosController) b w
  /\ server todosController homeController DELETE "/todos/deleteTodo" None b w
     = ran_anonymously "todosController.deleteTodo" (deleteTodo todosController) b w
  /\ server todosController homeController GET "/todos" None b w
     = (["ensureAuth"], Sent (Redirect "/"), sessionID (generate b w), w).
Proof.
  repeat split.
  - unfold ran_only. dispatch. run_handler (createTodo todosController).
  - unfold ran_only. dispatch. run_handler (markComplete todosController).
  - unfold ran_only. dispatch. run_handler (markIncomplete todosController).
  - unfold ran_only. dispatch. run_handler (deleteTodo todosController).
  - unfold ran_anonymously, server, routes. dispatch.
    run_handler (createTodo todosController).
  - unfold ran_anonymously, server, routes. dispatch.
    run_handler (markComplete todosController).
  - unfold ran_anonymously, server, routes. dispatch.
    run_handler (markIncomplete todosController).
  - unfold ran_anonymously, server, routes. dispatch.
    run_handler (deleteTodo todosController).
  - unfold server, routes. dispatch. unfold session_end. dispatch.
    rewrite !bool_decide_eq_true_2 by reflexivity. reflexivity.
Qed.

(** What [req.logIn] leaves, whatever the store does: the collection, the
    counters and the console are untouched; when it went through, the
    request carries the user and the new session, which holds the id of the
    user and nothing else; when it failed, the request carries no user. *)
Lemma logIn_cases (u : User) (req : Request) (w : World) :
  let '(err, r, w1) := logIn u req w in
  users w1 = users w /\ objectIds w1 = objectIds w /\ entropy w1 = entropy w
  /\ console w1 = console w
  /\ match err with
     | None => is_Some (session req) /\ r = logged_in u req (sessions w)
     | Some _ => user r = None
     end.
Proof.
  unfold logIn, session_regenerate, store_destroy, store_set, fault.
  destruct w as [us ss oid ent con fs]. destruct (session req) as [s |]; simpl.
  - destruct fs as [| [e |] [| [e' |] fs]]; simpl; repeat split; eauto.
  - repeat split.
Qed.

(** With a session on the request and a store that does not fail,
    [req.logIn] goes through. *)
Lemma logIn_ok (u : User) (req : Request) (s : Session) (w : World) :
  session req = Some s ->
  faults w = [] ->
  logIn u req w
  = (None, logged_in u req (sessions w), with_sessions (renewed u req (sessions w)) w).
Proof.
  intros Hs Hfaults. unfold logIn, session_regenerate, store_destroy, store_set, fault.
  destruct w as [us ss oid ent con fs]. simpl in Hfaults. subst fs. rewrite Hs. reflexivity.
Qed.

(** The id of the session a login starts is not the id of the request and
    names no record of the store. *)
Lemma renewed_id_new (req : Request) (ss : gmap SessionID Session) :
  renewed_id req ss <> sessionID req.
Proof.
  unfold renewed_id. intros Heq.
  apply (is_fresh (({[sessionID req]} : gset nat) ∪ dom ss)).
  rewrite Heq. set_solver.
Qed.

Lemma renewed_id_unused (req : Request) (ss : gmap SessionID Session) :
  ss !! renewed_id req ss = None.
Proof.
  apply not_elem_of_dom. unfold renewed_id. intros Hin.
  apply (is_fresh (({[sessionID req]} : gset nat) ∪ dom ss)). set_solver.
Qed.

(** Where [postLogin] can redirect to: back to the form, or to "/todos";
    the session a login starts holds no [returnTo]. *)
Lemma postLogin_redirects req w url req1 w1 :
  postLogin req w = (Sent (Redirect url), req1, w1) ->
  url = "/login" \/ url = "/todos".
Proof.
  unfold postLogin, flash_redirect, req_flash. intros Hrun.
  destruct (0 <? length (login_errors (body req)));
    [destruct (session req); simplify_eq; auto |].
  destruct (authenticate_local _ _ w) as [[e | [u | info]] w0];
    [simplify_eq | | destruct (session req); simplify_eq; auto].
  pose proof (logIn_cases u req w0) as Hin.
  destruct (logIn u req w0) as [[[e |] r] w2]; [simplify_eq |].
  destruct Hin as (_ & _ & _ & _ & _ & ->). simpl in Hrun. simplify_eq. auto.
Qed.

(** C8. The two guards change neither the request, its session included,
    nor the world, on either branch.  In particular [ensureAuth] leaves
    [returnTo] as it found it: when the session held none, a login that
    follows in the session the guard left redirects to the form again or,
    when it succeeds, to "/todos". *)
Theorem guards_hold_no_state (req : Request) (w : World) :
  snd (fst (ensureAuth req w)) = req
  /\ snd (ensureAuth req w) = w
  /\ snd (fst (ensureGuest req w)) = req
  /\ snd (ensureGuest req w) = w
  /\ forall (b : Body) (w' : World) url req1 w1,
       session req ≫= returnTo = None ->
       postLogin (mkRequest b (sessionID req)
                            (session (snd (fst (ensureAuth req w))))
                            (user req)) w'
       = (Sent (Redirect url), req1, w1) ->
       url = "/login" \/ url = "/todos".
Proof.
  unfold ensureAuth, ensureGuest.
  destruct (isAuthenticated req); simpl; repeat split; trivial.
  - intros b w' url req1 w1 Hnone Hrun.
    apply postLogin_redirects in Hrun. exact Hrun.
  - intros b w' url req1 w1 Hnone Hrun.
    apply postLogin_redirects in Hrun. exact Hrun.
Qed.

Lemma find_none_iff {A} (p : A -> bool) (l : list A) :
  List.find p l = None <-> forall x, In x l -> p x = false.
Proof.
  split.
  - apply find_none.
  - induction l as [| a l IH]; simpl; intros Hall; [reflexivity |].
    rewrite (Hall a) by (left; reflexivity). apply IH. intros x Hx. apply Hall. right. exact Hx.
Qed.

Lemma find_by_unique_id (us : list User) (u : User) :
  NoDup (map _id us) -> In u us -> List.find (fun v => _id v =? _id u) us = Some u.
Proof.
  induction us as [| v us IH]; simpl; intros Hnd Hin; [contradiction |].
  inversion Hnd as [| ? ? Hnotin Hnd']; subst.
  destruct Hin as [-> | Hin].
  - rewrite Nat.eqb_refl. reflexivity.
  - destruct (Nat.eqb_spec (_id v) (_id u)) as [Heq | Hne].
    + exfalso. apply Hnotin. rewrite Heq. apply list_elem_of_In. apply in_map. exact Hin.
    + apply IH; assumption.
Qed.



Lemma signup_errors_nil (b : Body) :
  signup_errors b = []
  <-> isEmail (body_email b) = true
      /\ 8 <= String.length (body_password b)
      /\ body_password b = body_confirmPassword b.
Proof.
  unfold signup_errors, isLength.
  destruct (isEmail (body_email b)),
           (Nat.leb_spec 8 (String.length (body_password b))),
           (String.eqb_spec (body_password b) (body_confirmPassword b));
    simpl; split; intros Hx;
    first [discriminate Hx | intuition (congruence || lia)].
Qed.

Lemma unused_no_match u us :
  unused u us -> List.find (matches [email_is (email u); userName_is (userName u)]) us = None.
Proof.
  intros Hun. apply find_none_iff. intros v Hv. destruct (Hun v Hv) as (_ & He & Hn).
  unfold matches. simpl. rewrite !bool_decide_eq_false_2 by assumption. reflexivity.
Qed.

Lemma unused_no_duplicate u us : unused u us -> duplicate_key u us = false.
Proof.
  intros Hun. unfold duplicate_key. apply not_true_is_false. intros Hex.
  apply existsb_exists in Hex. destruct Hex as (v & Hv & Hdup).
  destruct (Hun v Hv) as (Hi & He & Hn).
  apply Nat.eqb_neq in Hi. rewrite Hi in Hdup.
  rewrite !bool_decide_eq_false_2 in Hdup by assumption. discriminate.
Qed.

(** A valid signup that nothing stands in the way of, with no failure of
    the infrastructure, stores the user and logs it in. *)
Lemma postSignup_creates (req : Request) (s : Session) (w : World) :
  signup_errors (body req) = [] ->
  session req = Some s ->
  faults w = [] ->
  unused (signed_up (body req) w) (users w) ->
  postSignup req w
  = (Sent (Redirect "/todos"),
     logged_in (signed_up (body req) w) req (sessions w),
     mkWorld (users w ++ [signed_up (body req) w])
             (renewed (signed_up (body req) w) req (sessions w))
             (S (objectIds w)) (S (entropy w)) (console w) []).
Proof.
  intros Hvalid Hs Hfaults Hun.
  pose proof (unused_no_match _ _ Hun) as Hfind.
  pose proof (unused_no_duplicate _ _ Hun) as Hdup.
  destruct w as [us ss oid ent con fs]. simpl in Hfaults. subst fs.
  unfold postSignup. rewrite Hvalid. simpl.
  unfold findOne, fault. simpl. unfold signed_up in Hfind, Hdup. simpl in Hfind, Hdup.
  rewrite Hfind.
  unfold save, pre_save, isModified. simpl.
  assert (Hmod : bool_decide
            (path_password ∈ (if body_userName (body req) is Some _ then [path_userName] else [])
                             ++ [path_email; path_password]) = true).
  { apply bool_decide_eq_true_2. destruct (body_userName (body req)); set_solver. }
  rewrite Hmod. simpl. unfold insertOne, fault, set_password. simpl. rewrite Hdup. simpl.
  rewrite (logIn_ok _ req s _ Hs) by reflexivity. reflexivity.
Qed.

(** C10. The validation of a signup looks at the address, at the length of
    the password and at its confirmation, and at nothing else: it finds no
    error exactly when the address is an email, the password has 8
    characters or more and the confirmation equals it, whatever the user
    name.  With a missing or an empty user name and the other fields valid,
    the handler goes on to the duplicate check and the creation: on every
    world it runs [findOne] with that name in the query and, when nothing
    matches, saves the document made with it; when no stored user matches
    and the infrastructure does not fail, the user is stored with that
    missing or empty name and logged in. *)
Theorem signup_ignores_userName (req : Request) (s : Session) (w : World) :
  body_userName (body req) = None \/ body_userName (body req) = Some EmptyString ->
  isEmail (body_email (body req)) = true ->
  8 <= String.length (body_password (body req)) ->
  body_password (body req) = body_confirmPassword (body req) ->
  session req = Some s ->
  faults w = [] ->
  unused (signed_up (body req) w) (users w) ->
  (forall b : Body,
     signup_errors b = []
     <-> isEmail (body_email b) = true
         /\ 8 <= String.length (body_password b)
         /\ body_password b = body_confirmPassword b)
  /\ signup_errors (body req) = []
  /\ findOne [email_is (email (signed_up (body req) w));
              userName_is (body_userName (body req))]
             (snd (new_User (body_userName (body req))
                            (cast_string (normalizeEmail (body_email (body req)) false))
                            (body_password (body req)) w))
     = (Ok None, with_objectIds (S (objectIds w)) w)
  /\ fst (fst (postSignup req w)) = Sent (Redirect "/todos")
  /\ users (snd (postSignup req w)) = users w ++ [signed_up (body req) w]
  /\ userName (signed_up (body req) w) = body_userName (body req)
  /\ (forall w0 : World,
        postSignup req w0
        = let '(doc, w1) :=
            new_User (body_userName (body req))
                     (cast_string (normalizeEmail (body_email (body req)) false))
                     (body_password (body req)) w0 in
          match findOne [email_is (Some (cast_string
                                           (normalizeEmail (body_email (body req)) false)));
                         userName_is (body_userName (body req))] w1 with
          | (Err err, w2) => (NextErr err, req, w2)
          | (Ok (Some _), w2) => flash_redirect "errors" [account_exists] "../signup" req w2
          | (Ok None, w2) => signup_create doc req w2
          end).
Proof.
  intros Hname Hmail Hlen Hconf Hs Hfaults Hun.
  assert (Hvalid : signup_errors (body req) = []) by (apply signup_errors_nil; auto).
  split; [exact signup_errors_nil |]. split; [exact Hvalid |].
  assert (Hgoes : forall w0 : World,
            postSignup req w0
            = let '(doc, w1) :=
                new_User (body_userName (body req))
                         (cast_string (normalizeEmail (body_email (body req)) false))
                         (body_password (body req)) w0 in
              match findOne [email_is (Some (cast_string
                                               (normalizeEmail (body_email (body req)) false)));
                             userName_is (body_userName (body req))] w1 with
              | (Err err, w2) => (NextErr err, req, w2)
              | (Ok (Some _), w2) => flash_redirect "errors" [account_exists] "../signup" req w2
              | (Ok None, w2) => signup_create doc req w2
              end).
  { intros w0. unfold postSignup. rewrite Hvalid. reflexivity. }
  cut (findOne [email_is (email (signed_up (body req) w));
                userName_is (body_userName (body req))]
               (snd (new_User (body_userName (body req))
                              (cast_string (normalizeEmail (body_email (body req)) false))
                              (body_password (body req)) w))
       = (Ok None, with_objectIds (S (objectIds w)) w)
       /\ fst (fst (postSignup req w)) = Sent (Redirect "/todos")
       /\ users (snd (postSignup req w)) = users w ++ [signed_up (body req) w]
       /\ userName (signed_up (body req) w) = body_userName (body req)).
  { intros (H1 & H2 & H3 & H4). auto. }
  rewrite (postSignup_creates req s w Hvalid Hs Hfaults Hun). simpl.
  repeat split.
  pose proof (unused_no_match _ _ Hun) as Hfind.
  destruct w as [us ss oid ent con fs]. simpl in Hfaults, Hfind |- *. subst fs.
  unfold findOne, fault. simpl. rewrite Hfind. reflexivity.
Qed.

Lemma login_errors_nil (b : Body) :
  login_errors b = [] <-> isEmail (body_email b) = true /\ isEmpty (body_password b) = false.
Proof.
  unfold login_errors.
  destruct (isEmail (body_email b)), (isEmpty (body_password b));
    simpl; split; intros Hx; first [discriminate Hx | intuition congruence].
Qed.

Lemma authenticate_local_verify (mail pass : string) (w : World) :
  truthy (Some mail) = true -> truthy (Some pass) = true ->
  authenticate_local (Some mail) pass w = verify mail pass w.
Proof. intros Hm Hp. unfold authenticate_local. rewrite Hm, Hp. reflexivity. Qed.

Lemma not_found_is_not_generic (mail : string) : not_found mail <> invalid_credentials.
Proof. unfold not_found, invalid_credentials. simpl. intros Heq. inversion Heq. Qed.

(** A login that passes validation and meets no failure of the
    infrastructure: what it answers to an unknown address, and to a wrong
    password for a stored one. *)
Lemma login_failure_answers (req : Request) (s : Session) (w : World)
  (mail : string) :
  login_errors (body req) = [] ->
  normalizeEmail (body_email (body req)) false = Some mail ->
  truthy (Some mail) = true ->
  session req = Some s ->
  faults w = [] ->
  (List.find (matches [email_is (Some (Js.toLowerCase mail))]) (users w) = None ->
     postLogin req w
     = (Sent (Redirect "/login"),
        with_session (Some {| passport_user := passport_user s; returnTo := returnTo s;
                              flash := flash s ++ [("errors", not_found mail)] |}) req,
        w))
  /\ (forall u digest,
        List.find (matches [email_is (Some (Js.toLowerCase mail))]) (users w) = Some u ->
        password u = Some digest ->
        truthy (Some digest) = true ->
        bcrypt_compare (body_password (body req)) digest = false ->
        postLogin req w
        = (Sent (Redirect "/login"),
           with_session (Some {| passport_user := passport_user s; returnTo := returnTo s;
                                 flash := flash s ++ [("errors", invalid_credentials)] |}) req,
           w))
  /\ not_found mail <> invalid_credentials.
Proof.
  intros Hvalid Hnorm Hmail Hs Hfaults.
  pose proof (proj1 (login_errors_nil _) Hvalid) as [_ Hpass].
  assert (Hpw : truthy (Some (body_password (body req))) = true).
  { unfold truthy. unfold isEmpty in Hpass. rewrite Hpass. reflexivity. }
  split; [| split].
  - intros Hfind. unfold postLogin. rewrite Hvalid, Hnorm.
    change (0 <? length (@nil FlashMsg)) with false. cbv iota.
    rewrite authenticate_local_verify by assumption.
    unfold verify, findOne. rewrite (fault_none w Hfaults), Hfind.
    unfold flash_redirect, req_flash. rewrite Hs. reflexivity.
  - intros u digest Hfind Hdigest Htruthy Hcmp. unfold postLogin. rewrite Hvalid, Hnorm.
    change (0 <? length (@nil FlashMsg)) with false. cbv iota.
    rewrite authenticate_local_verify by assumption.
    unfold verify, findOne. rewrite (fault_none w Hfaults), Hfind.
    rewrite Hdigest, Htruthy. cbn [negb].
    unfold comparePassword. rewrite (fault_none w Hfaults), Hdigest, Hcmp.
    unfold flash_redirect, req_flash. rewrite Hs. reflexivity.
  - apply not_found_is_not_generic.
Qed.

(** C1, as the code has it.  Take two logins that pass validation and meet
    no failure of the infrastructure, the first under an address that no
    stored user has, the second under the address of a stored user and a
    password that does not verify.  Both are answered by the redirect to
    "/login".  The messages flashed differ: the first run adds
    "Email <address> not found." to the flash of its session, the second
    "Invalid email or password."; from sessions with the same flash the
    two runs leave different observations. *)
Theorem login_failures_share_redirect_only
  (req1 req2 : Request) (s1 s2 : Session) (w1 w2 : World) (mail1 mail2 : string)
  (u : User) (digest : string) :
  login_errors (body req1) = [] ->
  normalizeEmail (body_email (body req1)) false = Some mail1 ->
  truthy (Some mail1) = true ->
  session req1 = Some s1 ->
  faults w1 = [] ->
  List.find (matches [email_is (Some (Js.toLowerCase mail1))]) (users w1) = None ->
  login_errors (body req2) = [] ->
  normalizeEmail (body_email (body req2)) false = Some mail2 ->
  truthy (Some mail2) = true ->
  session req2 = Some s2 ->
  faults w2 = [] ->
  List.find (matches [email_is (Some (Js.toLowerCase mail2))]) (users w2) = Some u ->
  password u = Some digest ->
  truthy (Some digest) = true ->
  bcrypt_compare (body_password (body req2)) digest = false ->
  observable (postLogin req1 w1)
  = (Sent (Redirect "/login"), flash s1 ++ [("errors", not_found mail1)])
  /\ observable (postLogin req2 w2)
     = (Sent (Redirect "/login"), flash s2 ++ [("errors", invalid_credentials)])
  /\ fst (observable (postLogin req1 w1)) = fst (observable (postLogin req2 w2))
  /\ (flash s1 = flash s2 ->
      observable (postLogin req1 w1) <> observable (postLogin req2 w2)).
Proof.
  intros Hv1 Hn1 Hm1 Hs1 Hf1 Hfind1 Hv2 Hn2 Hm2 Hs2 Hf2 Hfind2 Hdigest Htruthy Hcmp.
  destruct (login_failure_answers req1 s1 w1 mail1 Hv1 Hn1 Hm1 Hs1 Hf1) as (Hrun1 & _ & _).
  destruct (login_failure_answers req2 s2 w2 mail2 Hv2 Hn2 Hm2 Hs2 Hf2) as (_ & Hrun2 & _).
  rewrite (Hrun1 Hfind1), (Hrun2 u digest Hfind2 Hdigest Htruthy Hcmp).
  unfold observable. simpl. repeat split.
  intros Hflash Heq. rewrite Hflash in Heq. injection Heq as Heq.
  apply app_inv_head in Heq.
  apply (not_found_is_not_generic mail1). congruence.
Qed.

(** ** The stored password *)

Lemma fault_users w : users (snd (fault w)) = users w.
Proof. unfold fault. destruct (faults w); reflexivity. Qed.

Lemma pre_save_spec (d d1 : Document) (w w1 : World) :
  pre_save d w = (Ok d1, w1) ->
  users w1 = users w
  /\ isNew d1 = isNew d
  /\ modifiedPaths d1 = modifiedPaths d
  /\ _id (fields d1) = _id (fields d)
  /\ (if isModified d path_password
      then exists plain salt, password (fields d) = Some plain
                              /\ password (fields d1) = Some (bcrypt_hash plain salt)
      else d1 = d).
Proof.
  unfold pre_save. destruct (isModified d path_password); simpl.
  - unfold fault. destruct w as [us ss oid ent con fs]. simpl.
    destruct (password (fields d)) as [plain |] eqn:Hp;
      destruct fs as [| [e |] [| [e' |] fs]]; simpl; intros Hrun; simplify_eq; simpl;
      repeat split; eauto.
  - intros Hrun. simplify_eq. repeat split.
Qed.

Lemma pre_save_users (d : Document) (w : World) : users (snd (pre_save d w)) = users w.
Proof.
  unfold pre_save, fault. destruct w as [us ss oid ent con fs].
  destruct (isModified d path_password), (password (fields d)),
    fs as [| [e |] [| [e' |] fs]]; reflexivity.
Qed.

Lemma never_plaintext_app us u :
  never_plaintext us ->
  (forall h, password u = Some h -> digest h) ->
  never_plaintext (us ++ [u]).
Proof.
  intros Hus Hu v h Hin Hp. apply in_app_or in Hin. destruct Hin as [Hin | [-> | []]].
  - exact (Hus v h Hin Hp).
  - exact (Hu h Hp).
Qed.

Lemma never_plaintext_merge paths u us :
  never_plaintext us ->
  (path_password ∈ paths -> forall h, password u = Some h -> digest h) ->
  never_plaintext (map (fun v => if _id v =? _id u then merge_paths paths u v else v) us).
Proof.
  intros Hus Hu v h Hin Hp. apply in_map_iff in Hin. destruct Hin as (v0 & Hv & Hin).
  destruct (_id v0 =? _id u); subst v.
  - unfold merge_paths in Hp. simpl in Hp. case_bool_decide as Hpath.
    + exact (Hu Hpath h Hp).
    + exact (Hus v0 h Hin Hp).
  - exact (Hus v0 h Hin Hp).
Qed.

(** Saving keeps the collection free of plaintext, for every document that
    is not a new one carrying a password it was never given. *)
Lemma save_never_plaintext (d : Document) (w : World) :
  (isNew d = true -> isModified d path_password = true) ->
  never_plaintext (users w) ->
  never_plaintext (users (snd (save d w))).
Proof.
  intros Hnew Hinv. unfold save.
  destruct (pre_save d w) as [[e | d1] w1] eqn:Hpre.
  - simpl. pose proof (pre_save_users d w) as Hu. rewrite Hpre in Hu. simpl in Hu.
    rewrite Hu. exact Hinv.
  - apply pre_save_spec in Hpre.
    destruct Hpre as (Hu & Hn & Hm & _ & Hhash).
    assert (Hdig : isModified d path_password = true ->
                   forall h, password (fields d1) = Some h -> digest h).
    { intros Hmod h Hh. rewrite Hmod in Hhash. destruct Hhash as (plain & salt & _ & Hd).
      rewrite Hd in Hh. injection Hh as <-. exists plain, salt. reflexivity. }
    rewrite Hn, Hm. destruct (isNew d) eqn:HisNew.
    + unfold insertOne, fault. destruct (faults w1) as [| [e |] fs]; simpl;
        try (rewrite Hu; exact Hinv);
        destruct (duplicate_key (fields d1) _); simpl; try (rewrite Hu; exact Hinv);
        rewrite Hu; apply never_plaintext_app; auto.
    + unfold updateOne, fault. destruct (modifiedPaths d) as [| p ps] eqn:Hpaths; simpl;
        [rewrite Hu; exact Hinv |].
      assert (Hin : path_password ∈ p :: ps -> isModified d path_password = true).
      { intros Hp. unfold isModified. rewrite Hpaths. apply bool_decide_eq_true_2. exact Hp. }
      destruct (faults w1) as [| [e |] fs]; simpl;
        try (rewrite Hu; exact Hinv);
        destruct (update_conflict _ _ _); simpl; try (rewrite Hu; exact Hinv);
        rewrite Hu; apply never_plaintext_merge; auto.
Qed.

Lemma new_User_modified name mail pass w :
  isModified (fst (new_User name mail pass w)) path_password = true.
Proof.
  unfold isModified. simpl. apply bool_decide_eq_true_2. destruct name; set_solver.
Qed.

(** The strategy reads the collection and writes nothing. *)
Lemma authenticate_local_keeps (name : option string) (pass : string) (w : World) :
  users (snd (authenticate_local name pass w)) = users w
  /\ objectIds (snd (authenticate_local name pass w)) = objectIds w
  /\ sessions (snd (authenticate_local name pass w)) = sessions w.
Proof.
  unfold authenticate_local, verify, findOne, comparePassword, fault.
  destruct w as [us ss oid ent con fs]. simpl.
  repeat case_match; simplify_eq; repeat split.
Qed.

Lemma postLogin_keeps req w :
  users (snd (postLogin req w)) = users w
  /\ objectIds (snd (postLogin req w)) = objectIds w.
Proof.
  unfold postLogin, flash_redirect.
  destruct (0 <? length (login_errors (body req)));
    [destruct (req_flash _ _ _); split; reflexivity |].
  destruct (authenticate_local_keeps (normalizeEmail (body_email (body req)) false)
              (body_password (body req)) w) as (Hus & Hoid & _).
  destruct (authenticate_local _ _ w) as [[e | [u | info]] w0]; simpl in Hus, Hoid.
  - split; assumption.
  - pose proof (logIn_cases u req w0) as Hin.
    destruct (logIn u req w0) as [[err r] w2]. destruct Hin as (Hus2 & Hoid2 & _).
    destruct err; [| destruct (req_flash _ _ _)]; simpl; split; congruence.
  - destruct (req_flash _ _ _); split; assumption.
Qed.

Lemma postLogin_users req w : users (snd (postLogin req w)) = users w.
Proof. apply postLogin_keeps. Qed.

Lemma logout_keeps req w :
  users (snd (logout req w)) = users w
  /\ objectIds (snd (logout req w)) = objectIds w.
Proof.
  unfold logout, passport_logout.
  destruct (session req) as [s |] eqn:Hs; cbn [session with_user with_session];
    rewrite ?Hs; [| split; reflexivity].
  unfold session_destroy, store_set, fault. destruct w as [us ss oid ent con fs].
  destruct fs as [| [e |] [| [e' |] fs]]; split; reflexivity.
Qed.

Lemma logout_users req w : users (snd (logout req w)) = users w.
Proof. apply logout_keeps. Qed.

Lemma postSignup_never_plaintext req w :
  never_plaintext (users w) -> never_plaintext (users (snd (postSignup req w))).
Proof.
  intros Hinv. unfold postSignup.
  destruct (0 <? length (signup_errors (body req))).
  { unfold flash_redirect. destruct (req_flash _ _ _); exact Hinv. }
  destruct (new_User _ _ _ w) as [doc w0] eqn:Hnew.
  assert (Hw0 : users w0 = users w) by (unfold new_User in Hnew; simplify_eq; reflexivity).
  assert (Hmod : isModified doc path_password = true).
  { pose proof (new_User_modified (body_userName (body req))
                  (cast_string (normalizeEmail (body_email (body req)) false))
                  (body_password (body req)) w) as Hm.
    rewrite Hnew in Hm. exact Hm. }
  unfold findOne. pose proof (fault_users w0) as Hf.
  destruct (fault w0) as [[e |] w1]; simpl in Hf;
    assert (Hinv1 : never_plaintext (users w1)) by (rewrite Hf, Hw0; exact Hinv);
    [exact Hinv1 |].
  destruct (List.find _ (users w1)).
  { unfold flash_redirect. destruct (req_flash _ _ _); exact Hinv1. }
  pose proof (save_never_plaintext doc w1 (fun _ => Hmod) Hinv1) as Hsave.
  destruct (save doc w1) as [[e | saved] w2]; simpl in Hsave |- *.
  - exact Hsave.
  - pose proof (logIn_cases (fields saved) req w2) as Hin.
    destruct (logIn _ req w2) as [[err r] w3]. destruct Hin as (Hus & _).
    destruct err; simpl; rewrite Hus; exact Hsave.
Qed.

Lemma find_app_last {A} (p : A -> bool) (l : list A) (x : A) :
  List.find p l = None -> p x = true -> List.find p (l ++ [x]) = Some x.
Proof.
  induction l as [| a l IH]; simpl; intros Hnone Hx.
  - rewrite Hx. reflexivity.
  - destruct (p a); [discriminate | auto].
Qed.

Lemma unused_no_email u us :
  unused u us -> List.find (matches [email_is (email u)]) us = None.
Proof.
  intros Hun. apply find_none_iff. intros v Hv. destruct (Hun v Hv) as (_ & He & _).
  unfold matches. simpl. rewrite bool_decide_eq_false_2 by assumption. reflexivity.
Qed.

(** After a signup went through, the query by the address finds the user
    it stored. *)
Lemma signed_up_found (b : Body) (w w' : World) :
  unused (signed_up b w) (users w) ->
  users w' = users w ++ [signed_up b w] ->
  faults w' = [] ->
  findOne [email_is (email (signed_up b w))] w' = (Ok (Some (signed_up b w)), w').
Proof.
  intros Hun Hus Hfaults. unfold findOne. rewrite (fault_none w' Hfaults), Hus.
  rewrite (find_app_last _ _ (signed_up b w)); [reflexivity | |].
  - apply unused_no_email. exact Hun.
  - unfold matches. simpl. rewrite bool_decide_eq_true_2 by reflexivity. reflexivity.
Qed.

(** C3. Let [bcrypt.hash] never return its own input.  A valid signup under
    an address and a name that no stored user has stores the user, and the
    query by the address then returns it with, as password, the bcrypt
    digest of the submitted password under the salt drawn for this save
    (the next save draws another), which is not the submitted password.
    Every password in the collection being a digest is an invariant of
    every handler of the application and of [save], the one operation that
    writes a user, and a digest is never the data it was computed from. *)
Theorem stored_password_never_plaintext (req : Request) (s : Session) (w : World) :
  (forall data salt, bcrypt_hash data salt <> data) ->
  signup_errors (body req) = [] ->
  session req = Some s ->
  faults w = [] ->
  unused (signed_up (body req) w) (users w) ->
  fst (fst (postSignup req w)) = Sent (Redirect "/todos")
  /\ findOne [email_is (email (signed_up (body req) w))] (snd (postSignup req w))
     = (Ok (Some (signed_up (body req) w)), snd (postSignup req w))
  /\ password (signed_up (body req) w)
     = Some (bcrypt_hash (body_password (body req)) (bcrypt_genSalt 10 (entropy w)))
  /\ password (signed_up (body req) w) <> Some (body_password (body req))
  /\ entropy (snd (postSignup req w)) = S (entropy w)
  /\ (forall r w0, never_plaintext (users w0) ->
        never_plaintext (users (snd (postSignup r w0)))
        /\ never_plaintext (users (snd (postLogin r w0)))
        /\ never_plaintext (users (snd (logout r w0)))
        /\ never_plaintext (users (snd (getLogin r w0)))
        /\ never_plaintext (users (snd (getSignup r w0))))
  /\ (forall d w0, (isNew d = true -> isModified d path_password = true) ->
        never_plaintext (users w0) -> never_plaintext (users (snd (save d w0))))
  /\ (forall us u h, never_plaintext us -> In u us -> password u = Some h ->
        exists data salt, h = bcrypt_hash data salt /\ h <> data).
Proof.
  intros Hone_way Hvalid Hs Hfaults Hun.
  rewrite (postSignup_creates req s w Hvalid Hs Hfaults Hun). simpl.
  repeat split.
  - apply signed_up_found; [exact Hun | reflexivity | reflexivity].
  - intros Heq. injection Heq as Heq. exact (Hone_way _ _ Heq).
  - apply postSignup_never_plaintext. assumption.
  - rewrite postLogin_users. assumption.
  - rewrite logout_users. assumption.
  - unfold getLogin, res_render. destruct (isAuthenticated r), (session r); assumption.
  - unfold getSignup, res_render. destruct (isAuthenticated r), (session r); assumption.
  - apply save_never_plaintext.
  - intros us u h Hinv Hin Hp. destruct (Hinv u h Hin Hp) as (data & salt & ->).
    exists data, salt. split; [reflexivity | apply Hone_way].
Qed.

(** ** Logout *)

(** What a logout does to a request with a session: the answer, the
    request, and the world after the save that [req.logout] asks for and
    the destruction that the handler asks for. *)
Lemma logout_spec (req : Request) (s : Session) (w : World) :
  session req = Some s ->
  logout req w
  = (Sent (Redirect "/"), mkRequest (body req) (sessionID req) None None,
     let '(err, w1) :=
       store_destroy (sessionID req)
         (console_log logged_out (snd (store_set (sessionID req) (signed_off s) w))) in
     match err with
     | Some e => console_log (destroy_failed e) w1
     | None => w1
     end).
Proof.
  intros Hs. unfold logout, passport_logout. rewrite Hs.
  cbn [session with_user with_session]. unfold session_destroy, store_destroy.
  destruct (fault _) as [[e |] w1]; reflexivity.
Qed.

(** A request for GET /todos whose cookie names no stored session is sent
    back to "/" by the guard. *)
Lemma unknown_cookie_denied (sid : SessionID) (b : Body) (w : World) :
  faults w = [] ->
  sessions w !! sid = None ->
  server todosController homeController GET "/todos" (Some sid) b w
  = (["ensureAuth"], Sent (Redirect "/"), sessionID (generate b w), w).
Proof.
  intros Hfaults Hsid. unfold server, session_load.
  rewrite (fault_none w Hfaults), Hsid. unfold routes. dispatch.
  unfold session_end. dispatch. rewrite !bool_decide_eq_true_2 by reflexivity. reflexivity.
Qed.

(** So is one whose cookie names a session without a login reference. *)
Lemma no_reference_denied (sid : SessionID) (s : Session) (b : Body) (w : World) :
  faults w = [] ->
  sessions w !! sid = Some s ->
  passport_user s = None ->
  server todosController homeController GET "/todos" (Some sid) b w
  = (["ensureAuth"], Sent (Redirect "/"), sid, w).
Proof.
  intros Hfaults Hsid Hnone. unfold server, session_load.
  rewrite (fault_none w Hfaults), Hsid. unfold passport_session. cbn [session].
  rewrite Hnone. unfold routes. dispatch.
  unfold session_end. dispatch. rewrite !bool_decide_eq_true_2 by reflexivity. reflexivity.
Qed.

(** GET /todos under a cookie whose session names a stored user. *)
Lemma member_reaches_todos (sid : nat) (s : Session) (u : User) (b : Body) (w : World) :
  faults w = [] ->
  NoDup (map _id (users w)) ->
  In u (users w) ->
  sessions w !! sid = Some s ->
  passport_user s = Some (_id u) ->
  server todosController homeController GET "/todos" (Some sid) b w
  = let '(o, req1, w1) :=
      getTodos todosController
               {| body := b; sessionID := sid; session := Some s; user := Some u |} w in
    (["ensureAuth"; "todosController.getTodos"], o, sessionID req1,
     session_end {| body := b; sessionID := sid; session := Some s; user := None |}
                 req1 w1).
Proof.
  intros Hfaults Hnd Hin Hsid Hid.
  unfold server, session_load. rewrite (fault_none w Hfaults), Hsid.
  unfold passport_session. cbn [session]. rewrite Hid.
  unfold deserializeUser, findById. rewrite (fault_none w Hfaults).
  rewrite (find_by_unique_id _ _ Hnd Hin).
  unfold routes. dispatch.
  destruct (getTodos todosController _ w) as [[o req1] w1]. destruct o; reflexivity.
Qed.

(** GET /logout reaches [logout] in the routers, and nothing else. *)
Lemma routes_logout (r : Request) (w : World) (s : Session) :
  session r = Some s ->
  faults w = [] ->
  let '(ran, o, req2, w3) := routes todosController homeController GET "/logout" r w in
  ran = ["authController.logout"] /\ o = Sent (Redirect "/")
  /\ session req2 = None /\ faults w3 = []
  /\ sessions w3 = delete (sessionID r) (sessions w).
Proof.
  intros Hr Hf. unfold routes. dispatch.
  rewrite (logout_spec r s w Hr). unfold store_set, store_destroy.
  rewrite (fault_none w Hf). cbn [snd]. rewrite fault_none by exact Hf.
  cbn [sessions with_sessions console_log faults]. rewrite delete_insert_eq.
  repeat split. exact Hf.
Qed.

(** C4, as the code has it.  A logout removes the user and the session from
    the request, asks the store to save the session without its login
    reference and then to destroy the whole record, and redirects to "/"
    whatever the store answers: the error of the destruction is written to
    the console and to nothing else.  When the store does destroy the
    record, the record is gone; when it does not but the save went through,
    the record stays without its login reference; when both calls fail, the
    record stays as it was.  Unless both fail, a later GET /todos under the
    cookie of before the logout is stopped by [ensureAuth]; so it is after
    a logout through the server on a store that does not fail.  When both
    fail and the record named a stored user, the later GET /todos passes
    [ensureAuth] and runs the todo handler. *)
Theorem logout_redirects_whatever_the_store (req : Request) (s : Session) (w : World) :
  session req = Some s ->
  fst (fst (logout req w)) = Sent (Redirect "/")
  /\ session (snd (fst (logout req w))) = None
  /\ user (snd (fst (logout req w))) = None
  /\ users (snd (logout req w)) = users w
  /\ match first_fate w, second_fate w with
     | _, None =>
         sessions (snd (logout req w)) = delete (sessionID req) (sessions w)
         /\ sessions (snd (logout req w)) !! sessionID req = None
         /\ console (snd (logout req w)) = console w ++ [logged_out]
     | None, Some e =>
         sessions (snd (logout req w)) = <[sessionID req := signed_off s]> (sessions w)
         /\ sessions (snd (logout req w)) !! sessionID req = Some (signed_off s)
         /\ console (snd (logout req w)) = console w ++ [logged_out; destroy_failed e]
     | Some _, Some e =>
         sessions (snd (logout req w)) = sessions w
         /\ console (snd (logout req w)) = console w ++ [logged_out; destroy_failed e]
     end
  /\ (first_fate w = None \/ second_fate w = None ->
      faults (snd (logout req w)) = [] ->
      forall b,
        let '(ran, o, _, w1) :=
          server todosController homeController GET "/todos" (Some (sessionID req)) b
                 (snd (logout req w)) in
        ran = ["ensureAuth"] /\ o = Sent (Redirect "/") /\ w1 = snd (logout req w))
  /\ (forall e1 e2 u s0 b,
        first_fate w = Some e1 ->
        second_fate w = Some e2 ->
        faults (snd (logout req w)) = [] ->
        NoDup (map _id (users w)) ->
        In u (users w) ->
        sessions w !! sessionID req = Some s0 ->
        passport_user s0 = Some (_id u) ->
        fst (fst (fst (server todosController homeController GET "/todos"
                              (Some (sessionID req)) b (snd (logout req w)))))
        = ["ensureAuth"; "todosController.getTodos"])
  /\ (forall sid b b' w0,
        faults w0 = [] ->
        sessions w0 !! sid = Some s ->
        let '(ran, o, _, w1) :=
          server todosController homeController GET "/logout" (Some sid) b w0 in
        ran = ["authController.logout"]
        /\ o = Sent (Redirect "/")
        /\ sessions w1 !! sid = None
        /\ server todosController homeController GET "/todos" (Some sid) b' w1
           = (["ensureAuth"], Sent (Redirect "/"), sessionID (generate b' w1), w1)).
Proof.
  intros Hs. rewrite (logout_spec req s w Hs). cbn [fst snd session user].
  assert (Hstore :
    match first_fate w, second_fate w with
    | _, None =>
        sessions (snd (logout req w)) = delete (sessionID req) (sessions w)
        /\ sessions (snd (logout req w)) !! sessionID req = None
        /\ console (snd (logout req w)) = console w ++ [logged_out]
    | None, Some e =>
        sessions (snd (logout req w)) = <[sessionID req := signed_off s]> (sessions w)
        /\ sessions (snd (logout req w)) !! sessionID req = Some (signed_off s)
        /\ console (snd (logout req w)) = console w ++ [logged_out; destroy_failed e]
    | Some _, Some e =>
        sessions (snd (logout req w)) = sessions w
        /\ console (snd (logout req w)) = console w ++ [logged_out; destroy_failed e]
    end).
  { rewrite (logout_spec req s w Hs).
    unfold first_fate, second_fate, store_set, store_destroy, fault.
    destruct w as [us ss oid ent con fs].
    destruct fs as [| [e |] [| [e' |] fs]]; cbn; rewrite <- ?app_assoc, ?delete_insert_eq;
      repeat split; first [apply lookup_delete_eq | apply lookup_insert_eq]. }
  assert (Halive : forall e1 e2 u s0 b,
            first_fate w = Some e1 ->
            second_fate w = Some e2 ->
            faults (snd (logout req w)) = [] ->
            NoDup (map _id (users w)) ->
            In u (users w) ->
            sessions w !! sessionID req = Some s0 ->
            passport_user s0 = Some (_id u) ->
            fst (fst (fst (server todosController homeController GET "/todos"
                                  (Some (sessionID req)) b (snd (logout req w)))))
            = ["ensureAuth"; "todosController.getTodos"]).
  { intros e1 e2 u s0 b H1 H2 Hfaults Hnd Hin Hrec Hid.
    rewrite H1, H2 in Hstore. destruct Hstore as [Hsame _].
    rewrite (member_reaches_todos (sessionID req) s0 u b (snd (logout req w)) Hfaults).
    - destruct (getTodos todosController _ _) as [[o r] w1]. reflexivity.
    - rewrite logout_users. exact Hnd.
    - rewrite logout_users. exact Hin.
    - rewrite Hsame. exact Hrec.
    - exact Hid. }
  rewrite (logout_spec req s w Hs) in Hstore, Halive. cbn [snd] in Hstore, Halive.
  split; [reflexivity |]. split; [reflexivity |]. split; [reflexivity |].
  split.
  { pose proof (logout_users req w) as Hus. rewrite (logout_spec req s w Hs) in Hus.
    exact Hus. }
  split; [exact Hstore |].
  split; [| split; [exact Halive |]].
  - intros Hfate Hfaults b.
    destruct (first_fate w) as [e1 |], (second_fate w) as [e2 |];
      try (destruct Hfate as [Hfate | Hfate]; discriminate Hfate).
    + destruct Hstore as (_ & Hgone & _).
      rewrite (unknown_cookie_denied _ b _ Hfaults Hgone). repeat split.
    + destruct Hstore as (_ & Hrec & _).
      rewrite (no_reference_denied _ _ b _ Hfaults Hrec eq_refl). repeat split.
    + destruct Hstore as (_ & Hgone & _).
      rewrite (unknown_cookie_denied _ b _ Hfaults Hgone). repeat split.
  - intros sid b b' w0 Hfaults Hsid.
    unfold server, session_load. rewrite (fault_none w0 Hfaults), Hsid.
    unfold passport_session, deserializeUser, findById. cbn [session].
    destruct (passport_user s) as [id |];
      [rewrite (fault_none w0 Hfaults); destruct (List.find _ (users w0)) as [u |] |];
      (match goal with
       | |- context [routes _ _ GET "/logout" ?r w0] =>
           pose proof (routes_logout r w0 _ eq_refl Hfaults) as Hout;
           destruct (routes todosController homeController GET "/logout" r w0)
             as [[[ran o] req2] w3];
           destruct Hout as (-> & -> & Hnone & Hf3 & Hs3)
       end);
      unfold session_end; rewrite Hnone; simpl in Hs3;
      (repeat split; [rewrite Hs3; apply lookup_delete_eq |]);
      (apply unknown_cookie_denied; [exact Hf3 | rewrite Hs3; apply lookup_delete_eq]).
Qed.

(** ** Concurrent signups *)

(** The two steps, taken one after the other with nothing in between, are
    the handler. *)
Lemma postSignup_steps (req : Request) (w : World) :
  postSignup req w
  = match signup_check req w with
    | (Saving doc r, w1) => signup_create doc r w1
    | (Answered o r, w1) => (o, r, w1)
    | (Arrived r, w1) => postSignup r w1
    end.
Proof.
  unfold postSignup, signup_check, signup_create.
  destruct (0 <? length (signup_errors (body req))).
  - destruct (flash_redirect _ _ _ _ _) as [[o r] w1]. reflexivity.
  - destruct (new_User _ _ _ w) as [doc w0].
    destruct (findOne _ w0) as [[e | [v |]] w1]; try reflexivity.
    destruct (flash_redirect _ _ _ _ _) as [[o r] w2]. reflexivity.
Qed.

Lemma check_free (req : Request) us ss oid ent con :
  signup_errors (body req) = [] ->
  List.find (taken_by (body req)) us = None ->
  signup_check req (mkWorld us ss oid ent con [])
  = (Saving (fresh_doc (body req) oid) req, mkWorld us ss (S oid) ent con []).
Proof.
  intros Hvalid Hfind. unfold signup_check. rewrite Hvalid. simpl.
  unfold findOne, fault. simpl. unfold taken_by, mail_of in Hfind. rewrite Hfind. reflexivity.
Qed.

Lemma check_taken (req : Request) (s : Session) (v : User) us ss oid ent con :
  signup_errors (body req) = [] ->
  session req = Some s ->
  List.find (taken_by (body req)) us = Some v ->
  signup_check req (mkWorld us ss oid ent con [])
  = (Answered (Sent (Redirect "../signup"))
       (with_session (Some {| passport_user := passport_user s; returnTo := returnTo s;
                              flash := flash s ++ [("errors", account_exists)] |}) req),
     mkWorld us ss (S oid) ent con []).
Proof.
  intros Hvalid Hs Hfind. unfold signup_check. rewrite Hvalid. simpl.
  unfold findOne, fault. simpl. unfold taken_by, mail_of in Hfind. rewrite Hfind.
  unfold flash_redirect, req_flash. rewrite Hs. reflexivity.
Qed.

Lemma fresh_doc_modified (b : Body) (id : ObjectId) :
  isModified (fresh_doc b id) path_password = true.
Proof.
  unfold isModified, fresh_doc. simpl. apply bool_decide_eq_true_2.
  destruct (body_userName b); set_solver.
Qed.

Lemma create_ok (req : Request) (b : Body) (s : Session) id us ss oid ent con :
  session req = Some s ->
  duplicate_key (made b id ent) us = false ->
  signup_create (fresh_doc b id) req (mkWorld us ss oid ent con [])
  = (Sent (Redirect "/todos"),
     logged_in (made b id ent) req ss,
     mkWorld (us ++ [made b id ent]) (renewed (made b id ent) req ss) oid (S ent) con []).
Proof.
  intros Hs Hdup. unfold signup_create, save, pre_save.
  rewrite fresh_doc_modified. simpl. unfold insertOne, fault, set_password. simpl.
  unfold made in Hdup. rewrite Hdup. simpl.
  rewrite (logIn_ok _ req s _ Hs) by reflexivity. reflexivity.
Qed.

Lemma create_duplicate (req : Request) (b : Body) id us ss oid ent con :
  duplicate_key (made b id ent) us = true ->
  signup_create (fresh_doc b id) req (mkWorld us ss oid ent con [])
  = (NextErr E11000, req, mkWorld us ss oid (S ent) con []).
Proof.
  intros Hdup. unfold signup_create, save, pre_save.
  rewrite fresh_doc_modified. simpl. unfold insertOne, fault, set_password. simpl.
  unfold made in Hdup. rewrite Hdup. reflexivity.
Qed.

Lemma free_not_taken (b : Body) us : free b us -> List.find (taken_by b) us = None.
Proof.
  intros Hfree. apply find_none_iff. intros v Hv. destruct (Hfree v Hv) as [He Hn].
  unfold taken_by, matches. simpl. rewrite !bool_decide_eq_false_2 by assumption. reflexivity.
Qed.

Lemma free_no_duplicate (b : Body) id ent us :
  free b us -> (forall v, In v us -> _id v <> id) -> duplicate_key (made b id ent) us = false.
Proof.
  intros Hfree Hids. unfold duplicate_key. apply not_true_is_false. intros Hex.
  apply existsb_exists in Hex. destruct Hex as (v & Hv & Hdup).
  destruct (Hfree v Hv) as [He Hn]. specialize (Hids v Hv).
  apply Nat.eqb_neq in Hids. simpl in Hdup. rewrite Hids in Hdup.
  rewrite !bool_decide_eq_false_2 in Hdup by assumption. discriminate.
Qed.

Lemma collide_taken (a b : Body) id ent us :
  collide a b -> free b us -> List.find (taken_by b) (us ++ [made a id ent]) = Some (made a id ent).
Proof.
  intros Hcol Hfree. apply find_app_last; [apply free_not_taken; exact Hfree |].
  unfold taken_by, matches. simpl. destruct Hcol as [Hm | Hn].
  - rewrite Hm, bool_decide_eq_true_2 by reflexivity. reflexivity.
  - rewrite Hn, (bool_decide_eq_true_2 (body_userName b = body_userName b)) by reflexivity.
    apply orb_true_r.
Qed.

Lemma collide_duplicate (a b : Body) ida idb enta entb us :
  collide a b -> duplicate_key (made b idb entb) (us ++ [made a ida enta]) = true.
Proof.
  intros Hcol. unfold duplicate_key. rewrite existsb_app. apply orb_true_iff. right.
  simpl. destruct Hcol as [Hm | Hn].
  - rewrite Hm, (bool_decide_eq_true_2 (Some (mail_of b) = Some (mail_of b))) by reflexivity.
    rewrite !orb_true_r. reflexivity.
  - rewrite Hn, (bool_decide_eq_true_2 (body_userName b = body_userName b)) by reflexivity.
    rewrite !orb_true_r. reflexivity.
Qed.

Lemma race_swap (schedule : list bool) (t1 t2 : Signup) (w : World) :
  race (map negb schedule) t2 t1 w
  = let '(a, b, w') := race schedule t1 t2 w in (b, a, w').
Proof.
  revert t1 t2 w. induction schedule as [| [] rest IH]; intros t1 t2 w; simpl.
  - reflexivity.
  - destruct (signup_step t1 w) as [t w1]. apply IH.
  - destruct (signup_step t2 w) as [t w1]. apply IH.
Qed.

Lemma one_winner_swap (w : World) (t1 t2 : Signup) (w' : World) :
  one_winner w (t1, t2, w') -> one_winner w (t2, t1, w').
Proof.
  intros (o1 & r1 & o2 & r2 & H1 & H2 & Hwin & Hlen).
  exists o2, r2, o1, r1. repeat split; try assumption.
  destruct Hwin as [[? ?] | [? ?]]; [right | left]; split; assumption.
Qed.

Lemma collide_sym (a b : Body) : collide a b -> collide b a.
Proof. intros [Hm | Hn]; [left | right]; congruence. Qed.

Lemma duplicate_by_handler (s : Session) (r : Request) :
  duplicate_answer (Sent (Redirect "../signup"))
    (with_session (Some {| passport_user := passport_user s; returnTo := returnTo s;
                           flash := flash s ++ [("errors", account_exists)] |}) r).
Proof. left. split; [reflexivity |]. simpl. apply in_or_app. right. left. reflexivity. Qed.

(** The three schedules in which the first signup is the first to move. *)
Lemma first_to_move (a b : Request) (sa sb : Session) us ss oid ent con (schedule : list bool) :
  signup_errors (body a) = [] ->
  signup_errors (body b) = [] ->
  session a = Some sa ->
  session b = Some sb ->
  (forall v, In v us -> _id v < oid) ->
  free (body a) us ->
  free (body b) us ->
  collide (body a) (body b) ->
  In schedule [[true; true; false; false]; [true; false; true; false];
               [true; false; false; true]] ->
  one_winner (mkWorld us ss oid ent con [])
             (race schedule (Arrived a) (Arrived b) (mkWorld us ss oid ent con [])).
Proof.
  intros Hva Hvb Hsa Hsb Hids Hfa Hfb Hcol Hin.
  assert (Hida : forall v, In v us -> _id v <> oid) by (intros v Hv; specialize (Hids v Hv); lia).
  assert (Hidb : forall v, In v us -> _id v <> S oid) by (intros v Hv; specialize (Hids v Hv); lia).
  pose proof (free_not_taken _ _ Hfa) as Hna.
  pose proof (free_not_taken _ _ Hfb) as Hnb.
  destruct Hin as [<- | [<- | [<- | []]]]; cbn [race signup_step].
  - rewrite (check_free a us ss oid ent con Hva Hna).
    cbn [race signup_step].
    rewrite (create_ok a (body a) sa oid us ss (S oid) ent con Hsa
               (free_no_duplicate _ _ _ _ Hfa Hida)).
    cbn [race signup_step].
    rewrite (check_taken b sb (made (body a) oid ent) _ _ (S oid) (S ent) con Hvb Hsb
               (collide_taken _ _ _ _ _ Hcol Hfb)).
    cbn [race signup_step].
    eexists _, _, _, _. split; [reflexivity |]. split; [reflexivity |].
    split; [left; split; [reflexivity | apply duplicate_by_handler] |].
    simpl. rewrite length_app. simpl. lia.
  - rewrite (check_free a us ss oid ent con Hva Hna).
    cbn [race signup_step].
    rewrite (check_free b us ss (S oid) ent con Hvb Hnb).
    cbn [race signup_step].
    rewrite (create_ok a (body a) sa oid us ss (S (S oid)) ent con Hsa
               (free_no_duplicate _ _ _ _ Hfa Hida)).
    cbn [race signup_step].
    rewrite (create_duplicate b (body b) (S oid) _ _ (S (S oid)) (S ent) con
               (collide_duplicate _ _ _ _ _ _ _ Hcol)).
    eexists _, _, _, _. split; [reflexivity |]. split; [reflexivity |].
    split; [left; split; [reflexivity | right; reflexivity] |].
    simpl. rewrite length_app. simpl. lia.
  - rewrite (check_free a us ss oid ent con Hva Hna).
    cbn [race signup_step].
    rewrite (check_free b us ss (S oid) ent con Hvb Hnb).
    cbn [race signup_step].
    rewrite (create_ok b (body b) sb (S oid) us ss (S (S oid)) ent con Hsb
               (free_no_duplicate _ _ _ _ Hfb Hidb)).
    cbn [race signup_step].
    rewrite (create_duplicate a (body a) oid _ _ (S (S oid)) (S ent) con
               (collide_duplicate _ _ _ _ _ _ _ (collide_sym _ _ Hcol))).
    eexists _, _, _, _. split; [reflexivity |]. split; [reflexivity |].
    split; [right; split; [right; reflexivity | reflexivity] |].
    simpl. rewrite length_app. simpl. lia.
Qed.

(** A schedule that gives each of the two signups its two turns is one of
    the six interleavings. *)
Lemma two_turns_each (schedule : list bool) :
  length (List.filter (fun turn : bool => turn) schedule) = 2 ->
  length (List.filter negb schedule) = 2 ->
  In schedule [[true; true; false; false]; [true; false; true; false];
               [true; false; false; true]]
  \/ In (map negb schedule) [[true; true; false; false]; [true; false; true; false];
                             [true; false; false; true]].
Proof.
  intros Ht Hf.
  destruct schedule as [| [] [| [] [| [] [| [] [| [] rest]]]]];
    cbn in Ht, Hf; try discriminate; simpl; tauto.
Qed.

(** C9. Two valid signups that ask for the same normalized address, or for
    the same user name, both free in the collection, are served
    concurrently: each waits for its existence check and then for its save,
    and the turns of the two interleave in any of the possible ways.
    However they interleave, both are answered, exactly one is created and
    logged in, the other is told that the account exists, and the
    collection has one user more.  When both existence checks run before
    either save, the check of the handler has let both through and it is
    the unique index of the store that refuses the second insert, with the
    duplicate key error.  Run alone, the two steps are [postSignup]. *)
Theorem concurrent_signups_one_winner
  (req1 req2 : Request) (s1 s2 : Session) (w : World) (schedule : list bool) :
  signup_errors (body req1) = [] ->
  signup_errors (body req2) = [] ->
  session req1 = Some s1 ->
  session req2 = Some s2 ->
  faults w = [] ->
  (forall v, In v (users w) -> _id v < objectIds w) ->
  free (body req1) (users w) ->
  free (body req2) (users w) ->
  collide (body req1) (body req2) ->
  length (List.filter (fun turn : bool => turn) schedule) = 2 ->
  length (List.filter negb schedule) = 2 ->
  one_winner w (race schedule (Arrived req1) (Arrived req2) w)
  /\ (exists r1 r2 w',
        race [true; false; true; false] (Arrived req1) (Arrived req2) w
        = (Answered (Sent (Redirect "/todos")) r1, Answered (NextErr E11000) r2, w')
        /\ users w' = users w ++ [signed_up (body req1) w])
  /\ (forall req w0,
        postSignup req w0
        = let '(t, w1) := signup_step (Arrived req) w0 in
          match signup_step t w1 with
          | (Answered o r, w2) => (o, r, w2)
          | (_, w2) => (Next, req, w2)
          end).
Proof.
  intros Hv1 Hv2 Hs1 Hs2 Hfaults Hids Hf1 Hf2 Hcol Ht Hf.
  destruct w as [us ss oid ent con fs]. simpl in Hfaults, Hids, Hf1, Hf2. subst fs.
  split; [| split].
  - destruct (two_turns_each schedule Ht Hf) as [Hin | Hin].
    + apply first_to_move with (sa := s1) (sb := s2); assumption.
    + pose proof (first_to_move req2 req1 s2 s1 us ss oid ent con (map negb schedule)
                    Hv2 Hv1 Hs2 Hs1 Hids Hf2 Hf1 (collide_sym _ _ Hcol) Hin) as Hwin.
      rewrite race_swap in Hwin.
      destruct (race schedule (Arrived req1) (Arrived req2) _) as [[t1 t2] w'].
      apply one_winner_swap. exact Hwin.
  - assert (Hida : forall v, In v us -> _id v <> oid)
      by (intros v Hv; specialize (Hids v Hv); lia).
    cbn [race signup_step].
    rewrite (check_free req1 us ss oid ent con Hv1 (free_not_taken _ _ Hf1)).
    cbn [race signup_step].
    rewrite (check_free req2 us ss (S oid) ent con Hv2 (free_not_taken _ _ Hf2)).
    cbn [race signup_step].
    rewrite (create_ok req1 (body req1) s1 oid us ss (S (S oid)) ent con Hs1
               (free_no_duplicate _ _ _ _ Hf1 Hida)).
    cbn [race signup_step].
    rewrite (create_duplicate req2 (body req2) (S oid) _ _ (S (S oid)) (S ent) con
               (collide_duplicate _ _ _ _ _ _ _ Hcol)).
    eexists _, _, _. split; reflexivity.
  - intros req w0. rewrite postSignup_steps. cbn [signup_step].
    destruct (signup_check req w0) as [[r | doc r | o r] w1] eqn:Hcheck.
    + exfalso. unfold signup_check in Hcheck.
      repeat case_match; simplify_eq.
    + cbn [signup_step]. destruct (signup_create doc r w1) as [[o r1] w2]. reflexivity.
    + reflexivity.
Qed.

End Properties.

(** * The example of the specification, on release 13 of [validator] *)

Section Example.

Context `{B : Bcrypt}.

(** C6, as the code has it.  Let [bcrypt.compare] accept a password against
    the digest [bcrypt.hash] made of it under a generated salt, and let a
    digest never be empty.  The signup of alice under "Alice@Example.com",
    without the trailing space, with the password "longpass1" confirmed,
    passes validation and succeeds; the address stored is
    "alice@example.com"; and the login under "alice@example.com" with
    "longpass1" that follows is authenticated: the strategy returns the
    stored user and [postLogin] logs it in and redirects to the protected
    area. *)
Theorem alice_signs_up_then_logs_in (req req' : Request) (s s' : Session) (w : World) :
  (forall data n, bcrypt_compare data (bcrypt_hash data (bcrypt_genSalt 10 n)) = true) ->
  (forall data salt, bcrypt_hash data salt <> EmptyString) ->
  body req = alice_signup "Alice@Example.com" ->
  session req = Some s ->
  faults w = [] ->
  unused (signed_up (V := validator13) (body req) w) (users w) ->
  body req' = alice_login ->
  session req' = Some s' ->
  returnTo s' = None ->
  let alice := signed_up (V := validator13) (body req) w in
  let w1 := snd (postSignup (V := validator13) req w) in
  signup_errors (V := validator13) (body req) = []
  /\ fst (fst (postSignup (V := validator13) req w)) = Sent (Redirect "/todos")
  /\ users w1 = users w ++ [alice]
  /\ email alice = Some "alice@example.com"
  /\ findOne [email_is (Some "alice@example.com")] w1 = (Ok (Some alice), w1)
  /\ authenticate_local (normalizeEmail (Validator := validator13) (body_email alice_login) false)
                        (body_password alice_login) w1
     = (Ok (Authenticated alice), w1)
  /\ fst (fst (postLogin (V := validator13) req' w1)) = Sent (Redirect "/todos")
  /\ user (snd (fst (postLogin (V := validator13) req' w1))) = Some alice.
Proof.
  intros Hcompare Hnonempty Hbody Hs Hfaults Hun Hbody' Hs' Hret alice w1.
  assert (Hvalid : signup_errors (V := validator13) (body req) = []).
  { rewrite Hbody. vm_compute. reflexivity. }
  assert (Hmail : email alice = Some "alice@example.com").
  { unfold alice, signed_up. rewrite Hbody. vm_compute. reflexivity. }
  assert (Hw1 : w1 = mkWorld (users w ++ [alice]) (renewed alice req (sessions w))
                             (S (objectIds w)) (S (entropy w)) (console w) []).
  { unfold w1. rewrite (postSignup_creates req s w Hvalid Hs Hfaults Hun). reflexivity. }
  assert (Hfound : findOne [email_is (Some "alice@example.com")] w1 = (Ok (Some alice), w1)).
  { rewrite <- Hmail. apply signed_up_found; [exact Hun | | ]; rewrite Hw1; reflexivity. }
  assert (Hpw : password alice
                = Some (bcrypt_hash "longpass1" (bcrypt_genSalt 10 (entropy w)))).
  { unfold alice, signed_up. rewrite Hbody. reflexivity. }
  assert (Hauth : authenticate_local (normalizeEmail (Validator := validator13) (body_email alice_login) false)
                    (body_password alice_login) w1 = (Ok (Authenticated alice), w1)).
  { change (normalizeEmail (Validator := validator13) (body_email alice_login) false) with (Some "alice@example.com").
    rewrite authenticate_local_verify by reflexivity.
    unfold verify. change (Js.toLowerCase "alice@example.com") with "alice@example.com".
    rewrite Hfound, Hpw.
    assert (Htruthy : truthy (Some (bcrypt_hash "longpass1" (bcrypt_genSalt 10 (entropy w))))
                      = true).
    { unfold truthy. destruct (bcrypt_hash _ _) eqn:Hh; [| reflexivity].
      exfalso. exact (Hnonempty _ _ Hh). }
    rewrite Htruthy. cbn [negb]. unfold comparePassword.
    rewrite (fault_none w1) by (rewrite Hw1; reflexivity).
    rewrite Hpw. change (body_password alice_login) with "longpass1".
    rewrite Hcompare. reflexivity. }
  assert (Hlogin : postLogin (V := validator13) req' w1
                   = (Sent (Redirect "/todos"),
                      with_session
                        (Some {| passport_user := Some (_id alice); returnTo := None;
                                 flash := [("success", Msg "Success! You are logged in.")] |})
                        (logged_in alice req' (sessions w1)),
                      with_sessions (renewed alice req' (sessions w1)) w1)).
  { unfold postLogin. rewrite Hbody'.
    change (login_errors (V := validator13) alice_login) with (@nil FlashMsg).
    change (0 <? length (@nil FlashMsg)) with false. cbv iota.
    rewrite Hauth. rewrite (logIn_ok alice req' s' w1 Hs') by (rewrite Hw1; reflexivity).
    reflexivity. }
  split; [exact Hvalid |].
  split; [rewrite (postSignup_creates req s w Hvalid Hs Hfaults Hun); reflexivity |].
  split; [rewrite Hw1; reflexivity |].
  split; [exact Hmail |]. split; [exact Hfound |]. split; [exact Hauth |].
  rewrite Hlogin. split; reflexivity.
Qed.

End Example.

(** * Concrete runs *)

Example isEmail_accepts :
  map (isEmail (Validator := validator13))
      ["foo@bar.com"; "x@x.au"; "foo+bar@bar.com"; "test|123@m.com"; "Alice@Example.com"]
  = [true; true; true; true; true].
Proof. vm_compute. reflexivity. Qed.

Example isEmail_rejects :
  map (isEmail (Validator := validator13))
      ["invalidemail@"; "invalid.com"; "@invalid.com"; "foo@bar.com."; "foo@_bar.com";
       "foo bar@x.com"; " foo@bar.com"; "foo@bar.com "; "a@b.c"]
  = [false; false; false; false; false; false; false; false; false].
Proof. vm_compute. reflexivity. Qed.

Example normalizeEmail_runs :
  map (fun mail => normalizeEmail (Validator := validator13) mail false)
      ["Alice@Example.com"; "some.Name+extension@GoogleMail.com"; "+extension@gmail.com";
       "some-name-ext@Yahoo.com"; "TEST@ME.COM"; "a@ya.ru"]
  = [Some "alice@example.com"; Some "some.name@gmail.com"; None;
     Some "some-name@yahoo.com"; Some "test@me.com"; Some "a@yandex.ru"].
Proof. vm_compute. reflexivity. Qed.

(** The login of bob with his password, from a session without [returnTo],
    ends on "/todos" with bob on the request. *)
Example bob_logs_in :
  let '(o, req1, _) := postLogin (V := validator13) (B := standin_bcrypt)
                                 (arriving bob_login) bob_world in
  o = Sent (Redirect "/todos") /\ user req1 = Some bob
  /\ session req1 ≫= passport_user = Some 0.
Proof. vm_compute. repeat split. Qed.

(** GET /todos and POST /todos/createTodo without a cookie. *)
Example anonymous_requests :
  fst (fst (fst (server (V := validator13) (B := standin_bcrypt) sample_todos sample_home
                        GET "/todos" None no_form no_world)))
  = ["ensureAuth"]
  /\ fst (fst (server (V := validator13) (B := standin_bcrypt) sample_todos sample_home
                      POST "/todos/createTodo" None no_form no_world))
     = (["todosController.createTodo"], Sent (Redirect "/todos")).
Proof. split; reflexivity. Qed.

(** C1 fails as stated: the same login, "bob@example.com" with a wrong
    password, is told "Email bob@example.com not found." when no such
    user is stored and "Invalid email or password." when bob is, so the
    client can tell the two failures apart. *)
Lemma login_failure_tells_unknown_from_wrong :
  observable (postLogin (V := validator13) (B := standin_bcrypt) (arriving bob_guess) no_world)
  = (Sent (Redirect "/login"), [("errors", Msg "Email bob@example.com not found.")])
  /\ observable (postLogin (V := validator13) (B := standin_bcrypt) (arriving bob_guess) bob_world)
     = (Sent (Redirect "/login"), [("errors", Msg "Invalid email or password.")])
  /\ observable (postLogin (V := validator13) (B := standin_bcrypt) (arriving bob_guess) no_world)
     <> observable (postLogin (V := validator13) (B := standin_bcrypt) (arriving bob_guess) bob_world).
Proof.
  assert (H1 : observable (postLogin (V := validator13) (B := standin_bcrypt)
                             (arriving bob_guess) no_world)
               = (Sent (Redirect "/login"), [("errors", Msg "Email bob@example.com not found.")]))
    by (vm_compute; reflexivity).
  assert (H2 : observable (postLogin (V := validator13) (B := standin_bcrypt)
                             (arriving bob_guess) bob_world)
               = (Sent (Redirect "/login"), [("errors", Msg "Invalid email or password.")]))
    by (vm_compute; reflexivity).
  split; [exact H1 |]. split; [exact H2 |].
  rewrite H1, H2. intros Heq. inversion Heq.
Qed.

Lemma login_failures_share_redirect_only_witness :
  fst (observable (postLogin (V := validator13) (B := standin_bcrypt)
                     (arriving bob_guess) no_world))
  = fst (observable (postLogin (V := validator13) (B := standin_bcrypt)
                       (arriving bob_guess) bob_world)).
Proof.
  refine (proj1 (proj2 (proj2
    (login_failures_share_redirect_only (V := validator13) (B := standin_bcrypt)
       (arriving bob_guess) (arriving bob_guess) empty_session empty_session
       no_world bob_world "bob@example.com" "bob@example.com" bob
       (StandIn.hash "correct horse" (StandIn.genSalt 10 0))
       _ _ _ _ _ _ _ _ _ _ _ _ _ _ _)))); vm_compute; reflexivity.
Defined.

Lemma length_append (s1 s2 : string) :
  String.length (s1 +:+ s2) = String.length s1 + String.length s2.
Proof. induction s1 as [| c s1 IH]; simpl; [reflexivity | rewrite IH; reflexivity]. Qed.

(** The stand-in keeps the contract of bcrypt that the statements rely on. *)
Lemma standin_not_identity (data salt : string) : StandIn.hash data salt <> data.
Proof.
  intros Heq. apply (f_equal String.length) in Heq.
  unfold StandIn.hash in Heq. simpl in Heq. rewrite length_append in Heq. lia.
Qed.

Lemma standin_nonempty (data salt : string) : StandIn.hash data salt <> EmptyString.
Proof. unfold StandIn.hash. discriminate. Qed.

Lemma standin_verifies (data : string) (n : nat) :
  StandIn.compare data (StandIn.hash data (StandIn.genSalt 10 n)) = true.
Proof.
  unfold StandIn.compare, StandIn.hash, StandIn.genSalt. simpl.
  apply String.eqb_refl.
Qed.

Lemma unused_nil (u : User) : unused u [].
Proof. intros v []. Qed.

(** C4 fails as stated: when the store is unreachable, for the save that
    [req.logout] asks for as for the destruction, the logout still
    redirects to "/", but the record of the session stays in the store with
    its login reference, and the next GET /todos under the cookie of before
    the logout passes [ensureAuth] and shows the todos of carol; so it is
    for the logout through the server.  When only the destruction fails,
    the record stays too, without the login reference. *)
Lemma unreachable_store_leaves_session_alive :
  fst (fst (logout carol_request failing_store)) = Sent (Redirect "/")
  /\ console (snd (logout carol_request failing_store))
     = ["User has logged out.";
        "Error : Failed to destroy the session during logout. store unreachable"]
  /\ sessions (snd (logout carol_request failing_store)) !! 7 = Some carol_session
  /\ fst (fst (server (V := validator13) (B := standin_bcrypt) sample_todos sample_home
                      GET "/todos" (Some 7) no_form
                      (snd (logout carol_request failing_store))))
     = (["ensureAuth"; "todosController.getTodos"], Sent (Render "todos.ejs" "todos"))
  /\ (let '(ran, o, _, w1) :=
        server (V := validator13) (B := standin_bcrypt) sample_todos sample_home
               GET "/logout" (Some 7) no_form store_going_down in
      ran = ["authController.logout"]
      /\ o = Sent (Redirect "/")
      /\ sessions w1 !! 7 = Some carol_session
      /\ fst (fst (server (V := validator13) (B := standin_bcrypt) sample_todos sample_home
                          GET "/todos" (Some 7) no_form w1))
         = (["ensureAuth"; "todosController.getTodos"], Sent (Render "todos.ejs" "todos")))
  /\ sessions (snd (logout carol_request failing_destroy)) !! 7
     = Some {| passport_user := None; returnTo := None; flash := [] |}.
Proof. vm_compute. repeat split. Qed.

Lemma logout_redirects_whatever_the_store_witness :
  session carol_request = Some carol_session
  /\ fst (fst (logout carol_request failing_store)) = Sent (Redirect "/").
Proof.
  split; [reflexivity |].
  exact (proj1 (logout_redirects_whatever_the_store
                  (V := validator13) (B := standin_bcrypt) sample_todos sample_home
                  carol_request carol_session failing_store eq_refl)).
Defined.


(** C6 fails as stated: with the trailing space the address is not an
    email for [validator.isEmail], the signup stops at validation with
    "Please enter a valid email address." and the redirect to the form,
    and nothing is stored. *)
Lemma trailing_space_fails_validation :
  isEmail (Validator := validator13) "Alice@Example.com " = false
  /\ signup_errors (V := validator13) (alice_signup "Alice@Example.com ")
     = [Msg "Please enter a valid email address."]
  /\ observable (postSignup (V := validator13) (B := standin_bcrypt)
                   (arriving (alice_signup "Alice@Example.com ")) no_world)
     = (Sent (Redirect "../signup"), [("errors", Msg "Please enter a valid email address.")])
  /\ users (snd (postSignup (V := validator13) (B := standin_bcrypt)
                   (arriving (alice_signup "Alice@Example.com ")) no_world)) = [].
Proof. repeat split; vm_compute; reflexivity. Qed.

Lemma alice_signs_up_then_logs_in_witness :
  user (snd (fst (postLogin (V := validator13) (B := standin_bcrypt)
                    (arriving alice_login)
                    (snd (postSignup (V := validator13) (B := standin_bcrypt)
                            (arriving (alice_signup "Alice@Example.com")) no_world)))))
  = Some (signed_up (V := validator13) (B := standin_bcrypt)
            (alice_signup "Alice@Example.com") no_world).
Proof.
  refine (proj2 (proj2 (proj2 (proj2 (proj2 (proj2 (proj2
    (alice_signs_up_then_logs_in (B := standin_bcrypt)
       (arriving (alice_signup "Alice@Example.com")) (arriving alice_login)
       empty_session empty_session no_world
       standin_verifies standin_nonempty eq_refl eq_refl eq_refl _ eq_refl eq_refl eq_refl)))))))).
  apply unused_nil.
Defined.

Lemma stored_password_never_plaintext_witness :
  password (signed_up (V := validator13) (B := standin_bcrypt)
              (alice_signup "Alice@Example.com") no_world)
  <> Some "longpass1".
Proof.
  refine (proj1 (proj2 (proj2 (proj2
    (stored_password_never_plaintext (V := validator13) (B := standin_bcrypt)
       (arriving (alice_signup "Alice@Example.com")) empty_session no_world
       standin_not_identity _ eq_refl eq_refl _))))).
  - vm_compute. reflexivity.
  - apply unused_nil.
Defined.

Lemma signup_ignores_userName_witness :
  users (snd (postSignup (V := validator13) (B := standin_bcrypt)
                (arriving nameless_signup) no_world))
  = [signed_up (V := validator13) (B := standin_bcrypt) nameless_signup no_world]
  /\ userName (signed_up (V := validator13) (B := standin_bcrypt) nameless_signup no_world)
     = None.
Proof.
  assert (Hrun := signup_ignores_userName (V := validator13) (B := standin_bcrypt)
                    (arriving nameless_signup) empty_session no_world
                    (or_introl eq_refl) eq_refl ltac:(simpl; lia) eq_refl eq_refl eq_refl
                    (unused_nil _)).
  destruct Hrun as (_ & _ & _ & _ & Husers & Hname & _).
  split; [exact Husers | exact Hname].
Defined.

Lemma concurrent_signups_one_winner_witness :
  one_winner no_world
    (race (V := validator13) (B := standin_bcrypt) [true; false; false; true]
          (Arrived (arriving (erin_signup "erin")))
          (Arrived (arriving (erin_signup "erin2"))) no_world).
Proof.
  refine (proj1
    (concurrent_signups_one_winner (V := validator13) (B := standin_bcrypt)
       (arriving (erin_signup "erin")) (arriving (erin_signup "erin2"))
       empty_session empty_session no_world [true; false; false; true]
       _ _ eq_refl eq_refl eq_refl _ _ _ _ eq_refl eq_refl)).
  - vm_compute. reflexivity.
  - vm_compute. reflexivity.
  - intros v [].
  - intros v [].
  - intros v [].
  - left. reflexivity.
Defined.

Lemma guards_hold_no_state_witness :
  session (arriving bob_login) ≫= returnTo = None
  /\ snd (fst (ensureAuth (arriving bob_login) bob_world)) = arriving bob_login
  /\ ("/todos" = "/login" \/ "/todos" = "/todos").
Proof.
  split; [reflexivity |].
  destruct (guards_hold_no_state (V := validator13) (B := standin_bcrypt)
              (arriving bob_login) bob_world) as (Hreq & _ & _ & _ & Hlogin).
  split; [exact Hreq |].
  refine (Hlogin bob_login bob_world "/todos" _ _ eq_refl _).
  vm_compute. reflexivity.
Defined.

(** * Further properties of the handlers *)

Section Further.

Context `{V : Validator} `{B : Bcrypt}.
Context (todosController : TodosController) (homeController : HomeController).

(** X1. The pages of the two forms are for guests: [getLogin] and
    [getSignup] redirect a request that carries a user to "/todos", leaving
    the request as it was, and render their form otherwise; the render
    shows the flash of the session and empties it, and leaves the login
    reference and [returnTo] of the session as they were.  The world is
    untouched.  They answer as [ensureGuest] does, so that putting
    [ensureGuest] in front of them changes no answer, and [ensureGuest]
    lets a request through exactly when [ensureAuth] does not. *)
Theorem guest_pages_redirect_members (req : Request) (s : Session) (w : World) :
  session req = Some s ->
  getLogin req w
  = (if isAuthenticated req then (Sent (Redirect "/todos"), req, w)
     else (Sent (Render "login" "Login"),
           with_session (Some {| passport_user := passport_user s; returnTo := returnTo s;
                                 flash := [] |}) req, w))
  /\ getSignup req w
     = (if isAuthenticated req then (Sent (Redirect "/todos"), req, w)
        else (Sent (Render "signup" "Create Account"),
              with_session (Some {| passport_user := passport_user s; returnTo := returnTo s;
                                    flash := [] |}) req, w))
  /\ snd (fst (fst (run_stack [mkLayer "ensureGuest" ensureGuest;
                               mkLayer "authController.getLogin" getLogin] req w)))
     = fst (fst (getLogin req w))
  /\ snd (fst (fst (run_stack [mkLayer "ensureGuest" ensureGuest;
                               mkLayer "authController.getSignup" getSignup] req w)))
     = fst (fst (getSignup req w))
  /\ (fst (fst (ensureGuest req w)) = Next <-> fst (fst (ensureAuth req w)) <> Next).
Proof.
  intros Hs. unfold ensureGuest, ensureAuth. cbn [run_stack handle layer_name].
  unfold getLogin, getSignup, ensureGuest, res_render. rewrite Hs.
  split; [destruct (isAuthenticated req); reflexivity |].
  split; [destruct (isAuthenticated req); reflexivity |].
  destruct (isAuthenticated req) eqn:Hauth; simpl; rewrite ?Hauth, ?Hs; simpl;
    (split; [reflexivity |]); (split; [reflexivity |]); split; intros Hx;
    try congruence; exfalso; apply Hx; reflexivity.
Qed.

Lemma flash_redirect_flashed (type : string) (msgs : list FlashMsg) (url : string)
  (req : Request) (s : Session) (w : World) :
  session req = Some s ->
  flash_redirect type msgs url req w = (Sent (Redirect url), flashed type msgs s req, w).
Proof. intros Hs. unfold flash_redirect, req_flash, flashed. rewrite Hs. reflexivity. Qed.

Lemma nonempty_length {A} (l : list A) : l <> [] -> (0 <? length l) = true.
Proof. destruct l; [congruence | reflexivity]. Qed.

Lemma postLogin_invalid (req : Request) (s : Session) (w : World) :
  session req = Some s ->
  login_errors (body req) <> [] ->
  postLogin req w
  = (Sent (Redirect "/login"), flashed "errors" (login_errors (body req)) s req, w).
Proof.
  intros Hs Herr. unfold postLogin. rewrite (nonempty_length _ Herr).
  apply flash_redirect_flashed. exact Hs.
Qed.

(** X2. A login form that fails validation goes no further than the
    validation: the answer is the redirect to "/login", the session gets
    the messages of the validation after what it held and nothing else, no
    asynchronous call is made (the world, its coming faults included, is
    as it was) and the request gets no user.  The address message is there
    exactly when the address is no email, the password message exactly
    when the password is the empty string. *)
Theorem invalid_login_stops_at_validation (req : Request) (s : Session) (w : World) :
  session req = Some s ->
  login_errors (body req) <> [] ->
  postLogin req w
  = (Sent (Redirect "/login"), flashed "errors" (login_errors (body req)) s req, w)
  /\ (In (Msg "Please enter a valid email address.") (login_errors (body req))
      <-> isEmail (body_email (body req)) = false)
  /\ (In (Msg "Password cannot be blank.") (login_errors (body req))
      <-> body_password (body req) = EmptyString)
  /\ user (snd (fst (postLogin req w))) = user req.
Proof.
  intros Hs Herr.
  rewrite (postLogin_invalid req s w Hs Herr). split; [reflexivity |].
  unfold login_errors, isEmpty.
  destruct (isEmail (body_email (body req))); destruct (body_password (body req)); simpl;
    repeat split; intros Hx; try congruence; try tauto;
    repeat (destruct Hx as [Hx | Hx]; try congruence); tauto.
Qed.

(** X3. A signup form that fails validation goes no further either: the
    redirect to "../signup", the messages flashed after what the session
    held, no asynchronous call, no id drawn, no user stored, no user on the
    request.  Each of the three messages is there exactly when its test
    fails: the address is no email, the password has fewer than 8
    characters, the confirmation differs from the password. *)
Theorem invalid_signup_stops_at_validation (req : Request) (s : Session) (w : World) :
  session req = Some s ->
  signup_errors (body req) <> [] ->
  postSignup req w
  = (Sent (Redirect "../signup"), flashed "errors" (signup_errors (body req)) s req, w)
  /\ (In (Msg "Please enter a valid email address.") (signup_errors (body req))
      <-> isEmail (body_email (body req)) = false)
  /\ (In (Msg "Password must be at least 8 characters long") (signup_errors (body req))
      <-> String.length (body_password (body req)) < 8)
  /\ (In (Msg "Passwords do not match") (signup_errors (body req))
      <-> body_password (body req) <> body_confirmPassword (body req)).
Proof.
  intros Hs Herr. split.
  { unfold postSignup. rewrite (nonempty_length _ Herr).
    apply flash_redirect_flashed. exact Hs. }
  unfold signup_errors, isLength.
  destruct (isEmail (body_email (body req))),
           (Nat.leb_spec 8 (String.length (body_password (body req)))),
           (String.eqb_spec (body_password (body req)) (body_confirmPassword (body req)));
    simpl; repeat split; intros Hx; try congruence; try lia; try tauto;
    repeat (destruct Hx as [Hx | Hx]; try congruence); try tauto; try lia.
Qed.

Lemma signup_check_cases (req : Request) (s : Session) (w : World) :
  session req = Some s ->
  match signup_check req w with
  | (Saving doc r, w1) =>
      doc = fresh_doc (body req) (objectIds w) /\ r = req
      /\ signup_errors (body req) = []
      /\ List.find (taken_by (body req)) (users w) = None
      /\ users w1 = users w /\ objectIds w1 = S (objectIds w)
      /\ sessions w1 = sessions w
  | (Answered o r, w1) =>
      o <> Sent (Redirect "/todos") /\ users w1 = users w /\ user r = user req
      /\ session r ≫= passport_user = passport_user s
      /\ objectIds w <= objectIds w1
  | (Arrived _, _) => False
  end.
Proof.
  intros Hs. unfold signup_check, flash_redirect, req_flash. rewrite Hs.
  destruct (signup_errors (body req)) as [| m ms] eqn:Herr; simpl.
  - unfold findOne, fault. destruct w as [us ss oid ent con fs]. simpl.
    unfold taken_by, mail_of.
    destruct fs as [| [e |] fs]; simpl;
      try (destruct (List.find _ us) eqn:Hfind; simpl);
      repeat split; try congruence; try lia; rewrite Hs; reflexivity.
  - repeat split; try congruence; lia.
Qed.

(** What [user.save] leaves of the world of a new document: either the
    user was stored, with the digest of its password, or nothing was. *)
Lemma save_new_cases (b : Body) (id : nat) (w : World) :
  let '(res, w1) := save (fresh_doc b id) w in
  objectIds w1 = objectIds w /\ sessions w1 = sessions w
  /\ match res with
     | Ok saved =>
         exists salt,
           fields saved = made_with b id salt
           /\ users w1 = users w ++ [made_with b id salt]
           /\ duplicate_key (made_with b id salt) (users w) = false
     | Err _ => users w1 = users w
     end.
Proof.
  unfold save, pre_save. rewrite fresh_doc_modified.
  unfold insertOne, fault.
  destruct w as [us ss oid ent con fs].
  destruct fs as [| [e |] [| [e' |] [| [e'' |] fs]]]; simpl;
    try (repeat split; fail);
    (destruct (duplicate_key _ us) eqn:Hdup; simpl;
     [repeat split | split; [reflexivity |]; split; [reflexivity |];
                     eexists; repeat split; exact Hdup]).
Qed.

Lemma signup_create_cases (b : Body) (id : nat) (req : Request) (s : Session) (w : World) :
  session req = Some s ->
  let '(o, r, w1) := signup_create (fresh_doc b id) req w in
  objectIds w1 = objectIds w
  /\ ((exists salt,
         users w1 = users w ++ [made_with b id salt]
         /\ duplicate_key (made_with b id salt) (users w) = false
         /\ ((o = Sent (Redirect "/todos")
              /\ r = logged_in (made_with b id salt) req (sessions w))
             \/ (exists e, o = NextErr e /\ user r = None)))
      \/ (o <> Sent (Redirect "/todos") /\ users w1 = users w /\ r = req)).
Proof.
  intros Hs. unfold signup_create.
  pose proof (save_new_cases b id w) as Hsave.
  destruct (save (fresh_doc b id) w) as [[e | saved] w2].
  - destruct Hsave as (Hoid & _ & Hus). split; [exact Hoid |].
    right. repeat split; [intros Hx; discriminate Hx | exact Hus].
  - destruct Hsave as (Hoid & Hss & salt & Hsaved & Hus & Hdup).
    pose proof (logIn_cases (fields saved) req w2) as Hin.
    destruct (logIn (fields saved) req w2) as [[err r] w3].
    destruct Hin as (Hus3 & Hoid3 & _ & _ & Hr).
    destruct err as [e |]; (split; [congruence |]); left; exists salt;
      (split; [congruence |]); (split; [exact Hdup |]).
    + right. exists e. split; [reflexivity | exact Hr].
    + left. split; [reflexivity |]. destruct Hr as [_ ->]. rewrite Hsaved, Hss. reflexivity.
Qed.

(** What a signup does to the collection and to the request, whatever the
    collection holds and whatever fails. *)
Lemma postSignup_cases (req : Request) (s : Session) (w : World) :
  session req = Some s ->
  let '(o, r, w1) := postSignup req w in
  (signup_errors (body req) = []
   /\ List.find (taken_by (body req)) (users w) = None
   /\ objectIds w1 = S (objectIds w)
   /\ exists salt,
        users w1 = users w ++ [made_with (body req) (objectIds w) salt]
        /\ duplicate_key (made_with (body req) (objectIds w) salt) (users w) = false
        /\ ((o = Sent (Redirect "/todos")
             /\ r = logged_in (made_with (body req) (objectIds w) salt) req (sessions w))
            \/ (exists e, o = NextErr e /\ user r = None)))
  \/ (o <> Sent (Redirect "/todos") /\ users w1 = users w /\ user r = user req
      /\ session r ≫= passport_user = passport_user s
      /\ objectIds w <= objectIds w1).
Proof.
  intros Hs. rewrite postSignup_steps.
  pose proof (signup_check_cases req s w Hs) as Hcheck.
  destruct (signup_check req w) as [[r0 | doc r0 | o r0] w0]; [contradiction | |].
  - destruct Hcheck as (-> & -> & Hvalid & Hfind & Hus & Hoid & Hss).
    pose proof (signup_create_cases (body req) (objectIds w) req s w0 Hs) as Hcreate.
    destruct (signup_create _ req w0) as [[o r] w1].
    destruct Hcreate as (Hoid1 & [(salt & Hus1 & Hdup & Hanswer) | (Ho & Hus1 & ->)]).
    + left. rewrite Hus in Hus1, Hdup. rewrite Hss in Hanswer.
      repeat split; try assumption; try congruence.
      exists salt. repeat split; assumption.
    + right. rewrite Hs. repeat split; try congruence; lia.
  - right. exact Hcheck.
Qed.

(** X4. A signup changes the collection by its own user or not at all.
    Whatever the collection holds and whatever call fails, either the
    collection has exactly one user more, with the name and the normalized
    address of the form and a bcrypt digest of its password, or it is as it
    was.  When the user was stored, the answer is the redirect to "/todos",
    with that user on the request and a new session that holds its id and
    nothing else, unless [req.logIn] failed on the session store: then the
    error goes to [next] and no user is on the request, though the user is
    stored.  When nothing was stored, the answer is another one than the
    redirect to "/todos", and the user and the login reference of the
    request are unchanged. *)
Theorem signup_stores_its_user_or_nothing (req : Request) (s : Session) (w : World) :
  session req = Some s ->
  let '(o, r, w1) := postSignup req w in
  (exists u,
     users w1 = users w ++ [u]
     /\ userName u = body_userName (body req)
     /\ email u = Some (cast_string (normalizeEmail (body_email (body req)) false))
     /\ (exists salt, password u = Some (bcrypt_hash (body_password (body req)) salt))
     /\ ((o = Sent (Redirect "/todos")
          /\ user r = Some u
          /\ session r
             = Some {| passport_user := Some (_id u); returnTo := None; flash := [] |}
          /\ sessionID r <> sessionID req)
         \/ (exists e, o = NextErr e /\ user r = None)))
  \/ (o <> Sent (Redirect "/todos")
      /\ users w1 = users w
      /\ user r = user req
      /\ session r ≫= passport_user = passport_user s).
Proof.
  intros Hs. pose proof (postSignup_cases req s w Hs) as Hcases.
  destruct (postSignup req w) as [[o r] w1].
  destruct Hcases as [(_ & _ & _ & salt & Hus & _ & Hanswer) | (Ho & Hus & Hu & Hp & _)].
  - left. exists (made_with (body req) (objectIds w) salt).
    split; [exact Hus |]. split; [reflexivity |]. split; [reflexivity |].
    split; [exists salt; reflexivity |].
    destruct Hanswer as [(-> & ->) | Hfailed]; [left | right; exact Hfailed].
    repeat split. apply renewed_id_new.
  - right. repeat split; assumption.
Qed.

Lemma find_is_some {A} (p : A -> bool) (l : list A) (x : A) :
  In x l -> p x = true -> exists y, List.find p l = Some y.
Proof.
  intros Hin Hp. destruct (List.find p l) as [y |] eqn:Hfind; [eauto |].
  rewrite (find_none p l Hfind x Hin) in Hp. discriminate.
Qed.

(** X5. A valid signup under the address or under the name of a stored user
    is refused by the handler when no call fails: the answer is the
    redirect to "../signup" with "Account with that email address or
    username already exists." flashed, nothing is stored, the request gets
    no user; only the id drawn for the document that is not saved is
    spent.  The name alone, under another address, is enough. *)
Theorem taken_signup_is_refused (req : Request) (s : Session) (w : World) (v : User) :
  signup_errors (body req) = [] ->
  session req = Some s ->
  faults w = [] ->
  In v (users w) ->
  email v = Some (cast_string (normalizeEmail (body_email (body req)) false))
  \/ userName v = body_userName (body req) ->
  postSignup req w
  = (Sent (Redirect "../signup"), flashed "errors" [account_exists] s req,
     with_objectIds (S (objectIds w)) w).
Proof.
  intros Hvalid Hs Hfaults Hin Hsame.
  assert (Htaken : taken_by (body req) v = true).
  { unfold taken_by, matches, mail_of. simpl. destruct Hsame as [He | Hn].
    - rewrite (bool_decide_eq_true_2 _ He). reflexivity.
    - rewrite (bool_decide_eq_true_2 _ Hn). apply orb_true_r. }
  destruct (find_is_some _ _ _ Hin Htaken) as [y Hfind].
  destruct w as [us ss oid ent con fs]. simpl in Hfaults, Hfind. subst fs.
  rewrite postSignup_steps, (check_taken req s y us ss oid ent con Hvalid Hs Hfind).
  reflexivity.
Qed.


Lemma verify_sound (mail pass : string) (w w' : World) (u : User) :
  verify mail pass w = (Ok (Authenticated u), w') ->
  In u (users w)
  /\ email u = Some (Js.toLowerCase mail)
  /\ exists h, password u = Some h /\ truthy (Some h) = true /\ bcrypt_compare pass h = true.
Proof.
  unfold verify, findOne, comparePassword, fault.
  destruct w as [us ss oid ent con fs]. simpl.
  destruct fs as [| [e |] fs]; simpl; try discriminate;
    (destruct (List.find _ us) as [v |] eqn:Hfind; [| discriminate];
     destruct (truthy (password v)) eqn:Htruthy; simpl; [| discriminate];
     apply find_some in Hfind; destruct Hfind as [Hin Hmatch];
     unfold matches in Hmatch; simpl in Hmatch; rewrite orb_false_r in Hmatch;
     apply bool_decide_eq_true_1 in Hmatch).
  - destruct (password v) as [h |] eqn:Hp; [| discriminate].
    destruct (bcrypt_compare pass h) eqn:Hcmp; intros Hrun; simplify_eq. eauto 10.
  - destruct fs as [| [e |] fs]; simpl; try discriminate;
      (destruct (password v) as [h |] eqn:Hp; [| discriminate];
       destruct (bcrypt_compare pass h) eqn:Hcmp; intros Hrun; simplify_eq; eauto 10).
Qed.

(** X7. The strategy authenticates only on a verified password, and says
    nothing but its three messages.  When [verify] answers with a user,
    that user is stored under the lower-cased address, has a non-empty
    password and [bcrypt.compare] accepted the submitted one against it.
    When it rejects, the message is the one for an unknown address, the one
    for an account without password or the one for a wrong password, and
    the collection is untouched in every case. *)
Theorem verify_verdicts (mail pass : string) (w : World) :
  match verify mail pass w with
  | (Ok (Authenticated u), w') =>
      In u (users w)
      /\ email u = Some (Js.toLowerCase mail)
      /\ (exists h, password u = Some h /\ h <> EmptyString /\ bcrypt_compare pass h = true)
      /\ users w' = users w
  | (Ok (Rejected info), w') =>
      (info = not_found mail \/ info = provider_account \/ info = invalid_credentials)
      /\ users w' = users w
  | (Err e, w') => In (Some e) (faults w) /\ users w' = users w
  end.
Proof.
  destruct (verify mail pass w) as [[e | [u | info]] w'] eqn:Hrun.
  - unfold verify, findOne, comparePassword, fault in Hrun.
    destruct w as [us ss oid ent con fs]. simpl in *.
    destruct fs as [| [e0 |] [| [e1 |] fs]]; simpl in Hrun;
      repeat case_match; simplify_eq; simpl; auto.
  - destruct (verify_sound _ _ _ _ _ Hrun) as (Hin & Hmail & h & Hp & Htruthy & Hcmp).
    repeat split; try assumption.
    + exists h. repeat split; try assumption. intros ->. discriminate.
    + unfold verify, findOne, comparePassword, fault in Hrun.
      destruct w as [us ss oid ent con fs]. simpl in *.
      destruct fs as [| [e0 |] [| [e1 |] fs]]; simpl in Hrun;
        repeat case_match; simplify_eq; reflexivity.
  - unfold verify, findOne, comparePassword, fault in Hrun.
    destruct w as [us ss oid ent con fs]. simpl in *.
    destruct fs as [| [e0 |] [| [e1 |] fs]]; simpl in Hrun;
      repeat case_match; simplify_eq; simpl; auto.
Qed.

(** X8. A login puts a user on the request only when the strategy verified
    the password.  If the request came without a user and leaves
    [postLogin] with one, the form passed validation, that user is stored
    under the lower-cased normalized address of the form, [bcrypt.compare]
    accepted the submitted password against its stored one, its id is the
    login reference of the session, and the collection is unchanged. *)
Theorem login_sets_user_only_when_verified (req : Request) (w : World) (u : User) :
  user req = None ->
  user (snd (fst (postLogin req w))) = Some u ->
  login_errors (body req) = []
  /\ In u (users w)
  /\ (exists mail, normalizeEmail (body_email (body req)) false = Some mail
                   /\ email u = Some (Js.toLowerCase mail))
  /\ (exists h, password u = Some h /\ bcrypt_compare (body_password (body req)) h = true)
  /\ session (snd (fst (postLogin req w))) ≫= passport_user = Some (_id u)
  /\ users (snd (postLogin req w)) = users w.
Proof.
  intros Hnone Hset. rewrite postLogin_users.
  unfold postLogin, flash_redirect, req_flash in *.
  destruct (login_errors (body req)) as [| m ms] eqn:Herr; simpl in *.
  - unfold authenticate_local in *.
    destruct (normalizeEmail (body_email (body req)) false) as [mail |] eqn:Hnorm;
      [destruct (truthy (Some mail) && truthy (Some (body_password (body req)))) |];
      try (destruct (session req); simpl in Hset; congruence).
    destruct (verify mail (body_password (body req)) w) as [[e | [v | info]] w1] eqn:Hrun;
      try (destruct (session req); simpl in Hset; congruence).
    destruct (verify_sound _ _ _ _ _ Hrun) as (Hin & Hmail & h & Hp & _ & Hcmp).
    pose proof (logIn_cases v req w1) as Hlog.
    destruct (logIn v req w1) as [[[e |] r] w2].
    + destruct Hlog as (_ & _ & _ & _ & Hr). simpl in Hset. congruence.
    + destruct Hlog as (_ & _ & _ & _ & _ & ->). simpl in Hset |- *.
      injection Hset as <-. repeat split; eauto.
  - destruct (session req); simpl in Hset; congruence.
Qed.

Lemma postLogin_verified (req : Request) (s : Session) (w : World)
  (mail h : string) (u : User) :
  login_errors (body req) = [] ->
  normalizeEmail (body_email (body req)) false = Some mail ->
  truthy (Some mail) = true ->
  session req = Some s ->
  faults w = [] ->
  List.find (matches [email_is (Some (Js.toLowerCase mail))]) (users w) = Some u ->
  password u = Some h ->
  truthy (Some h) = true ->
  bcrypt_compare (body_password (body req)) h = true ->
  postLogin req w
  = (Sent (Redirect "/todos"),
     flashed "success" [Msg "Success! You are logged in."] (login_session u)
             (logged_in u req (sessions w)),
     with_sessions (renewed u req (sessions w)) w).
Proof.
  intros Hvalid Hnorm Hmail Hs Hfaults Hfind Hp Htruthy Hcmp.
  pose proof (proj1 (login_errors_nil _) Hvalid) as [_ Hpass].
  assert (Hpw : truthy (Some (body_password (body req))) = true).
  { unfold truthy. unfold isEmpty in Hpass. rewrite Hpass. reflexivity. }
  unfold postLogin. rewrite Hvalid, Hnorm.
  change (0 <? length (@nil FlashMsg)) with false. cbv iota.
  rewrite authenticate_local_verify by assumption.
  unfold verify, findOne. rewrite (fault_none w Hfaults), Hfind, Hp, Htruthy. cbn [negb].
  unfold comparePassword. rewrite (fault_none w Hfaults), Hp, Hcmp.
  rewrite (logIn_ok u req s w Hs Hfaults). reflexivity.
Qed.

(** X9. A login that verifies starts a new session and lands on "/todos".
    With no failing call, a valid form whose address belongs to a stored
    user and whose password [bcrypt.compare] accepts is answered by the
    redirect to "/todos", whatever the session of the request held under
    [returnTo]: [req.logIn] has replaced that session by a new one, under
    an id that is not the one of the request and was not in use, which
    holds the id of the user, no [returnTo] and, flashed after the login,
    "Success! You are logged in." and nothing of the flash of before.  The
    user is on the request; in the store the record of the old session is
    gone and the new session is saved with the id of the user. *)
Theorem verified_login_starts_new_session (req : Request) (s : Session) (w : World)
  (mail h : string) (u : User) :
  login_errors (body req) = [] ->
  normalizeEmail (body_email (body req)) false = Some mail ->
  truthy (Some mail) = true ->
  session req = Some s ->
  faults w = [] ->
  List.find (matches [email_is (Some (Js.toLowerCase mail))]) (users w) = Some u ->
  password u = Some h ->
  truthy (Some h) = true ->
  bcrypt_compare (body_password (body req)) h = true ->
  let '(o, r, w1) := postLogin req w in
  o = Sent (Redirect "/todos")
  /\ user r = Some u
  /\ session r
     = Some {| passport_user := Some (_id u); returnTo := None;
               flash := [("success", Msg "Success! You are logged in.")] |}
  /\ sessionID r <> sessionID req
  /\ sessions w !! sessionID r = None
  /\ sessions w1 !! sessionID req = None
  /\ sessions w1 !! sessionID r
     = Some {| passport_user := Some (_id u); returnTo := None; flash := [] |}
  /\ users w1 = users w.
Proof.
  intros Hvalid Hnorm Hmail Hs Hfaults Hfind Hp Htruthy Hcmp.
  rewrite (postLogin_verified req s w mail h u Hvalid Hnorm Hmail Hs Hfaults Hfind Hp
             Htruthy Hcmp).
  cbn [flashed logged_in with_session session sessionID user users sessions with_sessions
       login_session flash passport_user returnTo app map].
  split; [reflexivity |]. split; [reflexivity |]. split; [reflexivity |].
  split; [apply renewed_id_new |]. split; [apply renewed_id_unused |].
  unfold renewed. split.
  - rewrite lookup_insert_ne by apply renewed_id_new. apply lookup_delete_eq.
  - split; [apply lookup_insert_eq | reflexivity].
Qed.

(** X10. An account without a password cannot log in with one.  When the
    address of a valid login belongs to a stored user whose password is
    absent or empty, and no call fails, the login is answered by the
    redirect to "/login" with the message about the sign-in provider,
    whatever password was typed: [bcrypt.compare] is not consulted. *)
Theorem passwordless_account_is_rejected (req : Request) (s : Session) (w : World)
  (mail : string) (u : User) :
  login_errors (body req) = [] ->
  normalizeEmail (body_email (body req)) false = Some mail ->
  truthy (Some mail) = true ->
  session req = Some s ->
  faults w = [] ->
  List.find (matches [email_is (Some (Js.toLowerCase mail))]) (users w) = Some u ->
  password u = None \/ password u = Some EmptyString ->
  postLogin req w
  = (Sent (Redirect "/login"), flashed "errors" [provider_account] s req, w).
Proof.
  intros Hvalid Hnorm Hmail Hs Hfaults Hfind Hnopw.
  pose proof (proj1 (login_errors_nil _) Hvalid) as [_ Hpass].
  assert (Hpw : truthy (Some (body_password (body req))) = true).
  { unfold truthy. unfold isEmpty in Hpass. rewrite Hpass. reflexivity. }
  assert (Hfalsy : truthy (password u) = false) by (destruct Hnopw as [-> | ->]; reflexivity).
  unfold postLogin. rewrite Hvalid, Hnorm.
  change (0 <? length (@nil FlashMsg)) with false. cbv iota.
  rewrite authenticate_local_verify by assumption.
  unfold verify, findOne. rewrite (fault_none w Hfaults), Hfind, Hfalsy. cbn [negb].
  apply flash_redirect_flashed. exact Hs.
Qed.

(** X11. When [normalizeEmail] returns [false] for an address that passed
    [isEmail], the login never reaches the strategy's lookup: it is
    answered by the redirect to "/login" with the "Missing credentials" of
    passport-local, under the key [message], and no asynchronous call is
    made. *)
Theorem unnormalizable_login_misses_credentials (req : Request) (s : Session) (w : World) :
  login_errors (body req) = [] ->
  normalizeEmail (body_email (body req)) false = None ->
  session req = Some s ->
  postLogin req w
  = (Sent (Redirect "/login"), flashed "errors" [Message "Missing credentials"] s req, w).
Proof.
  intros Hvalid Hnorm Hs. unfold postLogin. rewrite Hvalid, Hnorm.
  change (0 <? length (@nil FlashMsg)) with false. cbv iota.
  unfold authenticate_local. apply flash_redirect_flashed. exact Hs.
Qed.

(** X12. What [serializeUser] puts in the session, [deserializeUser] turns
    back into the user: for a stored user of a collection without repeated
    ids, and a lookup that does not fail, deserializing the serialized
    user returns that very user and changes nothing; and
    [passport.session()] puts it on a request whose session holds its id. *)
Theorem deserialize_serialize (u : User) (req : Request) (s : Session) (w : World) :
  faults w = [] ->
  NoDup (map _id (users w)) ->
  In u (users w) ->
  session req = Some s ->
  passport_user s = Some (serializeUser u) ->
  deserializeUser (serializeUser u) w = (Ok (Some u), w)
  /\ passport_session req w = (Next, with_user (Some u) req, w).
Proof.
  intros Hfaults Hnd Hin Hs Hid.
  assert (Hde : deserializeUser (serializeUser u) w = (Ok (Some u), w)).
  { unfold deserializeUser, findById, serializeUser. rewrite (fault_none w Hfaults).
    rewrite (find_by_unique_id _ _ Hnd Hin). reflexivity. }
  split; [exact Hde |].
  unfold passport_session. rewrite Hs, Hid, Hde. reflexivity.
Qed.

(** X13. A session that names a stored user opens the todo list.  For a
    cookie whose stored session holds the id of a stored user, in a
    collection without repeated ids and with no failing call, GET /todos
    passes [ensureAuth] and runs [todosController.getTodos] on a request
    that carries that user; what the handler answers is the answer. *)
Theorem member_cookie_opens_todos (sid : nat) (s : Session) (u : User) (b : Body)
  (w : World) :
  faults w = [] ->
  NoDup (map _id (users w)) ->
  In u (users w) ->
  sessions w !! sid = Some s ->
  passport_user s = Some (_id u) ->
  fst (fst (fst (server todosController homeController GET "/todos" (Some sid) b w)))
  = ["ensureAuth"; "todosController.getTodos"]
  /\ snd (fst (fst (server todosController homeController GET "/todos" (Some sid) b w)))
     = fst (fst (getTodos todosController
                   {| body := b; sessionID := sid; session := Some s; user := Some u |} w)).
Proof.
  intros Hfaults Hnd Hin Hsid Hid.
  rewrite (member_reaches_todos todosController homeController sid s u b w Hfaults Hnd Hin Hsid Hid).
  destruct (getTodos todosController _ w) as [[o req1] w1]. split; reflexivity.
Qed.

(** POST /login without a cookie, for a login that verifies: the session
    that [req.logIn] saved is written again when the response ends, with
    the message flashed since. *)
Lemma server_login (b : Body) (w : World) (mail h : string) (u : User) :
  login_errors b = [] ->
  normalizeEmail (body_email b) false = Some mail ->
  truthy (Some mail) = true ->
  faults w = [] ->
  List.find (matches [email_is (Some (Js.toLowerCase mail))]) (users w) = Some u ->
  password u = Some h ->
  truthy (Some h) = true ->
  bcrypt_compare (body_password b) h = true ->
  server todosController homeController POST "/login" None b w
  = (["authController.postLogin"], Sent (Redirect "/todos"),
     renewed_id (generate b w) (sessions w),
     with_sessions
       (<[renewed_id (generate b w) (sessions w) :=
            {| passport_user := Some (_id u); returnTo := None;
               flash := [("success", Msg "Success! You are logged in.")] |}]>
          (renewed u (generate b w) (sessions w)))
       w).
Proof.
  intros Hvalid Hnorm Hmail Hfaults Hfind Hp Htruthy Hcmp.
  unfold server, session_load, passport_session.
  cbn [generate session passport_user empty_session].
  unfold routes. dispatch.
  rewrite (postLogin_verified (generate b w) empty_session w mail h u Hvalid Hnorm Hmail
             eq_refl Hfaults Hfind Hp Htruthy Hcmp).
  unfold session_end, flashed, logged_in, login_session, with_session.
  cbn [returnTo session sessionID flash passport_user app map body user].
  rewrite (bool_decide_eq_false_2 (renewed_id (generate b w) (sessions w)
                                   = sessionID (generate b w)))
    by apply renewed_id_new.
  cbn [andb]. rewrite fault_none by exact Hfaults. reflexivity.
Qed.

Lemma fresh_session_id (w : World) : sessions w !! fresh (dom (sessions w)) = None.
Proof. apply not_elem_of_dom. apply is_fresh. Qed.

(** X14. Logging in through the server opens the todo list to the cookie it
    hands out.  A POST /login without a cookie whose form is valid, whose
    address belongs to a stored user and whose password [bcrypt.compare]
    accepts, with no failing call, runs [postLogin] and redirects to
    "/todos"; the session is stored under an id that was not in use, with
    the id of the user as its only identity data and the success message
    flashed; the collection is unchanged; and a GET /todos that follows
    under that session id passes [ensureAuth] and runs the todo handler. *)
Theorem login_then_todos (b b' : Body) (w : World) (mail h : string) (u : User) :
  login_errors b = [] ->
  normalizeEmail (body_email b) false = Some mail ->
  truthy (Some mail) = true ->
  faults w = [] ->
  NoDup (map _id (users w)) ->
  List.find (matches [email_is (Some (Js.toLowerCase mail))]) (users w) = Some u ->
  password u = Some h ->
  truthy (Some h) = true ->
  bcrypt_compare (body_password b) h = true ->
  let '(ran, o, sid, w1) := server todosController homeController POST "/login" None b w in
  ran = ["authController.postLogin"]
  /\ o = Sent (Redirect "/todos")
  /\ sessions w !! sid = None
  /\ sessions w1 !! sid
     = Some {| passport_user := Some (serializeUser u); returnTo := None;
               flash := [("success", Msg "Success! You are logged in.")] |}
  /\ users w1 = users w
  /\ fst (fst (fst (server todosController homeController GET "/todos" (Some sid) b' w1)))
     = ["ensureAuth"; "todosController.getTodos"].
Proof.
  intros Hvalid Hnorm Hmail Hfaults Hnd Hfind Hp Htruthy Hcmp.
  rewrite (server_login b w mail h u Hvalid Hnorm Hmail Hfaults Hfind Hp Htruthy Hcmp).
  split; [reflexivity |]. split; [reflexivity |].
  split; [apply renewed_id_unused |].
  split; [apply lookup_insert_eq |]. split; [reflexivity |].
  match goal with
  | |- context [server _ _ GET "/todos" (Some ?sid) b' ?w1] =>
      rewrite (member_reaches_todos todosController homeController sid
                 {| passport_user := Some (_id u); returnTo := None;
                    flash := [("success", Msg "Success! You are logged in.")] |}
                 u b' w1 Hfaults Hnd
                 (proj1 (find_some _ _ Hfind)) (lookup_insert_eq _ _ _) eq_refl)
  end.
  destruct (getTodos todosController _ _) as [[o req1] w1]. reflexivity.
Qed.

Lemma NoDup_map_snoc {A C} (f : A -> C) (l : list A) (x : A) :
  NoDup (map f l) -> (forall v, In v l -> f v <> f x) -> NoDup (map f (l ++ [x])).
Proof.
  intros Hnd Hnew. rewrite map_app. apply list.NoDup_app. split; [exact Hnd |].
  split; [| apply NoDup_singleton].
  intros c Hc Hx. apply list_elem_of_In in Hc. apply in_map_iff in Hc.
  destruct Hc as (v & <- & Hv). simpl in Hx. apply list_elem_of_singleton in Hx.
  exact (Hnew v Hv Hx).
Qed.

(** POST /signup without a cookie, for a signup that goes through. *)
Lemma server_signup (b : Body) (w : World) :
  signup_errors b = [] ->
  faults w = [] ->
  unused (signed_up b w) (users w) ->
  server todosController homeController POST "/signup" None b w
  = (["authController.postSignup"], Sent (Redirect "/todos"),
     renewed_id (generate b w) (sessions w),
     mkWorld (users w ++ [signed_up b w])
             (<[renewed_id (generate b w) (sessions w) :=
                  {| passport_user := Some (objectIds w); returnTo := None; flash := [] |}]>
                (renewed (signed_up b w) (generate b w) (sessions w)))
             (S (objectIds w)) (S (entropy w)) (console w) []).
Proof.
  intros Hvalid Hfaults Hun.
  unfold server, session_load, passport_session.
  cbn [generate session passport_user empty_session].
  unfold routes. dispatch.
  rewrite (postSignup_creates (generate b w) empty_session w Hvalid eq_refl Hfaults Hun).
  unfold session_end, logged_in, login_session, fault.
  cbn [returnTo session sessionID flash passport_user body user faults
       sessions users objectIds entropy console with_sessions signed_up _id].
  rewrite (bool_decide_eq_false_2 (renewed_id (generate b w) (sessions w)
                                   = sessionID (generate b w)))
    by apply renewed_id_new.
  reflexivity.
Qed.

(** X15. Signing up through the server logs the new user in.  A valid POST
    /signup without a cookie, under an address and a name that no stored
    user has and an id that is not in use, with no failing call, runs
    [postSignup] and redirects to "/todos"; the user is stored; the session
    is stored under an id that was not in use with the id of the new user;
    and a GET /todos that follows under that session id passes
    [ensureAuth] and runs the todo handler. *)
Theorem signup_then_todos (b b' : Body) (w : World) :
  signup_errors b = [] ->
  faults w = [] ->
  NoDup (map _id (users w)) ->
  unused (signed_up b w) (users w) ->
  let '(ran, o, sid, w1) := server todosController homeController POST "/signup" None b w in
  ran = ["authController.postSignup"]
  /\ o = Sent (Redirect "/todos")
  /\ users w1 = users w ++ [signed_up b w]
  /\ sessions w !! sid = None
  /\ sessions w1 !! sid
     = Some {| passport_user := Some (serializeUser (signed_up b w)); returnTo := None;
               flash := [] |}
  /\ fst (fst (fst (server todosController homeController GET "/todos" (Some sid) b' w1)))
     = ["ensureAuth"; "todosController.getTodos"].
Proof.
  intros Hvalid Hfaults Hnd Hun.
  rewrite (server_signup b w Hvalid Hfaults Hun).
  split; [reflexivity |]. split; [reflexivity |]. split; [reflexivity |].
  split; [apply renewed_id_unused |].
  split; [apply lookup_insert_eq |].
  match goal with
  | |- context [server _ _ GET "/todos" (Some ?sid) b' ?w1] =>
      rewrite (member_reaches_todos todosController homeController sid
                 {| passport_user := Some (objectIds w); returnTo := None; flash := [] |}
                 (signed_up b w) b' w1 eq_refl)
  end.
  - destruct (getTodos todosController _ _) as [[o req1] w1]. reflexivity.
  - cbn [users]. apply NoDup_map_snoc; [exact Hnd |].
    intros v Hv. exact (proj1 (Hun v Hv)).
  - cbn [users]. apply in_or_app. right. left. reflexivity.
  - cbn [sessions]. apply lookup_insert_eq.
  - reflexivity.
Qed.

(** X16. The pre-save hook does not hash again a password that was not
    set.  Saving a stored document whose password path is not modified
    leaves every stored password as it was, whatever else is updated and
    whatever fails, and draws no salt. *)
Theorem unmodified_password_is_kept (d : Document) (w : World) :
  isNew d = false ->
  isModified d path_password = false ->
  map password (users (snd (save d w))) = map password (users w)
  /\ map _id (users (snd (save d w))) = map _id (users w)
  /\ entropy (snd (save d w)) = entropy w.
Proof.
  intros Hold Hmod. unfold save, pre_save. rewrite Hmod. cbn [negb]. rewrite Hold.
  unfold updateOne, fault. destruct w as [us ss oid ent con fs].
  destruct (modifiedPaths d) as [| p ps] eqn:Hpaths; simpl; [repeat split |].
  assert (Hnot : bool_decide (path_password ∈ p :: ps) = false).
  { unfold isModified in Hmod. rewrite Hpaths in Hmod. exact Hmod. }
  destruct fs as [| [e |] fs]; simpl; try (repeat split; fail);
    (destruct (update_conflict _ _ us); simpl; [repeat split |]);
    (split; [| split; [| reflexivity]]; rewrite map_map; apply map_ext; intros v;
     destruct (_id v =? _id (fields d)); try reflexivity; unfold merge_paths; simpl;
     try (rewrite Hnot; reflexivity)).
Qed.

Lemma no_duplicate_key (u : User) (us : list User) :
  duplicate_key u us = false ->
  forall v, In v us -> _id v <> _id u /\ userName v <> userName u /\ email v <> email u.
Proof.
  intros Hdup v Hv. unfold duplicate_key in Hdup.
  assert (Hv' : ((_id v =? _id u) || bool_decide (userName v = userName u)
                 || bool_decide (email v = email u)) = false).
  { destruct ((_id v =? _id u) || bool_decide (userName v = userName u)
              || bool_decide (email v = email u)) eqn:Hx; [| reflexivity].
    rewrite <- Hdup. symmetry. apply existsb_exists. exists v. split; assumption. }
  apply orb_false_elim in Hv'. destruct Hv' as [Hv' He].
  apply orb_false_elim in Hv'. destruct Hv' as [Hi Hn].
  apply Nat.eqb_neq in Hi. apply bool_decide_eq_false_1 in Hn.
  apply bool_decide_eq_false_1 in He. auto.
Qed.

Lemma postLogin_objectIds req w : objectIds (snd (postLogin req w)) = objectIds w.
Proof. apply postLogin_keeps. Qed.

Lemma logout_objectIds req w : objectIds (snd (logout req w)) = objectIds w.
Proof. apply logout_keeps. Qed.

(** X17. The handlers keep the collection as the unique indexes want it.
    If no id, no address and no name occurs twice among the stored users
    and every id is below the counter of ids, the same holds after
    [postSignup], after [postLogin] and after [logout], for every request
    with a session, whatever fails: a signup adds a user only when the
    store found no duplicate key for it, under the id the counter gave. *)
Theorem handlers_keep_users_unique (req : Request) (s : Session) (w : World) :
  session req = Some s ->
  well_kept w ->
  well_kept (snd (postSignup req w))
  /\ well_kept (snd (postLogin req w))
  /\ well_kept (snd (logout req w)).
Proof.
  intros Hs (Hid & Hmail & Hname & Hbelow). split; [| split].
  - pose proof (postSignup_cases req s w Hs) as Hcases.
    destruct (postSignup req w) as [[o r] w1]. unfold well_kept. simpl.
    destruct Hcases as [(_ & _ & Hoid & salt & Hus & Hdup & _) | (_ & Hus & _ & _ & Hoid)].
    + pose proof (no_duplicate_key _ _ Hdup) as Hnew. rewrite Hus, Hoid.
      repeat split.
      * apply NoDup_map_snoc; [exact Hid |]. intros v Hv. exact (proj1 (Hnew v Hv)).
      * apply NoDup_map_snoc; [exact Hmail |]. intros v Hv. exact (proj2 (proj2 (Hnew v Hv))).
      * apply NoDup_map_snoc; [exact Hname |]. intros v Hv. exact (proj1 (proj2 (Hnew v Hv))).
      * intros v Hv. apply in_app_or in Hv. destruct Hv as [Hv | [<- | []]].
        -- specialize (Hbelow v Hv). lia.
        -- simpl. lia.
    + rewrite Hus. repeat split; try assumption.
      intros v Hv. specialize (Hbelow v Hv). lia.
  - unfold well_kept. rewrite postLogin_users, postLogin_objectIds. repeat split; assumption.
  - unfold well_kept. rewrite logout_users, logout_objectIds. repeat split; assumption.
Qed.

Lemma toLowerChar_idempotent (c : ascii) :
  Js.toLowerChar (Js.toLowerChar c) = Js.toLowerChar c.
Proof. destruct c as [[] [] [] [] [] [] [] []]; reflexivity. Qed.

Lemma toLowerCase_idempotent (str : string) :
  Js.toLowerCase (Js.toLowerCase str) = Js.toLowerCase str.
Proof.
  induction str as [| c str IH]; simpl; [reflexivity |].
  rewrite toLowerChar_idempotent, IH. reflexivity.
Qed.

(** X18. The strategy looks the user up without regard to the case of the
    address: lower-casing a string twice is lower-casing it once, so
    [verify] authenticates the same user, and leaves the same world, for an
    address and for its lower-cased form.  A user it authenticates is
    stored under an address that is its own lower-cased form: one stored
    with a capital letter in its address is never authenticated. *)
Theorem verify_ignores_case (mail pass : string) (w w' : World) (u : User) :
  Js.toLowerCase (Js.toLowerCase mail) = Js.toLowerCase mail
  /\ (verify mail pass w = (Ok (Authenticated u), w')
      <-> verify (Js.toLowerCase mail) pass w = (Ok (Authenticated u), w'))
  /\ (verify mail pass w = (Ok (Authenticated u), w') ->
      exists stored, email u = Some stored /\ Js.toLowerCase stored = stored).
Proof.
  split; [apply toLowerCase_idempotent |].
  split; [| intros Hrun; destruct (verify_sound _ _ _ _ _ Hrun) as (_ & Hmail & _);
            exists (Js.toLowerCase mail); split;
            [exact Hmail | apply toLowerCase_idempotent]].
  unfold verify. rewrite toLowerCase_idempotent.
  destruct (findOne _ w) as [[e | [v |]] w1]; try (split; intros Hx; discriminate Hx);
    reflexivity.
Qed.

Ltac answer_of h :=
  match goal with
  | |- context [h ?req ?w] =>
      let o := fresh "o" in
      let req1 := fresh "req1" in
      let w1 := fresh "w1" in
      destruct (h req w) as [[o req1] w1]; destruct o; reflexivity
  end.

(** Matching looks at the lower-cased path only. *)
Lemma path_matches_lower (pattern path : string) :
  path_matches pattern (Js.toLowerCase path) = path_matches pattern path.
Proof. unfold path_matches. rewrite toLowerCase_idempotent. reflexivity. Qed.

(** The paths that match a pattern without a slash at its end: the pattern
    and the pattern followed by a slash, in either case. *)
Lemma path_matches_inv (pattern path : string) :
  Js.ends_with "/" (Js.toLowerCase pattern) = false ->
  path_matches pattern path = true ->
  Js.toLowerCase path = Js.toLowerCase pattern
  \/ Js.toLowerCase path = Js.toLowerCase pattern +:+ "/".
Proof.
  unfold path_matches. intros ->. intros Hm. apply orb_true_iff in Hm.
  destruct Hm as [Hm | Hm]; apply String.eqb_eq in Hm; auto.
Qed.

(** X19. The authentication router of routes/main.js serves six routes and
    nothing else.  Each of GET /, GET /login, POST /login, GET /logout,
    GET /signup and POST /signup runs its one handler with no guard in
    front; so does the path of a route written in other case or with a
    slash at its end, as "/login" shows for its two methods; a HEAD is
    served as the GET of the same path; a PUT or a DELETE is passed on
    whatever the path, and so is every path that matches none of "/",
    "/login", "/logout" and "/signup". *)
Theorem main_routes_dispatch (req : Request) (w : World) (m : Method) (path : string) :
  router (mainRoutes homeController) GET "/" req w
  = ran_only "homeController.getIndex" (getIndex homeController) req w
  /\ router (mainRoutes homeController) GET "/login" req w
     = ran_only "authController.getLogin" getLogin req w
  /\ router (mainRoutes homeController) POST "/login" req w
     = ran_only "authController.postLogin" postLogin req w
  /\ router (mainRoutes homeController) GET "/logout" req w
     = ran_only "authController.logout" logout req w
  /\ router (mainRoutes homeController) GET "/signup" req w
     = ran_only "authController.getSignup" getSignup req w
  /\ router (mainRoutes homeController) POST "/signup" req w
     = ran_only "authController.postSignup" postSignup req w
  /\ router (mainRoutes homeController) PUT path req w = ([], Next, req, w)
  /\ router (mainRoutes homeController) DELETE path req w = ([], Next, req, w)
  /\ router (mainRoutes homeController) HEAD path req w
     = router (mainRoutes homeController) GET path req w
  /\ (path_matches "/login" path = true ->
      router (mainRoutes homeController) GET path req w
      = ran_only "authController.getLogin" getLogin req w
      /\ router (mainRoutes homeController) POST path req w
         = ran_only "authController.postLogin" postLogin req w)
  /\ (path_matches "/" path = false -> path_matches "/login" path = false ->
      path_matches "/logout" path = false -> path_matches "/signup" path = false ->
      router (mainRoutes homeController) m path req w = ([], Next, req, w)).
Proof.
  split; [unfold ran_only; dispatch; answer_of (getIndex homeController) |].
  split; [unfold ran_only; dispatch; answer_of getLogin |].
  split; [unfold ran_only; dispatch; answer_of postLogin |].
  split; [unfold ran_only; dispatch; answer_of logout |].
  split; [unfold ran_only; dispatch; answer_of getSignup |].
  split; [unfold ran_only; dispatch; answer_of postSignup |].
  split; [cbn [router mainRoutes route_method handles_method method_eqb andb]; reflexivity |].
  split; [cbn [router mainRoutes route_method handles_method method_eqb andb]; reflexivity |].
  split; [cbn [router mainRoutes route_method handles_method method_eqb andb]; reflexivity |].
  split.
  - intros Hm.
    assert (Hothers : path_matches "/" path = false /\ path_matches "/logout" path = false
                      /\ path_matches "/signup" path = false).
    { rewrite <- !(path_matches_lower _ path).
      destruct (path_matches_inv "/login" path eq_refl Hm) as [-> | ->];
        repeat split; vm_compute; reflexivity. }
    destruct Hothers as (H1 & H2 & H3).
    unfold ran_only.
    cbn [router mainRoutes route_method route_path stack handles_method method_eqb
         run_stack handle layer_name].
    rewrite Hm, H1, H2, H3. cbn [andb app].
    split; [answer_of getLogin | answer_of postLogin].
  - intros H1 H2 H3 H4.
    cbn [router mainRoutes route_method route_path stack].
    rewrite H1, H2, H3, H4, !andb_false_r. reflexivity.
Qed.

(** What [req.logIn] does to the session store: nothing when the request
    has no session; else the request gets the new id, and only the records
    under the old id and under the new one can change. *)
Lemma logIn_store (u : User) (req : Request) (w : World) :
  let '(err, r, w1) := logIn u req w in
  (sessionID r = sessionID req /\ sessions w1 = sessions w)
  \/ (sessionID r = renewed_id req (sessions w)
      /\ (session r = Some empty_session \/ session r = Some (login_session u))
      /\ forall sid, sid <> sessionID req -> sid <> sessionID r ->
           sessions w1 !! sid = sessions w !! sid).
Proof.
  unfold logIn, session_regenerate, store_destroy, store_set, fault.
  destruct w as [us ss oid ent con fs]. destruct (session req) as [s |]; simpl;
    [| left; split; reflexivity].
  destruct fs as [| [e |] [| [e' |] fs]]; simpl; right;
    (split; [reflexivity |]); (split; [auto |]); intros sid Hold Hnew;
    rewrite ?lookup_insert_ne by congruence; rewrite ?lookup_delete_ne by congruence;
    reflexivity.
Qed.

Lemma flash_redirect_store type msgs url req w :
  sessionID (snd (fst (flash_redirect type msgs url req w))) = sessionID req
  /\ sessions (snd (flash_redirect type msgs url req w)) = sessions w.
Proof. unfold flash_redirect, req_flash. destruct (session req); split; reflexivity. Qed.

(** A handler that leaves the request under its id wrote nothing to the
    store; one that gave it a new id changed at most the records under the
    two ids. *)
Lemma postLogin_store (req : Request) (w : World) :
  let '(o, r, w1) := postLogin req w in
  (sessionID r = sessionID req /\ sessions w1 = sessions w)
  \/ (sessionID r = renewed_id req (sessions w)
      /\ forall sid, sid <> sessionID req -> sid <> sessionID r ->
           sessions w1 !! sid = sessions w !! sid).
Proof.
  unfold postLogin.
  destruct (0 <? length (login_errors (body req))).
  { pose proof (flash_redirect_store "errors" (login_errors (body req)) "/login" req w) as Hf.
    destruct (flash_redirect _ _ _ req w) as [[o r] w1]. left. exact Hf. }
  destruct (authenticate_local_keeps (normalizeEmail (body_email (body req)) false)
              (body_password (body req)) w) as (_ & _ & Hss).
  destruct (authenticate_local _ _ w) as [[e | [u | info]] w0]; simpl in Hss.
  - left. split; [reflexivity | exact Hss].
  - pose proof (logIn_store u req w0) as Hin.
    destruct (logIn u req w0) as [[err r] w2]. rewrite Hss in Hin.
    assert (Hflash : forall r', req_flash "success" [Msg "Success! You are logged in."] r
                                = Ok r' -> sessionID r' = sessionID r).
    { unfold req_flash. destruct (session r); intros r' Hr'; simplify_eq. reflexivity. }
    destruct err as [e |]; [| destruct (req_flash _ _ r) as [e | r'] eqn:Hr'];
      try (destruct Hin as [Hin | (Hid & _ & Hin)]; [left | right; split]; assumption).
    rewrite <- (Hflash r' eq_refl) in Hin.
    destruct Hin as [Hin | (Hid & _ & Hin)]; [left | right; split]; assumption.
  - pose proof (flash_redirect_store "errors" [info] "/login" req w0) as Hf.
    destruct (flash_redirect _ _ _ req w0) as [[o r] w1]. left.
    simpl in Hf. rewrite <- Hss. exact Hf.
Qed.

Lemma save_sessions (d : Document) (w : World) : sessions (snd (save d w)) = sessions w.
Proof.
  unfold save, pre_save, insertOne, updateOne, fault.
  destruct w as [us ss oid ent con fs]. simpl.
  repeat case_match; simplify_eq; reflexivity.
Qed.

Lemma postSignup_store (req : Request) (w : World) :
  let '(o, r, w1) := postSignup req w in
  (sessionID r = sessionID req /\ sessions w1 = sessions w)
  \/ (sessionID r = renewed_id req (sessions w)
      /\ forall sid, sid <> sessionID req -> sid <> sessionID r ->
           sessions w1 !! sid = sessions w !! sid).
Proof.
  unfold postSignup.
  destruct (0 <? length (signup_errors (body req))).
  { pose proof (flash_redirect_store "errors" (signup_errors (body req)) "../signup" req w)
      as Hf.
    destruct (flash_redirect _ _ _ req w) as [[o r] w1]. left. exact Hf. }
  destruct (new_User _ _ _ w) as [doc w0] eqn:Hnew.
  assert (Hw0 : sessions w0 = sessions w) by (unfold new_User in Hnew; simplify_eq; reflexivity).
  unfold findOne, fault.
  destruct (faults w0) as [| [e |] fs] eqn:Hfs; simpl;
    try (left; split; [reflexivity | exact Hw0]);
    (match goal with
     | |- context [List.find ?f ?l] => destruct (List.find f l)
     end;
     [match goal with
      | |- context [flash_redirect ?t ?m ?u ?r ?w'] =>
          pose proof (flash_redirect_store t m u r w') as Hf;
          destruct (flash_redirect t m u r w') as [[o r1] w1]; left;
          simpl in Hf; rewrite <- Hw0; exact Hf
      end |]);
    (match goal with
     | |- context [save doc ?w'] =>
         pose proof (save_sessions doc w') as Hsave;
         destruct (save doc w') as [[e' | saved] w2]; simpl in Hsave;
         [left; split; [reflexivity | rewrite Hsave; exact Hw0] |];
         pose proof (logIn_store (fields saved) req w2) as Hin;
         destruct (logIn (fields saved) req w2) as [[err r] w3];
         rewrite Hsave in Hin; simpl in Hin; rewrite Hw0 in Hin;
         destruct err;
         (destruct Hin as [Hin | (Hid & _ & Hin)]; [left | right; split]; assumption)
     end).
Qed.

(** X20. The handlers leave the sessions of others alone.  Whatever fails,
    [postLogin], [postSignup] and [logout] change no record of the session
    store but the one under the id of the request and, for a login, the one
    under the id of the session it starts.  A [postLogin] or a [postSignup]
    that leaves the request under its id has not written to the store at
    all: the session of the request is written by the session middleware
    when the response ends.  [logout] leaves the request under its id. *)
Theorem handlers_leave_other_sessions (req : Request) (w : World) (sid : nat) :
  sid <> sessionID req ->
  (sid <> sessionID (snd (fst (postLogin req w))) ->
   sessions (snd (postLogin req w)) !! sid = sessions w !! sid)
  /\ (sid <> sessionID (snd (fst (postSignup req w))) ->
      sessions (snd (postSignup req w)) !! sid = sessions w !! sid)
  /\ sessions (snd (logout req w)) !! sid = sessions w !! sid
  /\ (sessionID (snd (fst (postLogin req w))) = sessionID req ->
      sessions (snd (postLogin req w)) = sessions w)
  /\ (sessionID (snd (fst (postSignup req w))) = sessionID req ->
      sessions (snd (postSignup req w)) = sessions w)
  /\ sessionID (snd (fst (logout req w))) = sessionID req.
Proof.
  intros Hold.
  pose proof (postLogin_store req w) as Hlogin.
  pose proof (postSignup_store req w) as Hsignup.
  destruct (postLogin req w) as [[o1 r1] w1]. destruct (postSignup req w) as [[o2 r2] w2].
  cbn [fst snd].
  split.
  { intros Hnew. destruct Hlogin as [[_ ->] | [_ Hin]]; [reflexivity | auto]. }
  split.
  { intros Hnew. destruct Hsignup as [[_ ->] | [_ Hin]]; [reflexivity | auto]. }
  split.
  { unfold logout, passport_logout.
    destruct (session req) as [s |] eqn:Hs; cbn [session with_user with_session];
      rewrite ?Hs; [| reflexivity].
    unfold session_destroy, store_set, fault. destruct w as [us ss oid ent con fs].
    destruct fs as [| [e |] [| [e' |] fs]]; simpl;
      rewrite ?lookup_delete_ne by congruence; rewrite ?lookup_insert_ne by congruence;
      reflexivity. }
  split.
  { intros Hsame. destruct Hlogin as [[_ Hss] | [Hid _]]; [exact Hss |].
    exfalso. rewrite Hid in Hsame. exact (renewed_id_new _ _ Hsame). }
  split.
  { intros Hsame. destruct Hsignup as [[_ Hss] | [Hid _]]; [exact Hss |].
    exfalso. rewrite Hid in Hsame. exact (renewed_id_new _ _ Hsame). }
  unfold logout, passport_logout.
  destruct (session req) as [s |] eqn:Hs; cbn [session with_user with_session];
    rewrite ?Hs; [| reflexivity].
  unfold session_destroy. destruct (fault _) as [[e |] w3]; reflexivity.
Qed.

(** With a session on the request, [req.logIn] leaves the request under a
    new id with a new session, empty or holding the id of the user. *)
Lemma logIn_renews (u : User) (req : Request) (s : Session) (w : World) :
  session req = Some s ->
  let '(err, r, w1) := logIn u req w in
  sessionID r = renewed_id req (sessions w)
  /\ (session r = Some empty_session \/ session r = Some (login_session u))
  /\ (err = None -> session r = Some (login_session u)).
Proof.
  intros Hs. unfold logIn, session_regenerate, store_destroy, store_set, fault.
  destruct w as [us ss oid ent con fs]. rewrite Hs. simpl.
  destruct fs as [| [e |] [| [e' |] fs]]; simpl; repeat split; auto;
    intros Hx; discriminate Hx.
Qed.

Lemma flashed_appends (type : string) (msgs : list FlashMsg) (s : Session) (req : Request) :
  sessionID (flashed type msgs s req) = sessionID req
  /\ exists more,
       session (flashed type msgs s req)
       = Some {| passport_user := passport_user s; returnTo := returnTo s;
                 flash := flash s ++ more |}.
Proof. split; [reflexivity | eexists; reflexivity]. Qed.

Lemma session_appends_nothing (s : Session) :
  exists more,
    Some s = Some {| passport_user := passport_user s; returnTo := returnTo s;
                     flash := flash s ++ more |}.
Proof. exists []. rewrite app_nil_r. destruct s; reflexivity. Qed.

(** X21. The handlers add to the flash of the session, or start a new
    session.  For a request with a session, whatever the form, the
    collection and the failing calls, [postLogin] and [postSignup] leave
    the request either under its id, with its session as it was but for
    the messages they pushed after its flash, or, when they went as far as
    [req.logIn], under a new id with a new session, which holds no
    [returnTo] and nothing of the flash of before: its flash is empty or,
    after a login, the success message alone. *)
Theorem handlers_append_flash_or_renew (req : Request) (s : Session) (w : World) :
  session req = Some s ->
  ((sessionID (snd (fst (postLogin req w))) = sessionID req
    /\ exists more,
         session (snd (fst (postLogin req w)))
         = Some {| passport_user := passport_user s; returnTo := returnTo s;
                   flash := flash s ++ more |})
   \/ (sessionID (snd (fst (postLogin req w))) <> sessionID req
       /\ exists s',
            session (snd (fst (postLogin req w))) = Some s'
            /\ returnTo s' = None
            /\ (flash s' = []
                \/ flash s' = [("success", Msg "Success! You are logged in.")])))
  /\ ((sessionID (snd (fst (postSignup req w))) = sessionID req
       /\ exists more,
            session (snd (fst (postSignup req w)))
            = Some {| passport_user := passport_user s; returnTo := returnTo s;
                      flash := flash s ++ more |})
      \/ (sessionID (snd (fst (postSignup req w))) <> sessionID req
          /\ exists s',
               session (snd (fst (postSignup req w))) = Some s'
               /\ returnTo s' = None /\ flash s' = [])).
Proof.
  intros Hs. split.
  - unfold postLogin.
    destruct (0 <? length (login_errors (body req)));
      [rewrite (flash_redirect_flashed _ _ _ req s w Hs); left; apply flashed_appends |].
    destruct (authenticate_local _ _ w) as [[e | [u | info]] w0].
    + left. cbn [fst snd]. rewrite Hs. split; [reflexivity | apply session_appends_nothing].
    + right. pose proof (logIn_renews u req s w0 Hs) as Hin.
      destruct (logIn u req w0) as [[err r] w2].
      destruct Hin as (Hid & Hcases & Hok).
      destruct err as [e |].
      * cbn [fst snd]. split; [rewrite Hid; apply renewed_id_new |].
        destruct Hcases as [-> | ->]; eexists; repeat split; auto.
      * unfold req_flash. rewrite (Hok eq_refl). cbn [fst snd sessionID with_session session].
        split; [rewrite Hid; apply renewed_id_new |].
        eexists. repeat split. right. reflexivity.
    + rewrite (flash_redirect_flashed _ _ _ req s w0 Hs). left. apply flashed_appends.
  - rewrite postSignup_steps. unfold signup_check.
    destruct (0 <? length (signup_errors (body req)));
      [rewrite (flash_redirect_flashed _ _ _ req s w Hs); left; apply flashed_appends |].
    destruct (new_User _ _ _ w) as [doc w0].
    destruct (findOne _ w0) as [[e | [v |]] w1].
    + left. cbn [fst snd]. rewrite Hs. split; [reflexivity | apply session_appends_nothing].
    + rewrite (flash_redirect_flashed _ _ _ req s w1 Hs). left. apply flashed_appends.
    + unfold signup_create. destruct (save doc w1) as [[e | saved] w2].
      * left. cbn [fst snd]. rewrite Hs.
        split; [reflexivity | apply session_appends_nothing].
      * right. pose proof (logIn_renews (fields saved) req s w2 Hs) as Hin.
        destruct (logIn (fields saved) req w2) as [[err r] w3].
        destruct Hin as (Hid & Hcases & _).
        destruct err; cbn [fst snd]; (split; [rewrite Hid; apply renewed_id_new |]);
          destruct Hcases as [-> | ->]; eexists; repeat split.
Qed.

(** X22. The messages of a refused form survive the redirect.  An invalid
    POST /login without a cookie, when the session store does not fail,
    is redirected to "/login" and its session, holding the validation
    messages as its flash and no login reference, is stored under an id
    that was not in use; the request that follows under that id loads that
    very session.  The collection is untouched. *)
Theorem flashed_errors_survive_redirect (b b' : Body) (w : World) :
  login_errors b <> [] ->
  faults w = [] ->
  let '(ran, o, sid, w1) := server todosController homeController POST "/login" None b w in
  ran = ["authController.postLogin"]
  /\ o = Sent (Redirect "/login")
  /\ sessions w !! sid = None
  /\ users w1 = users w
  /\ session_load (Some sid) b' w1
     = (Ok {| body := b'; sessionID := sid;
              session := Some {| passport_user := None; returnTo := None;
                                 flash := map (fun m => ("errors", m)) (login_errors b) |};
              user := None |}, w1).
Proof.
  intros Herr Hfaults.
  unfold server, session_load at 1, passport_session.
  cbn [generate session passport_user empty_session].
  unfold routes. dispatch.
  rewrite (postLogin_invalid (generate b w) empty_session w eq_refl Herr).
  unfold session_end, flashed, with_session.
  cbn [generate returnTo empty_session session sessionID flash passport_user body user app].
  rewrite (bool_decide_eq_false_2
             (Some {| passport_user := None; returnTo := None;
                      flash := map (fun m => ("errors", m)) (login_errors b) |}
              = Some empty_session)).
  2: { intros Heq. injection Heq as Heq. destruct (login_errors b); [congruence | discriminate]. }
  rewrite andb_false_r. rewrite (fault_none w Hfaults).
  split; [reflexivity |]. split; [reflexivity |]. split; [apply fresh_session_id |].
  split; [reflexivity |].
  unfold session_load. rewrite fault_none by exact Hfaults.
  cbn [sessions with_sessions]. rewrite lookup_insert_eq. reflexivity.
Qed.

End Further.

(** * Concrete runs of the further properties *)

Lemma invalid_login_stops_at_validation_witness :
  postLogin (V := validator13) (B := standin_bcrypt) (arriving no_form) bob_world
  = (Sent (Redirect "/login"),
     flashed "errors" [Msg "Please enter a valid email address.";
                       Msg "Password cannot be blank."] empty_session (arriving no_form),
     bob_world).
Proof.
  refine (proj1 (invalid_login_stops_at_validation (V := validator13) (B := standin_bcrypt)
                   (arriving no_form) empty_session bob_world eq_refl _)).
  vm_compute. discriminate.
Defined.

Lemma invalid_signup_stops_at_validation_witness :
  postSignup (V := validator13) (B := standin_bcrypt)
             (arriving (alice_signup "Alice@Example.com ")) no_world
  = (Sent (Redirect "../signup"),
     flashed "errors" [Msg "Please enter a valid email address."] empty_session
             (arriving (alice_signup "Alice@Example.com ")),
     no_world).
Proof.
  refine (proj1 (invalid_signup_stops_at_validation (V := validator13) (B := standin_bcrypt)
                   (arriving (alice_signup "Alice@Example.com ")) empty_session no_world
                   eq_refl _)).
  vm_compute. discriminate.
Defined.

Lemma guest_pages_redirect_members_witness :
  getLogin (arriving_with flashed_session) no_world
  = (Sent (Render "login" "Login"), arriving_with empty_session, no_world).
Proof.
  exact (proj1 (guest_pages_redirect_members (arriving_with flashed_session)
                  flashed_session no_world eq_refl)).
Defined.

Lemma signup_stores_its_user_or_nothing_witness :
  let '(o, r, w1) := postSignup (V := validator13) (B := standin_bcrypt)
                                (arriving bob_again) down_world in
  (exists u,
     users w1 = users down_world ++ [u]
     /\ userName u = Some "bobby"
     /\ email u = Some "bob@example.com"
     /\ (exists salt, password u = Some (StandIn.hash "longpass5" salt))
     /\ ((o = Sent (Redirect "/todos")
          /\ user r = Some u
          /\ session r
             = Some {| passport_user := Some (_id u); returnTo := None; flash := [] |}
          /\ sessionID r <> 1)
         \/ (exists e, o = NextErr e /\ user r = None)))
  \/ (o <> Sent (Redirect "/todos")
      /\ users w1 = users down_world
      /\ user r = None
      /\ session r ≫= passport_user = None).
Proof.
  exact (signup_stores_its_user_or_nothing (V := validator13) (B := standin_bcrypt)
           (arriving bob_again) empty_session down_world eq_refl).
Defined.

Lemma taken_signup_is_refused_witness :
  postSignup (V := validator13) (B := standin_bcrypt) (arriving bob_again) bob_world
  = (Sent (Redirect "../signup"),
     flashed "errors" [account_exists] empty_session (arriving bob_again),
     with_objectIds 2 bob_world).
Proof.
  refine (taken_signup_is_refused (V := validator13) (B := standin_bcrypt)
            (arriving bob_again) empty_session bob_world bob _ eq_refl eq_refl _ _).
  - vm_compute. reflexivity.
  - left. reflexivity.
  - left. vm_compute. reflexivity.
Defined.


Lemma login_sets_user_only_when_verified_witness :
  In bob (users bob_world)
  /\ exists h, password bob = Some h /\ StandIn.compare "correct horse" h = true.
Proof.
  assert (Hrun := login_sets_user_only_when_verified (V := validator13) (B := standin_bcrypt)
                    (arriving bob_login) bob_world bob eq_refl).
  destruct Hrun as (_ & Hin & _ & Hpw & _).
  - vm_compute. reflexivity.
  - split; [exact Hin | exact Hpw].
Defined.

Lemma verified_login_starts_new_session_witness :
  let '(o, r, w1) := postLogin (V := validator13) (B := standin_bcrypt)
                               bob_returning bob_world in
  o = Sent (Redirect "/todos")
  /\ user r = Some bob
  /\ session r
     = Some {| passport_user := Some 0; returnTo := None;
               flash := [("success", Msg "Success! You are logged in.")] |}
  /\ sessionID r <> 1.
Proof.
  assert (Hrun := verified_login_starts_new_session (V := validator13) (B := standin_bcrypt)
                    bob_returning returning_session bob_world "bob@example.com"
                    (StandIn.hash "correct horse" (StandIn.genSalt 10 0)) bob
                    eq_refl eq_refl eq_refl eq_refl eq_refl eq_refl eq_refl eq_refl eq_refl).
  destruct (postLogin bob_returning bob_world) as [[o r] w1].
  destruct Hrun as (Ho & Hu & Hs & Hid & _). repeat split; assumption.
Defined.

Lemma passwordless_account_is_rejected_witness :
  postLogin (V := validator13) (B := standin_bcrypt) (arriving dora_login) dora_world
  = (Sent (Redirect "/login"),
     flashed "errors" [provider_account] empty_session (arriving dora_login), dora_world).
Proof.
  exact (passwordless_account_is_rejected (V := validator13) (B := standin_bcrypt)
           (arriving dora_login) empty_session dora_world "dora@example.com" dora
           eq_refl eq_refl eq_refl eq_refl eq_refl eq_refl (or_introl eq_refl)).
Defined.

Lemma unnormalizable_login_misses_credentials_witness :
  postLogin (V := validator13) (B := standin_bcrypt) (arriving plus_login) down_world
  = (Sent (Redirect "/login"),
     flashed "errors" [Message "Missing credentials"] empty_session (arriving plus_login),
     down_world).
Proof.
  exact (unnormalizable_login_misses_credentials (V := validator13) (B := standin_bcrypt)
           (arriving plus_login) empty_session down_world eq_refl eq_refl eq_refl).
Defined.

Lemma NoDup_one_id (u : User) : NoDup (map _id [u]).
Proof. apply NoDup_singleton. Qed.

Lemma deserialize_serialize_witness :
  deserializeUser (serializeUser carol) carol_world = (Ok (Some carol), carol_world).
Proof.
  exact (proj1 (deserialize_serialize
                  carol carol_request carol_session carol_world
                  eq_refl (NoDup_one_id carol) (or_introl eq_refl) eq_refl eq_refl)).
Defined.

Lemma member_cookie_opens_todos_witness :
  fst (fst (fst (server (V := validator13) (B := standin_bcrypt) sample_todos sample_home
                        GET "/todos" (Some 7) no_form carol_world)))
  = ["ensureAuth"; "todosController.getTodos"].
Proof.
  exact (proj1 (member_cookie_opens_todos (V := validator13) (B := standin_bcrypt)
                  sample_todos sample_home 7 carol_session carol no_form carol_world
                  eq_refl (NoDup_one_id carol) (or_introl eq_refl)
                  (lookup_singleton_eq _ _) eq_refl)).
Defined.

Lemma login_then_todos_witness :
  let '(ran, o, sid, w1) :=
    server (V := validator13) (B := standin_bcrypt) sample_todos sample_home
           POST "/login" None bob_login bob_world in
  o = Sent (Redirect "/todos")
  /\ fst (fst (fst (server (V := validator13) (B := standin_bcrypt) sample_todos sample_home
                           GET "/todos" (Some sid) no_form w1)))
     = ["ensureAuth"; "todosController.getTodos"].
Proof.
  assert (Hrun := login_then_todos (V := validator13) (B := standin_bcrypt)
                    sample_todos sample_home bob_login no_form bob_world
                    "bob@example.com" (StandIn.hash "correct horse" (StandIn.genSalt 10 0))
                    bob eq_refl eq_refl eq_refl eq_refl (NoDup_one_id bob)
                    eq_refl eq_refl eq_refl eq_refl).
  destruct (server sample_todos sample_home POST "/login" None bob_login bob_world)
    as [[[ran o] sid] w1].
  destruct Hrun as (_ & Ho & _ & _ & _ & Htodos). split; assumption.
Defined.

Lemma signup_then_todos_witness :
  let '(ran, o, sid, w1) :=
    server (V := validator13) (B := standin_bcrypt) sample_todos sample_home
           POST "/signup" None (alice_signup "Alice@Example.com") no_world in
  o = Sent (Redirect "/todos")
  /\ fst (fst (fst (server (V := validator13) (B := standin_bcrypt) sample_todos sample_home
                           GET "/todos" (Some sid) no_form w1)))
     = ["ensureAuth"; "todosController.getTodos"].
Proof.
  assert (Hrun := signup_then_todos (V := validator13) (B := standin_bcrypt)
                    sample_todos sample_home (alice_signup "Alice@Example.com") no_form
                    no_world eq_refl eq_refl (NoDup_nil_2 : NoDup (map _id []))
                    (unused_nil _)).
  destruct (server sample_todos sample_home POST "/signup" None _ no_world)
    as [[[ran o] sid] w1].
  destruct Hrun as (_ & Ho & _ & _ & _ & Htodos). split; assumption.
Defined.

Lemma unmodified_password_is_kept_witness :
  map password (users (snd (save (B := standin_bcrypt) carol_renamed carol_world)))
  = [password carol]
  /\ map userName (users (snd (save (B := standin_bcrypt) carol_renamed carol_world)))
     = [Some "caroline"].
Proof.
  split.
  - exact (proj1 (unmodified_password_is_kept (B := standin_bcrypt)
                    carol_renamed carol_world eq_refl eq_refl)).
  - reflexivity.
Defined.

Lemma well_kept_empty : well_kept no_world.
Proof.
  unfold well_kept. simpl. repeat split; try apply NoDup_nil_2. intros v [].
Qed.

Lemma handlers_keep_users_unique_witness :
  well_kept (snd (postSignup (V := validator13) (B := standin_bcrypt)
                    (arriving (erin_signup "erin")) no_world)).
Proof.
  exact (proj1 (handlers_keep_users_unique (V := validator13) (B := standin_bcrypt)
                  (arriving (erin_signup "erin")) empty_session no_world eq_refl
                  well_kept_empty)).
Defined.

Lemma handlers_append_flash_or_renew_witness :
  (sessionID (snd (fst (postLogin (V := validator13) (B := standin_bcrypt)
                          bob_returning bob_world))) = 1
   /\ exists more,
        session (snd (fst (postLogin (V := validator13) (B := standin_bcrypt)
                             bob_returning bob_world)))
        = Some {| passport_user := None; returnTo := Some "/todos/late";
                  flash := [("errors", Msg "Password cannot be blank.")] ++ more |})
  \/ (sessionID (snd (fst (postLogin (V := validator13) (B := standin_bcrypt)
                             bob_returning bob_world))) <> 1
      /\ exists s',
           session (snd (fst (postLogin (V := validator13) (B := standin_bcrypt)
                                bob_returning bob_world))) = Some s'
           /\ returnTo s' = None
           /\ (flash s' = []
               \/ flash s' = [("success", Msg "Success! You are logged in.")])).
Proof.
  exact (proj1 (handlers_append_flash_or_renew (V := validator13) (B := standin_bcrypt)
                  bob_returning returning_session bob_world eq_refl)).
Defined.

Lemma flashed_errors_survive_redirect_witness :
  let '(ran, o, sid, w1) :=
    server (V := validator13) (B := standin_bcrypt) sample_todos sample_home
           POST "/login" None no_form no_world in
  o = Sent (Redirect "/login") /\ users w1 = [].
Proof.
  assert (Hrun := flashed_errors_survive_redirect (V := validator13) (B := standin_bcrypt)
                    sample_todos sample_home no_form no_form no_world).
  destruct (server sample_todos sample_home POST "/login" None no_form no_world)
    as [[[ran o] sid] w1].
  destruct Hrun as (_ & Ho & _ & Hus & _).
  - vm_compute. discriminate.
  - reflexivity.
  - split; assumption.
Defined.

Lemma verify_ignores_case_witness :
  exists stored, email bob = Some stored /\ Js.toLowerCase stored = stored.
Proof.
  refine (proj2 (proj2 (verify_ignores_case (B := standin_bcrypt)
                          "Bob@Example.com" "correct horse" bob_world bob_world bob)) _).
  vm_compute. reflexivity.
Defined.

Lemma main_routes_dispatch_witness :
  router (mainRoutes (V := validator13) (B := standin_bcrypt) sample_home)
         GET "/Login/" (arriving no_form) no_world
  = ran_only "authController.getLogin" getLogin (arriving no_form) no_world.
Proof.
  refine (proj1 (proj1 (proj2 (proj2 (proj2 (proj2 (proj2 (proj2 (proj2 (proj2 (proj2
    (main_routes_dispatch (V := validator13) (B := standin_bcrypt) sample_home
       (arriving no_form) no_world GET "/Login/")))))))))) _)).
  vm_compute. reflexivity.
Defined.

Lemma handlers_leave_other_sessions_witness :
  sessions (snd (logout carol_request failing_store)) !! 8 = sessions failing_store !! 8.
Proof.
  refine (proj1 (proj2 (proj2
    (handlers_leave_other_sessions (V := validator13) (B := standin_bcrypt)
       carol_request failing_store 8 _)))).
  simpl. lia.
Defined.
